(** * Study plan generator: the schedule-generation engine

    A shallow embedding of [EduTech/study_plan_generator.py] and the
    properties of its allocation, topic selection, break insertion,
    difficulty progression, session loop, plan metadata, storage and
    progress update, and of what the dashboard of [EduTech/app.py]
    computes from a stored plan.

    Conventions of the embedding.
    - Python [int] is [Z]; Python [float] is [Q] (exact rationals), so
      [1.5] is [3#2], [1.3] is [13#10], [0.4] is [2#5] and so on; equality
      of floats is [Qeq].  The weights, the allocation and the scores are
      computed exactly.  Where a float is cut to an [int], the integer
      part depends on how the float was rounded: the product
      [daily_hours * 60] of the session duration is the binary64 product
      ([Float64]).  Where scores tie exactly, the binary64 scores of the
      code may differ in their last place and [max] may return another of
      the tied topics than the first; nothing below is stated about which
      of them is returned.
    - A raised exception is a value [Raise e] of the result type [res].
    - A [dict] that the code iterates over ([weights], [allocation],
      [scores]) is an insertion-ordered association list ([PyDict]); a
      [dict] that is only indexed ([current_knowledge],
      [topic_last_studied], [topic_study_count]) is a [gmap].
    - [datetime.now()] is an input: the readings of the clock are gathered
      in the record [Clock], a date being read as its day number (the
      proleptic ordinal of [date.toordinal()], 1 for 0001-01-01).  The part
      of the [datetime] library that the engine uses is the module
      [Datetime]: adding days, which raises [OverflowError] past
      9999-12-31, and the text ["%Y-%m-%d"] of a day.
    - The file [state.json] is the document it holds, or nothing when it
      cannot be read; writing it always succeeds.  [save_plan] alone tells
      a file that is missing from one that cannot be read ([Stored]). *)

From Stdlib Require Import ZArith QArith Qround Qabs Lqa Lia String Ascii List Sorted.
From stdpp Require Import base option list gmap strings pretty.
From Equations Require Import Equations.
Import ListNotations.

Local Open Scope string_scope.
Local Open Scope Z_scope.

(** ** Exceptions and results *)

Inductive exn : Type :=
| ZeroDivisionError
| ValueError
| KeyError
| IndexError
| OverflowError.

Inductive res (A : Type) : Type :=
| Ok (a : A)
| Raise (e : exn).

Arguments Ok {A} a.
Arguments Raise {A} e.

Definition bind {A B : Type} (r : res A) (k : A -> res B) : res B :=
  match r with
  | Ok a => k a
  | Raise e => Raise e
  end.

Notation "x <- r ;; k" := (bind r (fun x => k))
  (at level 100, r at next level, right associativity).

Definition is_ok {A : Type} (r : res A) : bool :=
  match r with Ok _ => true | Raise _ => false end.

(** Left fold of a fallible step, stopping at the first exception: the
    shape of a [for] loop whose body may raise. *)
Fixpoint for_each {S X : Type} (body : S -> X -> res S) (xs : list X) (s : S)
  : res S :=
  match xs with
  | [] => Ok s
  | x :: xs' => s' <- body s x ;; for_each body xs' s'
  end.

(** ** Numbers *)

(** [int(x)] of a float: truncation toward zero. *)
Definition py_int (x : Q) : Z := Z.quot (Qnum x) (Z.pos (Qden x)).

(** Python's [float] is the binary64 format of IEEE 754, and [*] on floats
    is the exact product rounded to the nearest binary64 number, a tie
    going to the number with the even significand.  The exponent has no
    upper bound here: a product beyond the largest binary64 number is not
    modelled. *)
Module Float64.

(** [n / d] to the nearest integer, a tie going to the even one, for
    [0 <= n] and [0 < d]. *)
Definition nearest_even (n d : Z) : Z :=
  let q := n / d in
  let r := n mod d in
  match 2 * r ?= d with
  | Lt => q
  | Gt => q + 1
  | Eq => if Z.even q then q else q + 1
  end.

(** [(n / d) / 2^e] as a fraction. *)
Definition scaled (n d e : Z) : Z * Z :=
  if 0 <=? e then (n, d * 2 ^ e) else (n * 2 ^ (- e), d).

(** The exponent of the unit in the last place of [n / d], for [0 < n] and
    [0 < d]: the [e] with [2^52 <= (n / d) / 2^e < 2^53], and [-1074] for
    the subnormal numbers. *)
Definition ulp_exponent (n d : Z) : Z :=
  let e := Z.log2 n - Z.log2 d - 52 in
  let '(n', d') := scaled n d e in
  let e := if n' <? d' * 2 ^ 52 then e - 1 else e in
  Z.max e (-1074).

(** The unit in the last place of [x]: the distance between the binary64
    numbers around it. *)
Definition ulp (x : Q) : Q :=
  let e := ulp_exponent (Z.abs (Qnum x)) (Z.pos (Qden x)) in
  if 0 <=? e then inject_Z (2 ^ e) else 1 # Z.to_pos (2 ^ (- e)).

(** [float(x)]: the binary64 number nearest to [x]. *)
Definition round (x : Q) : Q :=
  let n := Z.abs (Qnum x) in
  let d := Z.pos (Qden x) in
  if n =? 0 then 0%Q
  else
    let e := ulp_exponent n d in
    let '(n', d') := scaled n d e in
    let m := Z.sgn (Qnum x) * nearest_even n' d' in
    if 0 <=? e then inject_Z (m * 2 ^ e) else m # Z.to_pos (2 ^ (- e)).

(** [a * b] on floats: the operands are read as the floats they are. *)
Definition mul (a b : Q) : Q := round (round a * round b).

End Float64.

(** [a / b] on floats. *)
Definition py_truediv (a b : Q) : res Q :=
  if Qeq_bool b 0 then Raise ZeroDivisionError else Ok (a / b)%Q.

Definition Qlt_bool (a b : Q) : bool := negb (Qle_bool b a).

(** [sum(xs)]: starts from [0] and adds from the left. *)
Definition py_sum (xs : list Q) : Q := fold_left Qplus xs 0%Q.

(** [min(xs)] on integers; the minimum of nothing is a [ValueError]. *)
Definition py_min (xs : list Z) : res Z :=
  match xs with
  | [] => Raise ValueError
  | x :: xs' => Ok (fold_left Z.min xs' x)
  end.

(** [l[i]], with Python's negative indices. *)
Definition py_getitem {A : Type} (l : list A) (i : Z) : res A :=
  let n := Z.of_nat (length l) in
  let j := if i <? 0 then i + n else i in
  if (0 <=? j) && (j <? n) then
    match l !! Z.to_nat j with
    | Some a => Ok a
    | None => Raise IndexError
    end
  else Raise IndexError.

(** [d[k]] on a dict that is only indexed. *)
Definition map_getitem {V : Type} (d : gmap string V) (k : string) : res V :=
  match d !! k with
  | Some v => Ok v
  | None => Raise KeyError
  end.

(** ** Text *)

(** [f"{n:02d}"]. *)
Definition fmt_02d (n : Z) : string :=
  let s := pretty n in
  if (String.length s <? 2)%nat then "0" ++ s else s.

(** [s.split(":")[0]]: the text before the first colon. *)
Fixpoint before_colon (s : string) : string :=
  match s with
  | EmptyString => EmptyString
  | String c s' => if Ascii.eqb c ":" then EmptyString
                   else String c (before_colon s')
  end.

Definition digit_of_ascii (c : ascii) : option Z :=
  let n := Z.of_N (N_of_ascii c) in
  if (48 <=? n) && (n <=? 57) then Some (n - 48) else None.

Fixpoint digits_value (acc : Z) (s : string) : option Z :=
  match s with
  | EmptyString => Some acc
  | String c s' =>
      match digit_of_ascii c with
      | Some d => digits_value (10 * acc + d) s'
      | None => None
      end
  end.

(** [int(s)] on a text of decimal digits; anything else is a
    [ValueError]. *)
Definition py_int_of_str (s : string) : res Z :=
  match s with
  | EmptyString => Raise ValueError
  | _ => match digits_value 0 s with
         | Some n => Ok n
         | None => Raise ValueError
         end
  end.

(** ** Dates

    The day arithmetic and the ["%Y-%m-%d"] text of the [datetime] library,
    on day numbers; the conversion to year, month and day follows the
    library's [_ord2ymd]. *)

Module Datetime.

(** [date.max.toordinal()], the day number of 9999-12-31. *)
Definition MAXORDINAL : Z := 3652059.

(** [now + timedelta(days=days)], on the day number of [now]. *)
Definition add_days (ordinal days : Z) : res Z :=
  let result := ordinal + days in
  if (1 <=? result) && (result <=? MAXORDINAL) then Ok result
  else Raise OverflowError.

Definition is_leap (year : Z) : bool :=
  (year mod 4 =? 0) && (negb (year mod 100 =? 0) || (year mod 400 =? 0)).

Definition days_before_year (year : Z) : Z :=
  let y := year - 1 in y * 365 + y / 4 - y / 100 + y / 400.

Definition days_in_month_table (month : Z) : Z :=
  match month with
  | 1 => 31 | 2 => 28 | 3 => 31 | 4 => 30 | 5 => 31 | 6 => 30
  | 7 => 31 | 8 => 31 | 9 => 30 | 10 => 31 | 11 => 30 | 12 => 31
  | _ => 0
  end.

Definition days_before_month_table (month : Z) : Z :=
  match month with
  | 1 => 0 | 2 => 31 | 3 => 59 | 4 => 90 | 5 => 120 | 6 => 151
  | 7 => 181 | 8 => 212 | 9 => 243 | 10 => 273 | 11 => 304 | 12 => 334
  | _ => 0
  end.

Definition days_before_month (year month : Z) : Z :=
  days_before_month_table month
  + (if (2 <? month) && is_leap year then 1 else 0).

Definition days_in_month (year month : Z) : Z :=
  days_in_month_table month + (if (month =? 2) && is_leap year then 1 else 0).

(** The day number of a year, month and day. *)
Definition ymd2ord (year month day : Z) : Z :=
  days_before_year year + days_before_month year month + day.

(** The month and the day of the month of the day [n] (from 0) of a
    year. *)
Definition month_and_day (leapyear : bool) (n : Z) : Z * Z :=
  let month := Z.shiftr (n + 50) 5 in
  let preceding :=
    days_before_month_table month
    + (if (2 <? month) && leapyear then 1 else 0) in
  if n <? preceding then
    let month := month - 1 in
    let preceding :=
      preceding
      - (days_in_month_table month
         + (if (month =? 2) && leapyear then 1 else 0)) in
    (month, n - preceding + 1)
  else (month, n - preceding + 1).

(** The year, month and day of a day number: cycles of 400, 100, 4 and 1
    years. *)
Definition ord2ymd (ordinal : Z) : Z * Z * Z :=
  let n := ordinal - 1 in
  let n400 := n / 146097 in
  let n := n mod 146097 in
  let year := n400 * 400 + 1 in
  let n100 := n / 36524 in
  let n := n mod 36524 in
  let n4 := n / 1461 in
  let n := n mod 1461 in
  let n1 := n / 365 in
  let n := n mod 365 in
  let year := year + n100 * 100 + n4 * 4 + n1 in
  if (n1 =? 4) || (n100 =? 4) then (year - 1, 12, 31)
  else
    let leapyear := (n1 =? 3) && (negb (n4 =? 24) || (n100 =? 3)) in
    let '(month, day) := month_and_day leapyear n in
    (year, month, day).

Definition digit_char (d : Z) : ascii := ascii_of_N (Z.to_N (48 + d)).

(** [f"{n:02d}"] and [f"{n:04d}"] for the parts of a date. *)
Definition digits2 (n : Z) : string :=
  String (digit_char (n / 10 mod 10)) (String (digit_char (n mod 10)) "").

Definition digits4 (n : Z) : string :=
  String (digit_char (n / 1000 mod 10))
    (String (digit_char (n / 100 mod 10)) (digits2 n)).

(** [d.strftime("%Y-%m-%d")], the year on four digits. *)
Definition strftime_ymd (ordinal : Z) : string :=
  let '(year, month, day) := ord2ymd ordinal in
  digits4 year ++ "-" ++ digits2 month ++ "-" ++ digits2 day.

(** Earlier in the calendar: by year, then month, then day. *)
Definition date_lt (t t' : Z * Z * Z) : Prop :=
  let '(y, m, d) := t in
  let '(y', m', d') := t' in
  y < y' \/ (y = y' /\ (m < m' \/ (m = m' /\ d < d'))).

(** The check that [month_and_day] lands in a month of the table, run
    below on every day of a year. *)
Definition month_and_day_ok (leapyear : bool) (n : Z) : bool :=
  let '(month, day) := month_and_day leapyear n in
  (1 <=? month) && (month <=? 12) && (1 <=? day)
  && (day <=? days_in_month_table month
              + (if (month =? 2) && leapyear then 1 else 0))
  && (days_before_month_table month
      + (if (2 <? month) && leapyear then 1 else 0) + day =? n + 1).

End Datetime.

(** ** Insertion-ordered dictionaries *)

Module PyDict.

Definition t (V : Type) : Type := list (string * V).

Fixpoint get {V : Type} (d : t V) (k : string) : option V :=
  match d with
  | [] => None
  | (k', v) :: d' => if String.eqb k' k then Some v else get d' k
  end.

(** [d[k] = v]: an existing key keeps its place, a new one goes last. *)
Fixpoint set {V : Type} (d : t V) (k : string) (v : V) : t V :=
  match d with
  | [] => [(k, v)]
  | (k', v') :: d' =>
      if String.eqb k' k then (k', v) :: d' else (k', v') :: set d' k v
  end.

Definition keys {V : Type} (d : t V) : list string := map fst d.
Definition values {V : Type} (d : t V) : list V := map snd d.

(** The loop [for k in ks: d[k] = f(k)]. *)
Definition fill {V : Type} (f : string -> V) (ks : list string) (d : t V)
  : t V :=
  fold_left (fun d k => set d k (f k)) ks d.

(** [d[k]] *)
Definition getitem {V : Type} (d : t V) (k : string) : res V :=
  match get d k with
  | Some v => Ok v
  | None => Raise KeyError
  end.

End PyDict.

(** ** Enumerations *)

Inductive DifficultyLevel : Type := BEGINNER | INTERMEDIATE | ADVANCED | EXPERT.

Definition DifficultyLevel_value (d : DifficultyLevel) : string :=
  match d with
  | BEGINNER => "beginner"
  | INTERMEDIATE => "intermediate"
  | ADVANCED => "advanced"
  | EXPERT => "expert"
  end.

Inductive StudyGoal : Type := EXAM_PREP | SKILL_BUILDING | QUICK_REVIEW | DEEP_MASTERY.

Definition StudyGoal_value (g : StudyGoal) : string :=
  match g with
  | EXAM_PREP => "exam_prep"
  | SKILL_BUILDING => "skill_building"
  | QUICK_REVIEW => "quick_review"
  | DEEP_MASTERY => "deep_mastery"
  end.

Inductive TimePreference : Type := MORNING | AFTERNOON | EVENING | NIGHT | FLEXIBLE.

(** ** Records *)

Record Break : Type := mkBreak {
  after_minutes : Z;
  break_minutes : Z;          (* key "duration_minutes" of the break *)
  break_type : string
}.

Record StudySession : Type := mkSession {
  session_date : string;      (* key "date" *)
  time_slot : string;
  duration_minutes : Z;
  topic : string;
  subtopics : list string;
  difficulty : string;
  study_techniques : list string;
  breaks : list Break;
  resources : list string;
  goals : list string;
  pre_session_prep : string;
  post_session_review : string;
  estimated_focus_level : string;
  completed : bool;
  notes : string;
  completed_at : option string
}.

Record Milestone : Type := mkMilestone {
  milestone_day : Z;
  milestone_name : string;
  milestone_description : string;
  milestone_celebration : string
}.

Record StudyPlan : Type := mkPlan {
  plan_id : string;
  created_at : string;
  subject : string;
  goal : string;
  exam_date : option string;
  total_days : Z;
  daily_hours : Q;
  difficulty_level : string;
  sessions : list StudySession;
  milestones : list Milestone;
  weekly_reviews : list string;
  adaptive_recommendations : list string;
  motivational_tips : list string
}.

(** The readings of [datetime.now()] during one call of [generate_plan]. *)
Record Clock : Type := mkClock {
  clock_stamp : string;        (* strftime('%Y%m%d_%H%M%S') for the plan id *)
  clock_start : Z;             (* the day read by _generate_sessions *)
  clock_review : Z -> Z;       (* the day read when [week] is reviewed *)
  clock_created : string       (* isoformat() for created_at *)
}.

(** ** The generator *)

Module StudyPlanGenerator.

(** [self.study_techniques] *)
Definition self_study_techniques : PyDict.t (list string) :=
  [ ("beginner", ["Active Reading"; "Note Taking"; "Flashcards"; "Summary Writing"]);
    ("intermediate", ["Feynman Technique"; "Mind Mapping"; "Practice Problems"; "Peer Discussion"]);
    ("advanced", ["Deep Work Sessions"; "Research Papers"; "Project-Based Learning"; "Teaching Others"]);
    ("expert", ["Original Research"; "Advanced Problem Solving"; "Critical Analysis"; "Innovation Projects"]) ].

(** *** Allocation *)

(** The weight that the first loop of [_calculate_topic_allocation]
    stores for one topic. *)
Definition topic_weight (current_knowledge : gmap string Z)
    (weak_areas : list string) (topic : string) : Q :=
  let knowledge := default 0 (current_knowledge !! topic) in
  let base_weight := 100 - knowledge in
  let weak_boost := if bool_decide (topic ∈ weak_areas) then 3 # 2 else 1%Q in
  let spaced_boost :=
    if (30 <=? knowledge) && (knowledge <=? 70) then 13 # 10 else 1%Q in
  (inject_Z base_weight * weak_boost * spaced_boost)%Q.

Definition topic_weights (topics : list string)
    (current_knowledge : gmap string Z) (weak_areas : list string)
  : PyDict.t Q :=
  PyDict.fill (topic_weight current_knowledge weak_areas) topics [].

(** [sum(weights.values())] *)
Definition total_weight (topics : list string)
    (current_knowledge : gmap string Z) (weak_areas : list string) : Q :=
  py_sum (PyDict.values (topic_weights topics current_knowledge weak_areas)).

Definition _calculate_topic_allocation (topics : list string)
    (total_days : Z) (daily_hours : Q) (current_knowledge : gmap string Z)
    (weak_areas : list string) : res (PyDict.t Q) :=
  let total_hours := (inject_Z total_days * daily_hours)%Q in
  let weights := topic_weights topics current_knowledge weak_areas in
  let total_weight := total_weight topics current_knowledge weak_areas in
  for_each
    (fun allocation '(topic, weight) =>
       share <- py_truediv weight total_weight ;;
       Ok (PyDict.set allocation topic (share * total_hours)%Q))
    weights [].

(** *** Topic selection *)

Definition optimal_intervals : list Z := [1; 3; 7; 14; 30].

Definition spaced_score (study_count days_since : Z) : res Z :=
  if study_count =? 0 then Ok 1000
  else
    nearest <- py_min (map (fun interval => Z.abs (days_since - interval))
                         optimal_intervals) ;;
    Ok (100 - nearest).

Definition topic_score (allocation : PyDict.t Q) (day : Z)
    (last_studied study_count : gmap string Z) (topic : string) : res Q :=
  last <- map_getitem last_studied topic ;;
  let days_since := day - last in
  hours <- PyDict.getitem allocation topic ;;
  count <- map_getitem study_count topic ;;
  let remaining := (hours - inject_Z count * (3 # 2))%Q in
  spaced <- spaced_score count days_since ;;
  Ok (remaining * (2 # 5) + inject_Z spaced * (2 # 5)
      + inject_Z days_since * (1 # 5))%Q.

(** [max(scores, key=scores.get)]: the first key whose score no later
    key exceeds. *)
Fixpoint max_from (best : string) (best_score : Q) (rest : PyDict.t Q)
  : string :=
  match rest with
  | [] => best
  | (k, v) :: rest' =>
      if Qlt_bool best_score v then max_from k v rest'
      else max_from best best_score rest'
  end.

Definition max_key (scores : PyDict.t Q) : res string :=
  match scores with
  | [] => Raise ValueError
  | (k, v) :: rest => Ok (max_from k v rest)
  end.

Definition _select_topic_for_day (topics : list string)
    (allocation : PyDict.t Q) (day : Z)
    (last_studied study_count : gmap string Z) : res string :=
  scores <- for_each
              (fun scores topic =>
                 s <- topic_score allocation day last_studied study_count topic ;;
                 Ok (PyDict.set scores topic s))
              topics [] ;;
  max_key scores.

(** *** Time slot *)

Definition _get_optimal_time_slot (preference : TimePreference) (day : Z)
    (hours : Q) : res string :=
  match preference with
  | MORNING => Ok ("06:00 - " ++ fmt_02d (6 + py_int hours) ++ ":00")
  | AFTERNOON => Ok ("14:00 - " ++ fmt_02d (14 + py_int hours) ++ ":00")
  | EVENING => Ok ("18:00 - " ++ fmt_02d (18 + py_int hours) ++ ":00")
  | NIGHT => Ok ("21:00 - " ++ fmt_02d (21 + py_int hours) ++ ":00")
  | FLEXIBLE =>
      let slots := ["07:00"; "14:00"; "18:00"] in
      start <- py_getitem slots (day mod Z.of_nat (length slots)) ;;
      start_hour <- py_int_of_str (before_colon start) ;;
      let end_hour := start_hour + py_int hours in
      Ok (start ++ " - " ++ fmt_02d end_hour ++ ":00")
  end.

(** *** Pomodoro breaks *)

Definition pomodoro_cycle : Z := 25.
Definition short_break : Z := 5.
Definition long_break : Z := 15.

(** The [while] loop of [_calculate_breaks], from the state
    [(breaks, completed_pomodoros, elapsed)]. *)
Equations? breaks_loop (duration_minutes : Z) (breaks : list Break)
    (completed_pomodoros elapsed : Z) : list Break
  by wf (Z.to_nat (duration_minutes - elapsed)) lt :=
  breaks_loop duration_minutes breaks completed_pomodoros elapsed
    with decide (elapsed < duration_minutes) => {
    | right _ := breaks
    | left _ :=
        let work_time := Z.min pomodoro_cycle (duration_minutes - elapsed) in
        let elapsed1 := elapsed + work_time in
        let completed1 := completed_pomodoros + 1 in
        if decide (elapsed1 < duration_minutes) then
          let break_time :=
            if completed1 mod 4 =? 0 then long_break else short_break in
          breaks_loop duration_minutes
            (breaks ++ [ {| after_minutes := elapsed1;
                            break_minutes := break_time;
                            break_type := if break_time =? long_break
                                          then "long" else "short" |} ])
            completed1 (elapsed1 + break_time)
        else
          breaks_loop duration_minutes breaks completed1 elapsed1 }.
Proof.
  all: unfold pomodoro_cycle, short_break, long_break in *;
    try destruct (_ =? 0); lia.
Qed.

Definition _calculate_breaks (duration_minutes : Z) : list Break :=
  breaks_loop duration_minutes [] 0 0.

(** *** Difficulty progression *)

Definition difficulties : list string :=
  ["beginner"; "intermediate"; "advanced"; "expert"].

(** [difficulties.index(x)] *)
Fixpoint py_index (l : list string) (x : string) : res Z :=
  match l with
  | [] => Raise ValueError
  | y :: l' => if String.eqb y x then Ok 0
               else i <- py_index l' x ;; Ok (i + 1)
  end.

Definition _get_session_difficulty (base_difficulty : DifficultyLevel)
    (day total_days : Z) : res string :=
  progress_ratio <- py_truediv (inject_Z day) (inject_Z total_days) ;;
  base_idx <- py_index difficulties (DifficultyLevel_value base_difficulty) ;;
  if Qlt_bool progress_ratio (3 # 10) then
    py_getitem difficulties (Z.max 0 (base_idx - 1))
  else if Qlt_bool progress_ratio (3 # 5) then
    py_getitem difficulties base_idx
  else if Qlt_bool progress_ratio (17 # 20) then
    py_getitem difficulties
      (Z.min (Z.of_nat (length difficulties) - 1) (base_idx + 1))
  else
    py_getitem difficulties
      (Z.min (Z.of_nat (length difficulties) - 1) (base_idx + 1)).

(** *** Session content *)

Definition style_techniques : PyDict.t (list string) :=
  [ ("visual", ["Diagrams"; "Color Coding"; "Video Tutorials"]);
    ("auditory", ["Podcasts"; "Discussions"; "Read Aloud"]);
    ("kinesthetic", ["Hands-on Practice"; "Real Projects"; "Lab Work"]);
    ("reading", ["Textbooks"; "Articles"; "Documentation"]) ].

Definition _select_study_techniques (difficulty learning_style : string)
    (day : Z) : res (list string) :=
  fallback <- PyDict.getitem self_study_techniques "intermediate" ;;
  let base_techniques :=
    default fallback (PyDict.get self_study_techniques difficulty) in
  let selected := take 2 base_techniques in
  Ok (selected
      ++ take 1 (default [] (PyDict.get style_techniques learning_style)))%list.

Definition _generate_subtopics (topic : string) (day : Z) (goal : StudyGoal)
  : list string :=
  match goal with
  | EXAM_PREP =>
      [ topic ++ " - Core Concepts";
        topic ++ " - Practice Problems";
        topic ++ " - Common Mistakes" ]
  | DEEP_MASTERY =>
      [ topic ++ " - Theoretical Foundation";
        topic ++ " - Advanced Applications";
        topic ++ " - Research & Innovation" ]
  | QUICK_REVIEW =>
      [ topic ++ " - Key Points Review";
        topic ++ " - Quick Quiz" ]
  | SKILL_BUILDING =>
      [ topic ++ " - Introduction";
        topic ++ " - Practice";
        topic ++ " - Application" ]
  end.

Definition _generate_session_goals (topic : string) (subtopics : list string)
    (goal : StudyGoal) : res (list string) :=
  first <- py_getitem subtopics 0 ;;
  Ok [ "Understand core concepts of " ++ topic;
       "Complete exercises on " ++ first;
       "Achieve 80%+ on practice quiz" ].

Definition learning_resources : PyDict.t (list string) :=
  [ ("visual", ["YouTube tutorials"; "Infographics"; "Interactive simulations"]);
    ("auditory", ["Podcasts"; "Audio lectures"; "Study group discussions"]);
    ("kinesthetic", ["Hands-on projects"; "Lab exercises"; "Real-world applications"]);
    ("reading", ["Textbook chapters"; "Research papers"; "Online documentation"]) ].

Definition _get_learning_resources (topic learning_style : string)
  : res (list string) :=
  fallback <- PyDict.getitem learning_resources "visual" ;;
  Ok (default fallback (PyDict.get learning_resources learning_style)).

Definition _estimate_focus_level (time_slot : string) (day : Z) : res string :=
  hour <- py_int_of_str (before_colon time_slot) ;;
  let focus :=
    if ((9 <=? hour) && (hour <=? 11)) || ((15 <=? hour) && (hour <=? 17))
    then "High"
    else if ((6 <=? hour) && (hour <=? 9)) || ((11 <=? hour) && (hour <=? 15))
            || ((17 <=? hour) && (hour <=? 20))
    then "Medium"
    else "Low" in
  Ok (if (20 <? day) && String.eqb focus "High" then "Medium-High" else focus).

Definition _get_pre_session_prep (day : Z) (topic : string) : res string :=
  let preps :=
    [ "Review notes from previous " ++ topic ++ " session";
      "Set up study environment (minimize distractions)";
      "Gather all materials and resources";
      "Do a 5-minute breathing exercise to focus";
      "Set specific goals for this session" ] in
  py_getitem preps (day mod Z.of_nat (length preps)).

Definition _get_post_session_review (day : Z) (topic : string) : res string :=
  let reviews :=
    [ "Summarize key learnings in your own words";
      "Create flashcards for important concepts";
      "Teach the concept to someone else (Feynman Technique)";
      "Identify 3 things you learned and 1 question you still have";
      "Update your study notes with new insights" ] in
  py_getitem reviews (day mod Z.of_nat (length reviews)).

(** *** The session loop *)

(** What the loop of [_generate_sessions] carries from day to day. *)
Record Tracking : Type := mkTracking {
  sessions_so_far : list StudySession;
  topic_last_studied : gmap string Z;
  topic_study_count : gmap string Z
}.

(** [{topic: v for topic in topics}] *)
Definition dict_from_keys (topics : list string) (v : Z) : gmap string Z :=
  fold_left (fun d topic => <[topic := v]> d) topics ∅.

(** The body of the loop, for [day] in [range(total_days)]. *)
Definition session_body (topics : list string) (topic_allocation : PyDict.t Q)
    (total_days : Z) (daily_hours : Q) (difficulty : DifficultyLevel)
    (time_preference : TimePreference) (learning_style : string)
    (breaks_enabled : bool) (goal : StudyGoal) (start_date : Z)
    (st : Tracking) (day : Z) : res Tracking :=
  current_date <- Datetime.add_days start_date day ;;
  let day_number := day + 1 in
  topic <- _select_topic_for_day topics topic_allocation day_number
             (topic_last_studied st) (topic_study_count st) ;;
  time_slot <- _get_optimal_time_slot time_preference day_number daily_hours ;;
  let duration := py_int (Float64.mul daily_hours 60) in
  let breaks := if breaks_enabled then _calculate_breaks duration else [] in
  session_difficulty <- _get_session_difficulty difficulty day_number total_days ;;
  techniques <- _select_study_techniques session_difficulty learning_style day_number ;;
  let subtopics := _generate_subtopics topic day_number goal in
  goals <- _generate_session_goals topic subtopics goal ;;
  resources <- _get_learning_resources topic learning_style ;;
  focus_level <- _estimate_focus_level time_slot day_number ;;
  pre_prep <- _get_pre_session_prep day_number topic ;;
  post_review <- _get_post_session_review day_number topic ;;
  let session :=
    {| session_date := Datetime.strftime_ymd current_date;
       time_slot := time_slot;
       duration_minutes := duration;
       topic := topic;
       subtopics := subtopics;
       difficulty := session_difficulty;
       study_techniques := techniques;
       breaks := breaks;
       resources := resources;
       goals := goals;
       pre_session_prep := pre_prep;
       post_session_review := post_review;
       estimated_focus_level := focus_level;
       completed := false;
       notes := "";
       completed_at := None |} in
  count <- map_getitem (topic_study_count st) topic ;;
  Ok {| sessions_so_far := sessions_so_far st ++ [session];
        topic_last_studied := <[topic := day_number]> (topic_last_studied st);
        topic_study_count := <[topic := count + 1]> (topic_study_count st) |}.

Definition _generate_sessions (start_date : Z) (topics : list string)
    (topic_allocation : PyDict.t Q) (total_days : Z) (daily_hours : Q)
    (difficulty : DifficultyLevel) (time_preference : TimePreference)
    (learning_style : string) (breaks_enabled : bool) (goal : StudyGoal)
  : res (list StudySession) :=
  st <- for_each
          (session_body topics topic_allocation total_days daily_hours
             difficulty time_preference learning_style breaks_enabled goal
             start_date)
          (seqZ 0 total_days)
          {| sessions_so_far := [];
             topic_last_studied := dict_from_keys topics (-999);
             topic_study_count := dict_from_keys topics 0 |} ;;
  Ok (sessions_so_far st).

(** *** Plan metadata *)

(** [enumerate(l)] *)
Definition enumerate {A : Type} (l : list A) : list (Z * A) :=
  zip (seqZ 0 (Z.of_nat (length l))) l.

Definition _create_milestones (topics : list string) (total_days : Z)
    (goal : StudyGoal) : res (list Milestone) :=
  let milestone_days :=
    [ py_int (inject_Z total_days * (1 # 4));
      py_int (inject_Z total_days * (1 # 2));
      py_int (inject_Z total_days * (3 # 4));
      total_days ] in
  let milestone_names :=
    [ "Foundation Complete"; "Halfway Champion"; "Advanced Mastery";
      "Goal Achieved" ] in
  for_each
    (fun milestones '(i, day) =>
       name <- py_getitem milestone_names i ;;
       Ok (milestones
           ++ [ {| milestone_day := day;
                   milestone_name := name;
                   milestone_description :=
                     ("Complete " ++ pretty ((i + 1) * 25)
                      ++ "% of study plan")%string;
                   milestone_celebration :=
                     "Take a day to review and celebrate your progress!" |} ])%list)
    (enumerate milestone_days) [].

(** The [while] loop of [_generate_weekly_reviews]; [now week] is the
    day that [datetime.now()] gives in the round for [week]. *)
Equations? reviews_loop (now : Z -> Z) (total_days : Z)
    (reviews : list string) (week : Z) : res (list string)
  by wf (Z.to_nat (total_days - week + 1)) lt :=
  reviews_loop now total_days reviews week with decide (week <= total_days) => {
    | right _ := Ok reviews
    | left _ with Datetime.add_days (now week) week => {
      | Raise e := Raise e
      | Ok day :=
          reviews_loop now total_days
            (reviews ++ [ ("Week " ++ pretty (week / 7) ++ " Review - "
                           ++ Datetime.strftime_ymd day)%string ])
            (week + 7) } }.
Proof. lia. Qed.

Definition _generate_weekly_reviews (now : Z -> Z) (total_days : Z)
  : res (list string) :=
  reviews_loop now total_days [] 7.

(** The texts of [_generate_recommendations] and
    [_generate_motivational_tips], without their leading pictograph. *)
Definition _generate_recommendations (difficulty : DifficultyLevel)
    (goal : StudyGoal) (daily_hours : Q) (learning_style : string)
  : list string :=
  ((if Qlt_bool daily_hours 2
    then ["Consider increasing study time to 2-3 hours for better retention"]
    else [])
   ++ (match difficulty with
       | BEGINNER =>
           ["Start with foundational concepts before moving to complex topics"]
       | _ => []
       end)
   ++ (match goal with
       | EXAM_PREP =>
           ["Focus on practice tests in the last 20% of your study plan"]
       | _ => []
       end)
   ++ [ ("Your " ++ learning_style
          ++ " learning style works best with interactive resources")%string;
        "Use spaced repetition: review topics after 1, 3, 7, and 14 days";
        "Take breaks every 25-30 minutes to maintain peak focus" ])%list.

Definition _generate_motivational_tips (total_days : Z) (goal : StudyGoal)
  : list string :=
  [ "Every expert was once a beginner. Keep going!";
    "Consistency beats intensity. Show up every day.";
    "Focus on progress, not perfection.";
    "Your future self will thank you for starting today.";
    "Difficult roads often lead to beautiful destinations.";
    "Learning is a journey, not a destination.";
    "Small daily improvements lead to stunning results.";
    "You're investing in the best asset - yourself!" ].

(** *** [generate_plan] *)

(** [current_knowledge] after [if current_knowledge is None: ...]. *)
Definition knowledge_or_zero (topics : list string)
    (current_knowledge : option (gmap string Z)) : gmap string Z :=
  match current_knowledge with
  | None => dict_from_keys topics 0
  | Some knowledge => knowledge
  end.

Definition generate_plan (clock : Clock) (subject : string)
    (topics : list string) (goal : StudyGoal) (difficulty : DifficultyLevel)
    (total_days : Z) (daily_hours : Q) (exam_date : option string)
    (time_preference : TimePreference) (learning_style : string)
    (current_knowledge : option (gmap string Z))
    (weak_areas : option (list string)) (breaks_enabled : bool)
  : res StudyPlan :=
  let plan_id := "plan_" ++ clock_stamp clock in
  let current_knowledge := knowledge_or_zero topics current_knowledge in
  let weak_areas := default [] weak_areas in
  topic_allocation <- _calculate_topic_allocation topics total_days
                        daily_hours current_knowledge weak_areas ;;
  sessions <- _generate_sessions (clock_start clock) topics topic_allocation
                total_days daily_hours difficulty time_preference
                learning_style breaks_enabled goal ;;
  milestones <- _create_milestones topics total_days goal ;;
  weekly_reviews <- _generate_weekly_reviews (clock_review clock) total_days ;;
  let recommendations :=
    _generate_recommendations difficulty goal daily_hours learning_style in
  let motivational_tips := _generate_motivational_tips total_days goal in
  Ok {| plan_id := plan_id;
        created_at := clock_created clock;
        subject := subject;
        goal := StudyGoal_value goal;
        exam_date := exam_date;
        total_days := total_days;
        daily_hours := daily_hours;
        difficulty_level := DifficultyLevel_value difficulty;
        sessions := sessions;
        milestones := milestones;
        weekly_reviews := weekly_reviews;
        adaptive_recommendations := recommendations;
        motivational_tips := motivational_tips |}.

(** *** The stored document and [update_session_progress] *)

(** The JSON document of [state.json]: its key ["study_plans"], when
    present, holds the plans in the shape of [asdict]. *)
Record Document : Type := mkDocument {
  study_plans : option (list StudyPlan)
}.

(** The three assignments to the session found. *)
Definition set_progress (session : StudySession) (completed0 : bool)
    (notes0 : string) (now : string) : StudySession :=
  {| session_date := session_date session;
     time_slot := time_slot session;
     duration_minutes := duration_minutes session;
     topic := topic session;
     subtopics := subtopics session;
     difficulty := difficulty session;
     study_techniques := study_techniques session;
     breaks := breaks session;
     resources := resources session;
     goals := goals session;
     pre_session_prep := pre_session_prep session;
     post_session_review := post_session_review session;
     estimated_focus_level := estimated_focus_level session;
     completed := completed0;
     notes := notes0;
     completed_at := Some now |}.

(** The inner loop: the first session with the date is changed, then
    [break]. *)
Fixpoint update_sessions (sessions : list StudySession) (date0 : string)
    (completed0 : bool) (notes0 : string) (now : string)
  : list StudySession :=
  match sessions with
  | [] => []
  | session :: rest =>
      if String.eqb (session_date session) date0 then
        set_progress session completed0 notes0 now :: rest
      else session :: update_sessions rest date0 completed0 notes0 now
  end.

(** [plan["sessions"]] after the inner loop. *)
Definition with_sessions (plan : StudyPlan) (sessions0 : list StudySession)
  : StudyPlan :=
  {| plan_id := plan_id plan;
     created_at := created_at plan;
     subject := subject plan;
     goal := goal plan;
     exam_date := exam_date plan;
     total_days := total_days plan;
     daily_hours := daily_hours plan;
     difficulty_level := difficulty_level plan;
     sessions := sessions0;
     milestones := milestones plan;
     weekly_reviews := weekly_reviews plan;
     adaptive_recommendations := adaptive_recommendations plan;
     motivational_tips := motivational_tips plan |}.

(** The outer loop: the first plan with the id is visited, then [break]. *)
Fixpoint update_plans (plans : list StudyPlan) (id : string) (date0 : string)
    (completed0 : bool) (notes0 : string) (now : string) : list StudyPlan :=
  match plans with
  | [] => []
  | plan :: rest =>
      if String.eqb (plan_id plan) id then
        with_sessions plan
          (update_sessions (sessions plan) date0 completed0 notes0 now)
        :: rest
      else plan :: update_plans rest id date0 completed0 notes0 now
  end.

(** [file] is what reading [filepath] gives: [None] when [open] or
    [json.load] raises.  [now] is [datetime.now().isoformat()].  The
    result is the returned flag and the file afterwards. *)
Definition update_session_progress (file : option Document) (now : string)
    (id : string) (date0 : string) (completed0 : bool) (notes0 : string)
  : bool * option Document :=
  match file with
  | None => (false, None)
  | Some data =>
      let data' :=
        {| study_plans :=
             match study_plans data with
             | None => None
             | Some plans =>
                 Some (update_plans plans id date0 completed0 notes0 now)
             end |} in
      (true, Some data')
  end.

(** *** [save_plan] and [load_plan] *)

(** What [open] and [json.load] give to [save_plan], which tells a file
    that does not exist ([FileNotFoundError]) from one that cannot be read
    or parsed (any other exception). *)
Inductive Stored : Type :=
  | Missing
  | Unreadable
  | Holds (data : Document).

(** What they give to [load_plan] and [update_session_progress], which
    catch every exception alike. *)
Definition read (file : Stored) : option Document :=
  match file with
  | Holds data => Some data
  | Missing | Unreadable => None
  end.

(** The loop that sets [existing_idx]: the index of the first plan with
    the id. *)
Fixpoint existing_idx (plans : list StudyPlan) (id : string) : option nat :=
  match plans with
  | [] => None
  | p :: rest =>
      if String.eqb (plan_id p) id then Some 0%nat
      else S <$> existing_idx rest id
  end.

(** [plan] stands for [asdict(plan)], the plan in the shape of the
    document; the assignment at [existing_idx] is within the list.  The
    result is the returned flag and the file afterwards. *)
Definition save_plan (file : Stored) (plan : StudyPlan) : bool * Stored :=
  match file with
  | Unreadable => (false, Unreadable)
  | Missing | Holds _ =>
      let data :=
        match file with
        | Holds data => data
        | _ => {| study_plans := Some [] |}
        end in
      let plans := default [] (study_plans data) in
      let plans' :=
        match existing_idx plans (plan_id plan) with
        | Some i => <[i := plan]> plans
        | None => (plans ++ [plan])%list
        end in
      (true, Holds {| study_plans := Some plans' |})
  end.

(** The loop of [load_plan]: the first plan with the id. *)
Fixpoint find_plan (plans : list StudyPlan) (id : string) : option StudyPlan :=
  match plans with
  | [] => None
  | p :: rest => if String.eqb (plan_id p) id then Some p else find_plan rest id
  end.

(** [file] is what reading [filepath] gives, [None] when [open] or
    [json.load] raises; the plan found is rebuilt field by field. *)
Definition load_plan (file : option Document) (id : string)
  : option StudyPlan :=
  match file with
  | None => None
  | Some data => find_plan (default [] (study_plans data)) id
  end.

(** *** [get_todays_session] *)

(** [now] is the day that [datetime.now()] gives. *)
Definition get_todays_session (now : Z) (plan : StudyPlan)
  : option StudySession :=
  let today := Datetime.strftime_ymd now in
  List.find (fun session => String.eqb (session_date session) today)
    (sessions plan).

End StudyPlanGenerator.

(** ** The dashboard

    What [EduTech/app.py] computes from a stored plan, a [dict] in the
    shape of [asdict]. *)

Module App.

(** [sum(1 for s in plan['sessions'] if s.get('completed', False))], the
    count of [create_progress_chart], of the metrics and of the milestones
    tab. *)
Definition completed_sessions (plan : StudyPlan) : Z :=
  fold_left (fun count s => if completed s then count + 1 else count)
    (sessions plan) 0.

(** The progress metric of [render_dashboard_page]. *)
Definition progress (plan : StudyPlan) : res Q :=
  let completed := completed_sessions plan in
  let total := Z.of_nat (length (sessions plan)) in
  if 0 <? total then
    ratio <- py_truediv (inject_Z completed) (inject_Z total) ;;
    Ok (ratio * 100)%Q
  else Ok 0%Q.

(** [is_achieved] for a milestone, in the milestones tab of
    [render_dashboard_page]. *)
Definition is_achieved (plan : StudyPlan) (milestone : Milestone) : bool :=
  let completed := completed_sessions plan in
  milestone_day milestone <=? completed.

(** The loop of the study streak in [render_dashboard_page], over
    [reversed(plan['sessions'])]. *)
Fixpoint streak_loop (sessions : list StudySession) (streak : Z) : Z :=
  match sessions with
  | [] => streak
  | session :: rest =>
      if completed session then streak_loop rest (streak + 1) else streak
  end.

Definition streak (plan : StudyPlan) : Z :=
  streak_loop (rev (sessions plan)) 0.

(** The loop of [create_topic_distribution_chart]: the labels of the chart
    are the keys and its values the values. *)
Definition topic_distribution (plan : StudyPlan) : PyDict.t Z :=
  fold_left
    (fun topics session =>
       PyDict.set topics (topic session)
         (default 0 (PyDict.get topics (topic session)) + 1))
    (sessions plan) [].

End App.

(** ** Statements about sessions and stored plans *)

(** [round(x)] as the specification words the session duration: the
    nearest integer, a tie going to the even neighbour. *)
Definition spec_round (x : Q) : Z :=
  let below := Qfloor x in
  let rest := (x - inject_Z below)%Q in
  if Qlt_bool rest (1 # 2) then below
  else if Qlt_bool (1 # 2) rest then below + 1
  else if Z.even below then below else below + 1.

(** The session composed for the loop index [day]. *)
Definition composed_for (start_date : Z) (daily_hours0 : Q) (day : Z)
    (session : StudySession) : Prop :=
  1 <= start_date + day <= Datetime.MAXORDINAL
  /\ session_date session = Datetime.strftime_ymd (start_date + day)
  /\ duration_minutes session = py_int (Float64.mul daily_hours0 60)
  /\ before_colon (time_slot session) ∈ ["06"; "07"; "14"; "18"; "21"]
  /\ (estimated_focus_level session = "Medium"
      \/ estimated_focus_level session = "Low").

(** The days that a call reads and reaches lie in the calendar: the days
    of the sessions, and the day of every weekly review. *)
Definition clock_in_range (clock : Clock) (total_days0 : Z) : Prop :=
  (0 < total_days0 ->
   1 <= clock_start clock
   /\ clock_start clock + total_days0 - 1 <= Datetime.MAXORDINAL)
  /\ forall week, 7 <= week <= total_days0 ->
       1 <= clock_review clock week + week <= Datetime.MAXORDINAL.

(** What the history must hold for the topics: an entry each. *)
Definition tracks (topics : list string) (last_studied study_count : gmap string Z)
  : Prop :=
  forall t, t ∈ topics ->
    is_Some (last_studied !! t) /\ is_Some (study_count !! t).

Definition covers (topics : list string) (allocation : PyDict.t Q) : Prop :=
  forall t, t ∈ topics -> is_Some (PyDict.get allocation t).

(** Two sessions that agree on every field but [completed], [notes] and
    [completed_at]. *)
Definition same_but_progress (s s' : StudySession) : Prop :=
  session_date s' = session_date s
  /\ time_slot s' = time_slot s
  /\ duration_minutes s' = duration_minutes s
  /\ topic s' = topic s
  /\ subtopics s' = subtopics s
  /\ difficulty s' = difficulty s
  /\ study_techniques s' = study_techniques s
  /\ breaks s' = breaks s
  /\ resources s' = resources s
  /\ goals s' = goals s
  /\ pre_session_prep s' = pre_session_prep s
  /\ post_session_review s' = post_session_review s
  /\ estimated_focus_level s' = estimated_focus_level s.

(** Two plans that agree on every field but [sessions]. *)
Definition same_but_sessions (p p' : StudyPlan) : Prop :=
  plan_id p' = plan_id p
  /\ created_at p' = created_at p
  /\ subject p' = subject p
  /\ goal p' = goal p
  /\ exam_date p' = exam_date p
  /\ total_days p' = total_days p
  /\ daily_hours p' = daily_hours p
  /\ difficulty_level p' = difficulty_level p
  /\ milestones p' = milestones p
  /\ weekly_reviews p' = weekly_reviews p
  /\ adaptive_recommendations p' = adaptive_recommendations p
  /\ motivational_tips p' = motivational_tips p.

(** ** Sample inputs

    The call at the end of the source file, and small variants of it. *)

Module Sample.
Import StudyPlanGenerator.

Definition clock : Clock :=
  {| clock_stamp := "20250101_090000";
     clock_start := 739252;
     clock_review := fun _ => 739252;
     clock_created := "2025-01-01T09:00:00.000000" |}.

Definition topics : list string :=
  [ "Linear Regression"; "Logistic Regression"; "Neural Networks";
    "Decision Trees"; "Deep Learning" ].

Definition current_knowledge : gmap string Z :=
  <["Linear Regression" := 40]>
    (<["Logistic Regression" := 20]>
       (<["Neural Networks" := 0]>
          (<["Decision Trees" := 30]> (<["Deep Learning" := 0]> ∅)))).

Definition weak_areas : list string := ["Neural Networks"; "Deep Learning"].

(** [generate_plan] on the sample, for a number of days and daily hours. *)
Definition plan_for (total_days0 : Z) (daily_hours0 : Q) : res StudyPlan :=
  generate_plan clock "Machine Learning" topics EXAM_PREP INTERMEDIATE
    total_days0 daily_hours0 (Some "2025-01-20") EVENING "visual"
    (Some current_knowledge) (Some weak_areas) true.

(** A history on the third day: two topics studied, one never. *)
Definition three_topics : list string :=
  ["Linear Regression"; "Decision Trees"; "Deep Learning"].

Definition three_allocation : PyDict.t Q :=
  [ ("Linear Regression", 2%Q); ("Decision Trees", 3%Q);
    ("Deep Learning", 1%Q) ].

Definition last_studied : gmap string Z :=
  <["Linear Regression" := 1]>
    (<["Decision Trees" := 2]> (<["Deep Learning" := -999]> ∅)).

Definition study_count : gmap string Z :=
  <["Linear Regression" := 1]>
    (<["Decision Trees" := 1]> (<["Deep Learning" := 0]> ∅)).

(** The same topics with 5000 hours on the first. *)
Definition heavy_allocation : PyDict.t Q :=
  [ ("Linear Regression", 5000%Q); ("Decision Trees", 3%Q);
    ("Deep Learning", 1%Q) ].

(** One topic, known in full. *)
Definition mastered : gmap string Z := <["Linear Regression" := 100]> ∅.

(** A stored session and a stored plan. *)
Definition session (d : string) : StudySession :=
  {| session_date := d;
     time_slot := "18:00 - 20:00";
     duration_minutes := 150;
     topic := "Neural Networks";
     subtopics := ["Neural Networks - Core Concepts"];
     difficulty := "beginner";
     study_techniques := ["Active Reading"];
     breaks := [];
     resources := ["Infographics"];
     goals := ["Achieve 80%+ on practice quiz"];
     pre_session_prep := "Gather all materials and resources";
     post_session_review := "Create flashcards for important concepts";
     estimated_focus_level := "Medium";
     completed := false;
     notes := "";
     completed_at := None |}.

Definition stored_plan : StudyPlan :=
  {| plan_id := "plan_20250101_090000";
     created_at := "2025-01-01T09:00:00.000000";
     subject := "Machine Learning";
     goal := "exam_prep";
     exam_date := None;
     total_days := 2;
     daily_hours := 5 # 2;
     difficulty_level := "intermediate";
     sessions := [session "2025-01-01"; session "2025-01-02"];
     milestones := [];
     weekly_reviews := [];
     adaptive_recommendations := [];
     motivational_tips := [] |}.

Definition file : option Document :=
  Some {| study_plans := Some [stored_plan] |}.

End Sample.

(** * Properties *)

Import StudyPlanGenerator.

(** ** Statements about breaks, levels, selection and plans *)

(** The elapsed time at which the block after [k] completed blocks
    starts, when each of them was followed by its break: 25 minutes a
    block, 5 a break and 10 more for every fourth break. *)
Definition block_start (k : Z) : Z := 30 * k + 10 * (k / 4).

(** The break that follows block [k + 1]. *)
Definition break_after (k : Z) : Break :=
  {| after_minutes := block_start k + 25;
     break_minutes := if (k + 1) mod 4 =? 0 then 15 else 5;
     break_type := if (k + 1) mod 4 =? 0 then "long" else "short" |}.

(** The place of a level in [difficulties]. *)
Definition level_index (base : DifficultyLevel) : Z :=
  match base with
  | BEGINNER => 0
  | INTERMEDIATE => 1
  | ADVANCED => 2
  | EXPERT => 3
  end.

(** The place in [difficulties] of the level for a day: one below the
    base in the first three tenths of the plan, the base up to three
    fifths, one above from there on. *)
Definition band_index (base : DifficultyLevel) (day total_days : Z) : Z :=
  if 10 * day <? 3 * total_days then Z.max 0 (level_index base - 1)
  else if 5 * day <? 3 * total_days then level_index base
  else Z.min 3 (level_index base + 1).

(** A topic for which one of the three tables read by
    [_select_topic_for_day] has no entry. *)
Definition lacks_entry (allocation : PyDict.t Q)
    (last_studied study_count : gmap string Z) (t : string) : Prop :=
  last_studied !! t = None \/ PyDict.get allocation t = None
  \/ study_count !! t = None.

(** The entry that [_generate_weekly_reviews] adds for week [k]. *)
Definition review_text (now : Z -> Z) (k : Z) : string :=
  "Week " ++ pretty k ++ " Review - "
  ++ Datetime.strftime_ymd (now (7 * k) + 7 * k).

(** The milestone that [_create_milestones] adds for a day, a name and a
    percentage. *)
Definition milestone_at (day : Z) (name percent : string) : Milestone :=
  {| milestone_day := day;
     milestone_name := name;
     milestone_description := "Complete " ++ percent ++ "% of study plan";
     milestone_celebration :=
       "Take a day to review and celebrate your progress!" |}.

(** The session that the loop composes on the loop index [day]: each
    field is what its helper returns for the day number [day + 1], and the
    progress fields are blank. *)
Definition filled_for (topics : list string) (total_days0 : Z)
    (daily_hours0 : Q) (difficulty0 : DifficultyLevel)
    (time_preference : TimePreference) (learning_style : string)
    (breaks_enabled : bool) (goal0 : StudyGoal) (day : Z)
    (session : StudySession) : Prop :=
  topic session ∈ topics
  /\ _get_optimal_time_slot time_preference (day + 1) daily_hours0
     = Ok (time_slot session)
  /\ breaks session
     = (if breaks_enabled then _calculate_breaks (py_int (Float64.mul daily_hours0 60))
        else [])
  /\ _get_session_difficulty difficulty0 (day + 1) total_days0
     = Ok (difficulty session)
  /\ _select_study_techniques (difficulty session) learning_style (day + 1)
     = Ok (study_techniques session)
  /\ subtopics session = _generate_subtopics (topic session) (day + 1) goal0
  /\ _generate_session_goals (topic session) (subtopics session) goal0
     = Ok (goals session)
  /\ _get_learning_resources (topic session) learning_style
     = Ok (resources session)
  /\ _estimate_focus_level (time_slot session) (day + 1)
     = Ok (estimated_focus_level session)
  /\ _get_pre_session_prep (day + 1) (topic session)
     = Ok (pre_session_prep session)
  /\ _get_post_session_review (day + 1) (topic session)
     = Ok (post_session_review session)
  /\ completed session = false
  /\ notes session = ""
  /\ completed_at session = None.


(** ** Statements about the stored plans and the dashboard *)

(** The plans that a file holds: none when it is missing or cannot be
    read. *)
Definition stored_plans (file : Stored) : list StudyPlan :=
  match file with
  | Holds data => default [] (study_plans data)
  | Missing | Unreadable => []
  end.

(** The number of sessions on a topic. *)
Definition sessions_on (t : string) (sessions0 : list StudySession) : Z :=
  Z.of_nat (length (filter (fun s => topic s = t) sessions0)).

(** ** Results and loops *)

Lemma bind_ok_inv {A B : Type} (r : res A) (k : A -> res B) (b : B) :
  bind r k = Ok b -> exists a, r = Ok a /\ k a = Ok b.
Proof. destruct r as [a|e]; simpl; [eauto | discriminate]. Qed.

(** A loop whose rounds cannot fail is a plain left fold. *)
Lemma for_each_total {S X : Type} (body : S -> X -> res S) (step : S -> X -> S)
    (xs : list X) :
  (forall s x, x ∈ xs -> body s x = Ok (step s x)) ->
  forall s, for_each body xs s = Ok (fold_left step xs s).
Proof.
  induction xs as [|x xs IH]; simpl; intros Hbody s; [reflexivity|].
  rewrite Hbody by apply list_elem_of_here. simpl.
  apply IH. intros s0 y Hy. apply Hbody. by apply list_elem_of_further.
Qed.

(** ** Comparisons on rationals *)

Lemma Qlt_bool_true (a b : Q) : Qlt_bool a b = true <-> (a < b)%Q.
Proof.
  unfold Qlt_bool. rewrite negb_true_iff.
  destruct (Qle_bool b a) eqn:E.
  - apply Qle_bool_iff in E. split; [discriminate | intros H; lra].
  - split; [intros _ | reflexivity].
    destruct (Qlt_le_dec a b) as [H|H]; [exact H|].
    apply Qle_bool_iff in H. congruence.
Qed.

Lemma Qlt_bool_false (a b : Q) : Qlt_bool a b = false <-> (b <= a)%Q.
Proof.
  unfold Qlt_bool. rewrite negb_false_iff. apply Qle_bool_iff.
Qed.

Lemma py_truediv_ok (a b : Q) : ~ (b == 0)%Q -> py_truediv a b = Ok (a / b)%Q.
Proof.
  intros Hb. unfold py_truediv.
  destruct (Qeq_bool b 0) eqn:E; [|reflexivity].
  apply Qeq_bool_iff in E. contradiction.
Qed.

Lemma py_truediv_zero (a b : Q) : (b == 0)%Q -> py_truediv a b = Raise ZeroDivisionError.
Proof.
  intros Hb. unfold py_truediv. apply Qeq_bool_iff in Hb. by rewrite Hb.
Qed.

(** ** Binary64

    [Float64.round] returns a binary64 number nearest to its argument: a
    significand of at most 53 bits times the unit in the last place, at
    most half a unit away, with the even significand on a tie; the unit is
    the one of a normal number, or [2^-1074]. *)

Section binary64.
Import Float64.

Lemma nearest_even_close (n d : Z) :
  0 <= n -> 0 < d ->
  0 <= nearest_even n d
  /\ Z.abs (2 * n - 2 * nearest_even n d * d) <= d
  /\ (Z.abs (2 * n - 2 * nearest_even n d * d) = d ->
      Z.even (nearest_even n d) = true).
Proof.
  intros Hn Hd. unfold nearest_even.
  pose proof (Z.div_mod n d ltac:(lia)) as Hdiv.
  pose proof (Z.mod_pos_bound n d Hd) as Hmod.
  pose proof (Z.div_pos n d Hn Hd) as Hq.
  set (q := n / d) in *. set (r := n mod d) in *.
  destruct (Z.compare_spec (2 * r) d) as [E|E|E].
  - destruct (Z.even q) eqn:Ev.
    + repeat split; [lia | nia | intros _; exact Ev].
    + repeat split; [lia | nia |]. intros _.
      rewrite Z.even_add, Ev. reflexivity.
  - repeat split; [lia | nia | nia].
  - repeat split; [lia | nia | nia].
Qed.

Lemma scaled_next (n d e : Z) :
  0 < n -> 0 < d ->
  let '(n0, d0) := scaled n d e in
  let '(n1, d1) := scaled n d (e - 1) in
  0 < d0 /\ 0 < d1 /\ 0 < n0 /\ n1 * d0 = 2 * n0 * d1.
Proof.
  intros Hn Hd. unfold scaled.
  destruct (Z.leb_spec 0 e) as [He|He], (Z.leb_spec 0 (e - 1)) as [He1|He1];
    try lia.
  - replace e with (Z.succ (e - 1)) at 1 2 3 by lia.
    rewrite Z.pow_succ_r by lia.
    pose proof (Z.pow_pos_nonneg 2 (e - 1) ltac:(lia) ltac:(lia)).
    repeat split; nia.
  - assert (e = 0) as -> by lia. simpl. repeat split; lia.
  - replace (- (e - 1)) with (Z.succ (- e)) by lia.
    rewrite Z.pow_succ_r by lia.
    pose proof (Z.pow_pos_nonneg 2 (- e) ltac:(lia) ltac:(lia)).
    repeat split; nia.
Qed.

Lemma scaled_first (n d : Z) :
  0 < n -> 0 < d ->
  let '(n0, d0) := scaled n d (Z.log2 n - Z.log2 d - 52) in
  0 < d0 /\ d0 * 2 ^ 51 < n0 /\ n0 < d0 * 2 ^ 53.
Proof.
  intros Hn Hd.
  destruct (Z.log2_spec n Hn) as [Hn1 Hn2].
  destruct (Z.log2_spec d Hd) as [Hd1 Hd2].
  pose proof (Z.log2_nonneg n) as Ha. pose proof (Z.log2_nonneg d) as Hb.
  set (a := Z.log2 n) in *. set (b := Z.log2 d) in *.
  rewrite Z.pow_succ_r in Hn2, Hd2 by lia.
  pose proof (Z.pow_pos_nonneg 2 a ltac:(lia) Ha) as Hpa.
  pose proof (Z.pow_pos_nonneg 2 b ltac:(lia) Hb) as Hpb.
  unfold scaled. destruct (Z.leb_spec 0 (a - b - 52)) as [He|He].
  - pose proof (Z.pow_pos_nonneg 2 (a - b - 52) ltac:(lia) He) as Hpe.
    assert (Hsplit : 2 ^ a = 2 ^ (a - b - 52) * 2 ^ b * 2 ^ 52).
    { rewrite <- !Z.pow_add_r by lia. f_equal. lia. }
    set (E := 2 ^ (a - b - 52)) in *. set (A := 2 ^ a) in *.
    set (B := 2 ^ b) in *.
    change (2 ^ 52) with 4503599627370496 in *.
    change (2 ^ 51) with 2251799813685248.
    change (2 ^ 53) with 9007199254740992.
    repeat split; nia.
  - pose proof (Z.pow_pos_nonneg 2 (- (a - b - 52)) ltac:(lia) ltac:(lia))
      as Hpe.
    assert (Hsplit : 2 ^ a * 2 ^ (- (a - b - 52)) = 2 ^ b * 2 ^ 52).
    { rewrite <- !Z.pow_add_r by lia. f_equal. lia. }
    set (E := 2 ^ (- (a - b - 52))) in *. set (A := 2 ^ a) in *.
    set (B := 2 ^ b) in *.
    change (2 ^ 52) with 4503599627370496 in *.
    change (2 ^ 51) with 2251799813685248.
    change (2 ^ 53) with 9007199254740992.
    repeat split; nia.
Qed.

Lemma ulp_exponent_spec (n d : Z) :
  0 < n -> 0 < d ->
  let '(n', d') := scaled n d (ulp_exponent n d) in
  -1074 <= ulp_exponent n d
  /\ 0 < d'
  /\ n' < d' * 2 ^ 53
  /\ (-1074 < ulp_exponent n d -> d' * 2 ^ 52 <= n').
Proof.
  intros Hn Hd. unfold ulp_exponent.
  set (e0 := Z.log2 n - Z.log2 d - 52).
  pose proof (scaled_first n d Hn Hd) as H0. fold e0 in H0.
  pose proof (scaled_next n d e0 Hn Hd) as H1.
  destruct (scaled n d e0) as [n0 d0] eqn:E0.
  destruct (scaled n d (e0 - 1)) as [n1 d1] eqn:E1.
  destruct H0 as (Hd0 & Hlo & Hhi). destruct H1 as (_ & Hd1 & Hn0 & Hnext).
  change (2 ^ 51) with 2251799813685248 in Hlo.
  change (2 ^ 53) with 9007199254740992 in Hhi.
  set (e1 := if n0 <? d0 * 2 ^ 52 then e0 - 1 else e0).
  assert (Hnormal : let '(n', d') := scaled n d e1 in
            0 < d' /\ d' * 2 ^ 52 <= n' /\ n' < d' * 2 ^ 53).
  { subst e1. change (2 ^ 52) with 4503599627370496.
    change (2 ^ 53) with 9007199254740992.
    destruct (Z.ltb_spec n0 (d0 * 4503599627370496)) as [Hlt|Hge].
    - rewrite E1. repeat split; nia.
    - rewrite E0. repeat split; lia. }
  clearbody e1. clear E0 E1 Hlo Hhi Hnext Hd0 Hd1 Hn0.
  destruct (Z.le_gt_cases (-1074) e1) as [Hbig|Hsmall].
  - rewrite Z.max_l by lia. destruct (scaled n d e1) as [n' d'].
    destruct Hnormal as (? & ? & ?). repeat split; auto.
  - rewrite Z.max_r by lia. unfold scaled in *.
    destruct (Z.leb_spec 0 e1) as [?|_]; [lia|].
    destruct (Z.leb_spec 0 (-1074)) as [?|_]; [lia|].
    destruct Hnormal as (_ & _ & Hhi).
    assert (Hpow : 2 ^ (- -1074) <= 2 ^ (- e1))
      by (apply Z.pow_le_mono_r; lia).
    generalize dependent (2 ^ (- -1074)). generalize dependent (2 ^ (- e1)).
    intros p Hhi q Hpow. repeat split; try lia. nia.
Qed.

Lemma round_nearest (x : Q) :
  Qnum x <> 0 ->
  exists m : Z,
    Z.abs m <= 2 ^ 53
    /\ (round x == inject_Z m * ulp x)%Q
    /\ (Qabs (x - round x) * 2 <= ulp x)%Q
    /\ ((Qabs (x - round x) * 2 == ulp x)%Q -> Z.even m = true)
    /\ (ulp_exponent (Z.abs (Qnum x)) (Z.pos (Qden x)) = -1074
        \/ (inject_Z (2 ^ 52) * ulp x <= Qabs x)%Q).
Proof.
  intros Hx. destruct x as [xn xd]. cbn [Qnum Qden] in Hx.
  unfold round, ulp. cbn [Qnum Qden].
  destruct (Z.eqb_spec (Z.abs xn) 0) as [?|_]; [lia|].
  pose proof (ulp_exponent_spec (Z.abs xn) (Z.pos xd) ltac:(lia) ltac:(lia))
    as Hspec.
  set (e := ulp_exponent (Z.abs xn) (Z.pos xd)) in *.
  destruct (scaled (Z.abs xn) (Z.pos xd) e) as [n' d'] eqn:Hsc.
  destruct Hspec as (He & Hd' & Hhi & Hlo).
  assert (Hn' : 0 <= n').
  { unfold scaled in Hsc. destruct (0 <=? e); inversion Hsc; subst; [lia|].
    pose proof (Z.pow_pos_nonneg 2 (- e) ltac:(lia)). nia. }
  destruct (nearest_even_close n' d' Hn' Hd') as (Hm0 & Hclose & Heven).
  set (m := nearest_even n' d') in *.
  assert (Hm53 : m <= 2 ^ 53).
  { change (2 ^ 53) with 9007199254740992 in *. nia. }
  exists (Z.sgn xn * m). split; [nia|].
  assert (Hev : Z.even (Z.sgn xn * m) = Z.even m).
  { rewrite Z.even_mul. destruct xn; try lia; reflexivity. }
  rewrite Hev. clear Hev. unfold scaled in Hsc.
  destruct (Z.leb_spec 0 e) as [Hpos|Hneg]; inversion Hsc; subst n' d'; clear Hsc.
  - pose proof (Z.pow_pos_nonneg 2 e ltac:(lia) Hpos) as Hp.
    set (p := 2 ^ e) in *. clearbody p.
    change (2 ^ 52) with 4503599627370496 in *.
    change (2 ^ 53) with 9007199254740992 in *.
    assert (Hdiff : Z.abs (Qnum ((xn # xd) - inject_Z (Z.sgn xn * m * p))%Q)
                    = Z.abs (Z.abs xn - m * (Z.pos xd * p))
            /\ Qden ((xn # xd) - inject_Z (Z.sgn xn * m * p))%Q = xd).
    { unfold Qminus, Qplus, Qopp. cbn [Qnum Qden inject_Z].
      split; [|lia]. destruct xn; try lia; cbn -[Z.mul]; nia. }
    destruct Hdiff as [Hnum Hden].
    split; [|split; [|split]].
    + rewrite <- inject_Z_mult. reflexivity.
    + unfold Qle, Qabs, Qmult.
      destruct ((xn # xd) - inject_Z (Z.sgn xn * m * p))%Q as [zn zd].
      cbn [Qnum Qden inject_Z] in *. subst zd. rewrite Hnum. nia.
    + intros Htie. apply Heven. revert Htie. unfold Qeq, Qabs, Qmult.
      destruct ((xn # xd) - inject_Z (Z.sgn xn * m * p))%Q as [zn zd].
      cbn [Qnum Qden inject_Z] in *. subst zd. rewrite Hnum. nia.
    + destruct (Z.eq_dec e (-1074)) as [?|Hne]; [by left|right].
      specialize (Hlo ltac:(lia)). unfold Qle, Qabs, Qmult.
      cbn [Qnum Qden inject_Z]. nia.
  - pose proof (Z.pow_pos_nonneg 2 (- e) ltac:(lia) ltac:(lia)) as Hp.
    set (p := 2 ^ (- e)) in *. clearbody p.
    change (2 ^ 52) with 4503599627370496 in *.
    change (2 ^ 53) with 9007199254740992 in *.
    assert (Hpp : Z.pos (Z.to_pos p) = p) by (apply Z2Pos.id; lia).
    set (pp := Z.to_pos p) in *. clearbody pp.
    assert (Hdiff : Z.abs (Qnum ((xn # xd) - (Z.sgn xn * m # pp))%Q)
                    = Z.abs (Z.abs xn * p - m * Z.pos xd)
            /\ Qden ((xn # xd) - (Z.sgn xn * m # pp))%Q = (xd * pp)%positive).
    { unfold Qminus, Qplus, Qopp. cbn [Qnum Qden inject_Z].
      split; [|lia]. rewrite Hpp.
      destruct xn; try lia; cbn -[Z.mul]; nia. }
    destruct Hdiff as [Hnum Hden].
    split; [|split; [|split]].
    + unfold Qeq, Qmult. cbn [Qnum Qden inject_Z]. lia.
    + unfold Qle, Qabs, Qmult.
      destruct ((xn # xd) - (Z.sgn xn * m # pp))%Q as [zn zd].
      cbn [Qnum Qden inject_Z] in *. subst zd. rewrite Hnum.
      rewrite Pos2Z.inj_mul, Hpp. nia.
    + intros Htie. apply Heven. revert Htie. unfold Qeq, Qabs, Qmult.
      destruct ((xn # xd) - (Z.sgn xn * m # pp))%Q as [zn zd].
      cbn [Qnum Qden inject_Z] in *. subst zd. rewrite Hnum.
      rewrite Pos2Z.inj_mul, Hpp. nia.
    + destruct (Z.eq_dec e (-1074)) as [?|Hne]; [by left|right].
      specialize (Hlo ltac:(lia)). unfold Qle, Qabs, Qmult.
      cbn [Qnum Qden inject_Z]. rewrite Pos.mul_1_l, Hpp. nia.
Qed.

End binary64.

(** ** Dates *)

Section dates.
Import Datetime.

Lemma add_days_inv (ordinal days result : Z) :
  add_days ordinal days = Ok result ->
  result = ordinal + days /\ 1 <= ordinal + days <= MAXORDINAL.
Proof.
  unfold add_days.
  destruct (Z.leb_spec 1 (ordinal + days));
    destruct (Z.leb_spec (ordinal + days) MAXORDINAL); simpl;
    intros [= <-]. lia.
Qed.

Lemma add_days_in_range (ordinal days : Z) :
  1 <= ordinal + days <= MAXORDINAL ->
  add_days ordinal days = Ok (ordinal + days).
Proof.
  intros H. unfold add_days.
  destruct (Z.leb_spec 1 (ordinal + days)); [|lia].
  destruct (Z.leb_spec (ordinal + days) MAXORDINAL); [reflexivity | lia].
Qed.

(** Every day of a year falls in a month of the table: checked on the
    365 days that [ord2ymd] passes on. *)
Lemma month_and_day_checked (leapyear : bool) :
  forallb (month_and_day_ok leapyear) (map Z.of_nat (seq 0 365)) = true.
Proof. destruct leapyear; vm_compute; reflexivity. Qed.

Lemma month_and_day_spec (leapyear : bool) (n : Z) :
  0 <= n < 365 ->
  exists month day,
    month_and_day leapyear n = (month, day)
    /\ 1 <= month <= 12
    /\ 1 <= day <= days_in_month_table month
                   + (if (month =? 2) && leapyear then 1 else 0)
    /\ days_before_month_table month
       + (if (2 <? month) && leapyear then 1 else 0) + day = n + 1.
Proof.
  intros Hn.
  pose proof (month_and_day_checked leapyear) as Hall.
  rewrite forallb_forall in Hall. specialize (Hall n).
  unfold month_and_day_ok in Hall.
  destruct (month_and_day leapyear n) as [month day].
  exists month, day. split; [reflexivity|].
  assert (Hin : In n (map Z.of_nat (seq 0 365))).
  { apply in_map_iff. exists (Z.to_nat n). split; [lia|].
    apply in_seq. lia. }
  apply Hall in Hin. rewrite !andb_true_iff in Hin.
  destruct Hin as [[[[H1 H2] H3] H4] H5].
  apply Z.leb_le in H1, H2, H3, H4. apply Z.eqb_eq in H5. lia.
Qed.

Lemma days_before_year_cycles (a b c e : Z) :
  0 <= a -> 0 <= b <= 3 -> 0 <= c <= 24 -> 0 <= e <= 3 ->
  days_before_year (400 * a + 100 * b + 4 * c + e + 1)
  = 146097 * a + 36524 * b + 1461 * c + 365 * e.
Proof.
  intros Ha Hb Hc He. unfold days_before_year.
  replace (400 * a + 100 * b + 4 * c + e + 1 - 1)
    with (400 * a + 100 * b + 4 * c + e) by lia.
  assert (H4 : (400 * a + 100 * b + 4 * c + e) / 4 = 100 * a + 25 * b + c)
    by (symmetry; apply (Z.div_unique _ _ _ e); lia).
  assert (H100 : (400 * a + 100 * b + 4 * c + e) / 100 = 4 * a + b)
    by (symmetry; apply (Z.div_unique _ _ _ (4 * c + e)); lia).
  assert (H400 : (400 * a + 100 * b + 4 * c + e) / 400 = a)
    by (symmetry; apply (Z.div_unique _ _ _ (100 * b + 4 * c + e)); lia).
  rewrite H4, H100, H400. lia.
Qed.

Lemma is_leap_cycles (a b c e : Z) :
  0 <= a -> 0 <= b <= 3 -> 0 <= c <= 24 -> 0 <= e <= 3 ->
  is_leap (400 * a + 100 * b + 4 * c + e + 1)
  = (e =? 3) && (negb (c =? 24) || (b =? 3)).
Proof.
  intros Ha Hb Hc He. unfold is_leap.
  set (y := 400 * a + 100 * b + 4 * c + e + 1).
  assert (H4 : y mod 4 = (e + 1) mod 4).
  { unfold y. replace (400 * a + 100 * b + 4 * c + e + 1)
      with ((e + 1) + (100 * a + 25 * b + c) * 4) by lia.
    apply Z.mod_add. lia. }
  assert (H100 : y mod 100 = (4 * c + e + 1) mod 100).
  { unfold y. replace (400 * a + 100 * b + 4 * c + e + 1)
      with ((4 * c + e + 1) + (4 * a + b) * 100) by lia.
    apply Z.mod_add. lia. }
  assert (H400 : y mod 400 = (100 * b + 4 * c + e + 1) mod 400).
  { unfold y. replace (400 * a + 100 * b + 4 * c + e + 1)
      with ((100 * b + 4 * c + e + 1) + a * 400) by lia.
    apply Z.mod_add. lia. }
  rewrite H4, H100, H400. clear H4 H100 H400 y.
  pose proof (Z.div_mod (e + 1) 4 ltac:(lia)).
  pose proof (Z.mod_pos_bound (e + 1) 4 ltac:(lia)).
  pose proof (Z.div_mod (4 * c + e + 1) 100 ltac:(lia)).
  pose proof (Z.mod_pos_bound (4 * c + e + 1) 100 ltac:(lia)).
  pose proof (Z.div_mod (100 * b + 4 * c + e + 1) 400 ltac:(lia)).
  pose proof (Z.mod_pos_bound (100 * b + 4 * c + e + 1) 400 ltac:(lia)).
  destruct (Z.eqb_spec ((e + 1) mod 4) 0); destruct (Z.eqb_spec e 3);
    destruct (Z.eqb_spec ((4 * c + e + 1) mod 100) 0);
    destruct (Z.eqb_spec c 24);
    destruct (Z.eqb_spec ((100 * b + 4 * c + e + 1) mod 400) 0);
    destruct (Z.eqb_spec b 3); simpl; try reflexivity; exfalso; lia.
Qed.

Lemma month_cases (m : Z) :
  1 <= m <= 12 ->
  m = 1 \/ m = 2 \/ m = 3 \/ m = 4 \/ m = 5 \/ m = 6 \/ m = 7 \/ m = 8
  \/ m = 9 \/ m = 10 \/ m = 11 \/ m = 12.
Proof. lia. Qed.

(** [ymd2ord] undoes [ord2ymd], whose year stays below 10000 up to
    [MAXORDINAL]. *)
Lemma ord2ymd_inverse (n : Z) :
  1 <= n ->
  exists y m d,
    ord2ymd n = (y, m, d)
    /\ ymd2ord y m d = n
    /\ 1 <= y /\ (n <= MAXORDINAL -> y <= 9999)
    /\ 1 <= m <= 12 /\ 1 <= d <= days_in_month y m.
Proof.
  intros Hn. unfold ord2ymd, MAXORDINAL.
  set (a := (n - 1) / 146097).
  set (r1 := (n - 1) mod 146097).
  set (b := r1 / 36524).
  set (r2 := r1 mod 36524).
  set (c := r2 / 1461).
  set (r3 := r2 mod 1461).
  set (e := r3 / 365).
  set (r4 := r3 mod 365).
  assert (Ha : n - 1 = 146097 * a + r1 /\ 0 <= r1 < 146097 /\ 0 <= a).
  { unfold a, r1. pose proof (Z.div_mod (n - 1) 146097 ltac:(lia)).
    pose proof (Z.mod_pos_bound (n - 1) 146097 ltac:(lia)).
    pose proof (Z.div_pos (n - 1) 146097 ltac:(lia) ltac:(lia)). lia. }
  assert (Hb : r1 = 36524 * b + r2 /\ 0 <= r2 < 36524 /\ 0 <= b <= 4).
  { unfold b, r2. pose proof (Z.div_mod r1 36524 ltac:(lia)).
    pose proof (Z.mod_pos_bound r1 36524 ltac:(lia)).
    pose proof (Z.div_pos r1 36524 ltac:(lia) ltac:(lia)). lia. }
  assert (Hc : r2 = 1461 * c + r3 /\ 0 <= r3 < 1461 /\ 0 <= c <= 24).
  { unfold c, r3. pose proof (Z.div_mod r2 1461 ltac:(lia)).
    pose proof (Z.mod_pos_bound r2 1461 ltac:(lia)).
    pose proof (Z.div_pos r2 1461 ltac:(lia) ltac:(lia)). lia. }
  assert (He : r3 = 365 * e + r4 /\ 0 <= r4 < 365 /\ 0 <= e <= 4).
  { unfold e, r4. pose proof (Z.div_mod r3 365 ltac:(lia)).
    pose proof (Z.mod_pos_bound r3 365 ltac:(lia)).
    pose proof (Z.div_pos r3 365 ltac:(lia) ltac:(lia)). lia. }
  clearbody a r1 b r2 c r3 e r4.
  destruct (Z.eqb_spec e 4) as [He4|He4]; [|destruct (Z.eqb_spec b 4) as [Hb4|Hb4]];
    cbn [orb].
  - (* the last day of a fourth year *)
    do 3 eexists. split; [reflexivity|].
    replace (a * 400 + 1 + b * 100 + c * 4 + e - 1)
      with (400 * a + 100 * b + 4 * c + 3 + 1) by lia.
    unfold ymd2ord, days_before_month, days_in_month.
    rewrite days_before_year_cycles, is_leap_cycles by lia.
    destruct (Z.eqb_spec c 24); [lia|]. cbn -[Z.mul Z.add Z.sub]. lia.
  - (* the last day of a cycle of 400 years *)
    do 3 eexists. split; [reflexivity|].
    replace (a * 400 + 1 + b * 100 + c * 4 + e - 1)
      with (400 * a + 100 * 3 + 4 * 24 + 3 + 1) by lia.
    unfold ymd2ord, days_before_month, days_in_month.
    rewrite days_before_year_cycles, is_leap_cycles by lia.
    cbn -[Z.mul Z.add Z.sub]. lia.
  - replace (a * 400 + 1 + b * 100 + c * 4 + e)
      with (400 * a + 100 * b + 4 * c + e + 1) by lia.
    pose proof (days_before_year_cycles a b c e ltac:(lia) ltac:(lia)
                  ltac:(lia) ltac:(lia)) as Hdby.
    pose proof (is_leap_cycles a b c e ltac:(lia) ltac:(lia)
                  ltac:(lia) ltac:(lia)) as Hleap.
    set (year := 400 * a + 100 * b + 4 * c + e + 1) in *.
    rewrite <- Hleap. clear Hleap.
    destruct (month_and_day_spec (is_leap year) r4 ltac:(lia))
      as (month & day & -> & Hmonth & Hday & Hsum).
    exists year, month, day. split; [reflexivity|].
    unfold ymd2ord, days_before_month, days_in_month. rewrite Hdby.
    generalize dependent (if (2 <? month) && is_leap year then 1 else 0).
    generalize dependent (if (month =? 2) && is_leap year then 1 else 0).
    intros february_day Hday leap_day Hsum. unfold year. lia.
Qed.

Lemma digit_char_inj (a b : Z) :
  0 <= a <= 9 -> 0 <= b <= 9 -> digit_char a = digit_char b -> a = b.
Proof.
  intros Ha Hb H. apply (f_equal N_of_ascii) in H. unfold digit_char in H.
  rewrite !N_ascii_embedding in H by lia. lia.
Qed.

Lemma digits2_inj (m m' : Z) :
  0 <= m <= 99 -> 0 <= m' <= 99 -> digits2 m = digits2 m' -> m = m'.
Proof.
  intros Hm Hm' H. unfold digits2 in H. injection H as H1 H0.
  pose proof (Z.div_mod m 10 ltac:(lia)).
  pose proof (Z.mod_pos_bound m 10 ltac:(lia)).
  pose proof (Z.div_mod m' 10 ltac:(lia)).
  pose proof (Z.mod_pos_bound m' 10 ltac:(lia)).
  pose proof (Z.mod_pos_bound (m / 10) 10 ltac:(lia)).
  pose proof (Z.mod_pos_bound (m' / 10) 10 ltac:(lia)).
  apply digit_char_inj in H1, H0; try lia.
  rewrite (Z.mod_small (m / 10) 10) in H1 by lia.
  rewrite (Z.mod_small (m' / 10) 10) in H1 by lia. lia.
Qed.

Lemma digits4_inj (y y' : Z) :
  0 <= y <= 9999 -> 0 <= y' <= 9999 -> digits4 y = digits4 y' -> y = y'.
Proof.
  intros Hy Hy' H. unfold digits4, digits2 in H. injection H as H3 H2 H1 H0.
  pose proof (Z.mod_pos_bound (y / 1000) 10 ltac:(lia)).
  pose proof (Z.mod_pos_bound (y' / 1000) 10 ltac:(lia)).
  pose proof (Z.mod_pos_bound (y / 100) 10 ltac:(lia)).
  pose proof (Z.mod_pos_bound (y' / 100) 10 ltac:(lia)).
  pose proof (Z.mod_pos_bound (y / 10) 10 ltac:(lia)).
  pose proof (Z.mod_pos_bound (y' / 10) 10 ltac:(lia)).
  pose proof (Z.mod_pos_bound y 10 ltac:(lia)).
  pose proof (Z.mod_pos_bound y' 10 ltac:(lia)).
  apply digit_char_inj in H3, H2, H1, H0; try lia.
  Z.div_mod_to_equations. lia.
Qed.

Lemma days_in_month_le (y m : Z) : days_in_month y m <= 31.
Proof.
  unfold days_in_month, days_in_month_table.
  destruct (Z.eqb_spec m 2) as [->|Hm]; [destruct (is_leap y); simpl; lia|].
  simpl. destruct m as [|p|p]; try lia.
  do 4 (destruct p as [p|p|]; try lia).
Qed.

(** Two days of the calendar with the same text are the same day. *)
Lemma strftime_ymd_inj (n n' : Z) :
  1 <= n <= MAXORDINAL -> 1 <= n' <= MAXORDINAL ->
  strftime_ymd n = strftime_ymd n' -> n = n'.
Proof.
  intros Hn Hn' H. unfold strftime_ymd in H.
  destruct (ord2ymd_inverse n ltac:(lia))
    as (y & m & d & E & Hord & Hy & Hymax & Hm & Hd).
  destruct (ord2ymd_inverse n' ltac:(lia))
    as (y' & m' & d' & E' & Hord' & Hy' & Hymax' & Hm' & Hd').
  rewrite E, E' in H.
  assert (Hparts : digits4 y = digits4 y' /\ digits2 m = digits2 m'
                   /\ digits2 d = digits2 d').
  { unfold digits4, digits2 in *. simpl in H.
    injection H as H1 H2 H3 H4 H5 H6 H7 H8. repeat split; congruence. }
  destruct Hparts as (Hyy & Hmm & Hdd).
  pose proof (days_in_month_le y m). pose proof (days_in_month_le y' m').
  apply digits4_inj in Hyy; [|lia|lia].
  apply digits2_inj in Hmm; [|lia|lia].
  apply digits2_inj in Hdd; [|lia|lia].
  subst. lia.
Qed.

Lemma days_before_next_month (y m m' : Z) :
  1 <= m -> m < m' -> m' <= 12 ->
  days_before_month y m + days_in_month y m <= days_before_month y m'.
Proof.
  intros H1 Hlt H12. unfold days_before_month, days_in_month.
  destruct (is_leap y);
    destruct (month_cases m ltac:(lia))
      as [->|[->|[->|[->|[->|[->|[->|[->|[->|[->|[->| ->]]]]]]]]]]];
    destruct (month_cases m' ltac:(lia))
      as [->|[->|[->|[->|[->|[->|[->|[->|[->|[->|[->| ->]]]]]]]]]]];
    try lia; vm_compute; discriminate.
Qed.

Lemma days_before_next_year (y y' : Z) :
  1 <= y -> y < y' ->
  days_before_year y + days_before_month y 12 + days_in_month y 12
  <= days_before_year y'.
Proof.
  intros H1 Hlt.
  assert (Hstep : days_before_year y + days_before_month y 12
                  + days_in_month y 12 = days_before_year (y + 1)).
  { unfold days_before_year, days_before_month, days_in_month, is_leap.
    change (2 <? 12) with true. change (12 =? 2) with false.
    cbn [andb days_before_month_table days_in_month_table].
    replace (y + 1 - 1) with y by lia.
    destruct (Z.eqb_spec (y mod 4) 0); destruct (Z.eqb_spec (y mod 100) 0);
      destruct (Z.eqb_spec (y mod 400) 0); cbn [negb orb andb];
      Z.div_mod_to_equations; lia. }
  rewrite Hstep. unfold days_before_year.
  Z.div_mod_to_equations. lia.
Qed.

Lemma ymd2ord_lt (y m d y' m' d' : Z) :
  1 <= y -> 1 <= m <= 12 -> 1 <= d <= days_in_month y m ->
  1 <= m' <= 12 -> 1 <= d' ->
  date_lt (y, m, d) (y', m', d') ->
  ymd2ord y m d < ymd2ord y' m' d'.
Proof.
  intros Hy Hm Hd Hm' Hd' [Hlt | [<- [Hlt | [<- Hlt]]]]; unfold ymd2ord.
  - pose proof (days_before_next_year y y' Hy Hlt).
    assert (days_before_month y m + days_in_month y m
            <= days_before_month y 12 + days_in_month y 12).
    { destruct (Z.eq_dec m 12) as [->|]; [lia|].
      pose proof (days_before_next_month y m 12 ltac:(lia) ltac:(lia) ltac:(lia)).
      unfold days_in_month at 2. unfold days_in_month_table.
      destruct ((12 =? 2) && is_leap y); lia. }
    assert (0 <= days_before_month y' m').
    { unfold days_before_month.
      destruct (month_cases m' Hm')
        as [->|[->|[->|[->|[->|[->|[->|[->|[->|[->|[->| ->]]]]]]]]]]];
        destruct (is_leap y'); vm_compute; discriminate. }
    lia.
  - pose proof (days_before_next_month y m m' ltac:(lia) Hlt ltac:(lia)). lia.
  - lia.
Qed.

(** Later days come later in the calendar. *)
Lemma ord2ymd_lt (n n' : Z) :
  1 <= n -> n < n' -> date_lt (ord2ymd n) (ord2ymd n').
Proof.
  intros Hn Hlt.
  destruct (ord2ymd_inverse n ltac:(lia))
    as (y & m & d & -> & Hord & Hy & _ & Hm & Hd).
  destruct (ord2ymd_inverse n' ltac:(lia))
    as (y' & m' & d' & -> & Hord' & Hy' & _ & Hm' & Hd').
  assert (Hcases : date_lt (y, m, d) (y', m', d')
                   \/ (y, m, d) = (y', m', d')
                   \/ date_lt (y', m', d') (y, m, d)).
  { unfold date_lt.
    destruct (Z.lt_total y y') as [?|[->|?]]; [tauto| |tauto].
    destruct (Z.lt_total m m') as [?|[->|?]]; [tauto| |tauto].
    destruct (Z.lt_total d d') as [?|[->|?]]; tauto. }
  destruct Hcases as [H|[H|H]]; [exact H| |].
  - injection H as -> -> ->. lia.
  - apply ymd2ord_lt in H; lia.
Qed.

Lemma digit_char_compare (a b : Z) :
  0 <= a <= 9 -> 0 <= b <= 9 ->
  Ascii.compare (digit_char a) (digit_char b) = (a ?= b).
Proof.
  intros Ha Hb. unfold Ascii.compare, digit_char.
  rewrite !N_ascii_embedding by lia.
  rewrite Z2N.inj_compare by lia. apply Z.add_compare_mono_l.
Qed.

(** The texts of two dates are in the order of the dates. *)
Lemma date_text_lt (y m d y' m' d' : Z) :
  0 <= y <= 9999 -> 0 <= m <= 99 -> 0 <= d <= 99 ->
  0 <= y' <= 9999 -> 0 <= m' <= 99 -> 0 <= d' <= 99 ->
  date_lt (y, m, d) (y', m', d') ->
  String.ltb (digits4 y ++ "-" ++ digits2 m ++ "-" ++ digits2 d)
             (digits4 y' ++ "-" ++ digits2 m' ++ "-" ++ digits2 d') = true.
Proof.
  intros Hy Hm Hd Hy' Hm' Hd' Hlt. unfold date_lt in Hlt.
  unfold String.ltb, digits4, digits2.
  cbv beta iota fix delta [String.append String.compare].
  change (Ascii.compare "-" "-") with Eq. cbv iota.
  rewrite !digit_char_compare
    by (match goal with |- _ <= ?x mod 10 <= _ =>
          pose proof (Z.mod_pos_bound x 10 ltac:(lia)); lia end).
  repeat (match goal with
          | |- context [?a ?= ?b] => destruct (Z.compare_spec a b)
          end; cbv iota);
    try reflexivity; exfalso; Z.div_mod_to_equations; lia.
Qed.

(** The texts of the days are in the order of the days (the order of
    Python's [<] on [str]). *)
Lemma strftime_ymd_lt (n n' : Z) :
  1 <= n -> n < n' -> n' <= MAXORDINAL ->
  String.ltb (strftime_ymd n) (strftime_ymd n') = true.
Proof.
  intros Hn Hlt Hmax.
  pose proof (ord2ymd_lt n n' Hn Hlt) as Hdates.
  unfold strftime_ymd.
  destruct (ord2ymd_inverse n ltac:(lia))
    as (y & m & d & E & _ & Hy & Hymax & Hm & Hd).
  destruct (ord2ymd_inverse n' ltac:(lia))
    as (y' & m' & d' & E' & _ & Hy' & Hymax' & Hm' & Hd').
  rewrite E, E' in *.
  pose proof (days_in_month_le y m). pose proof (days_in_month_le y' m').
  apply date_text_lt; auto; lia.
Qed.

End dates.

(** ** Insertion-ordered dictionaries *)

Section dict_facts.
Context {V : Type}.
Implicit Types (d : PyDict.t V) (k : string) (v : V).

Lemma dict_get_set d k v : PyDict.get (PyDict.set d k v) k = Some v.
Proof.
  induction d as [|[k' v'] d IH]; simpl.
  - by rewrite String.eqb_refl.
  - destruct (String.eqb k' k) eqn:E; simpl; rewrite E; [reflexivity | exact IH].
Qed.

Lemma dict_get_set_other d k k0 v :
  k <> k0 -> PyDict.get (PyDict.set d k v) k0 = PyDict.get d k0.
Proof.
  intros Hne. induction d as [|[k' v'] d IH]; simpl.
  - destruct (String.eqb k k0) eqn:E; [|reflexivity].
    apply String.eqb_eq in E. contradiction.
  - destruct (String.eqb k' k) eqn:E; simpl.
    + apply String.eqb_eq in E. subst k'.
      destruct (String.eqb k k0) eqn:E0; [|reflexivity].
      apply String.eqb_eq in E0. contradiction.
    + by rewrite IH.
Qed.

Lemma dict_get_None d k : k ∉ PyDict.keys d -> PyDict.get d k = None.
Proof.
  induction d as [|[k' v'] d IH]; simpl; [reflexivity|].
  intros Hk. apply not_elem_of_cons in Hk as [Hne Hk].
  destruct (String.eqb k' k) eqn:E; [|by apply IH].
  apply String.eqb_eq in E. congruence.
Qed.

Lemma dict_get_entry d k v : PyDict.get d k = Some v -> (k, v) ∈ d.
Proof.
  induction d as [|[k' v'] d IH]; simpl; [discriminate|].
  destruct (String.eqb k' k) eqn:E.
  - apply String.eqb_eq in E. intros [= ->]. subst. apply list_elem_of_here.
  - intros H. apply list_elem_of_further. by apply IH.
Qed.

Lemma dict_entry_get d k v :
  NoDup (PyDict.keys d) -> (k, v) ∈ d -> PyDict.get d k = Some v.
Proof.
  induction d as [|[k' v'] d IH]; simpl; intros Hnd Hin.
  - by apply elem_of_nil in Hin.
  - apply NoDup_cons in Hnd as [Hk' Hnd].
    apply elem_of_cons in Hin as [[= -> ->]|Hin].
    + by rewrite String.eqb_refl.
    + destruct (String.eqb k' k) eqn:E; [|by apply IH].
      apply String.eqb_eq in E. subst k'. exfalso. apply Hk'.
      unfold PyDict.keys. apply list_elem_of_fmap. by exists (k, v).
Qed.

(** A new key goes last. *)
Lemma dict_set_fresh d k v : k ∉ PyDict.keys d -> PyDict.set d k v = (d ++ [(k, v)])%list.
Proof.
  induction d as [|[k' v'] d IH]; simpl; [reflexivity|].
  intros Hk. apply not_elem_of_cons in Hk as [Hne Hk].
  destruct (String.eqb k' k) eqn:E.
  - apply String.eqb_eq in E. congruence.
  - by rewrite IH.
Qed.

(** Overwriting keeps the keys and their order. *)
Lemma dict_set_keys_known d k v :
  k ∈ PyDict.keys d -> PyDict.keys (PyDict.set d k v) = PyDict.keys d.
Proof.
  induction d as [|[k' v'] d IH]; simpl; intros Hk.
  - by apply elem_of_nil in Hk.
  - destruct (String.eqb k' k) eqn:E; simpl; [reflexivity|].
    f_equal. apply IH. apply elem_of_cons in Hk as [->|Hk]; [|exact Hk].
    by rewrite String.eqb_refl in E.
Qed.

Lemma dict_set_keys_elem d k v x :
  x ∈ PyDict.keys (PyDict.set d k v) <-> x = k \/ x ∈ PyDict.keys d.
Proof.
  destruct (decide (k ∈ PyDict.keys d)) as [Hk|Hk].
  - rewrite dict_set_keys_known by exact Hk. split; [auto|].
    intros [->|H]; assumption.
  - rewrite dict_set_fresh by exact Hk. unfold PyDict.keys.
    rewrite map_app. simpl. rewrite elem_of_app, list_elem_of_singleton. tauto.
Qed.

Lemma dict_set_keys_NoDup d k v :
  NoDup (PyDict.keys d) -> NoDup (PyDict.keys (PyDict.set d k v)).
Proof.
  intros Hnd. destruct (decide (k ∈ PyDict.keys d)) as [Hk|Hk].
  - by rewrite dict_set_keys_known.
  - rewrite dict_set_fresh by exact Hk. unfold PyDict.keys.
    rewrite map_app. simpl. apply NoDup_app. split; [exact Hnd|]. split.
    + intros x Hx Hx'. apply list_elem_of_singleton in Hx'. by subst.
    + apply NoDup_singleton.
Qed.

Lemma dict_fill_cons f k ks d :
  PyDict.fill f (k :: ks) d = PyDict.fill f ks (PyDict.set d k (f k)).
Proof. reflexivity. Qed.

Lemma dict_fill_keys_NoDup f ks d :
  NoDup (PyDict.keys d) -> NoDup (PyDict.keys (PyDict.fill f ks d)).
Proof.
  revert d. induction ks as [|k ks IH]; intros d Hnd; [exact Hnd|].
  rewrite dict_fill_cons. apply IH. by apply dict_set_keys_NoDup.
Qed.

Lemma dict_fill_keys_elem f ks d x :
  x ∈ PyDict.keys (PyDict.fill f ks d) <-> x ∈ ks \/ x ∈ PyDict.keys d.
Proof.
  revert d. induction ks as [|k ks IH]; intros d.
  - simpl. rewrite elem_of_nil. tauto.
  - rewrite dict_fill_cons, IH, dict_set_keys_elem, elem_of_cons. tauto.
Qed.

Lemma dict_fill_get_other f ks d x :
  x ∉ ks -> PyDict.get (PyDict.fill f ks d) x = PyDict.get d x.
Proof.
  revert d. induction ks as [|k ks IH]; intros d Hx; [reflexivity|].
  apply not_elem_of_cons in Hx as [Hne Hx].
  rewrite dict_fill_cons, IH by exact Hx.
  apply dict_get_set_other. congruence.
Qed.

Lemma dict_fill_get f ks d x :
  x ∈ ks -> PyDict.get (PyDict.fill f ks d) x = Some (f x).
Proof.
  revert d. induction ks as [|k ks IH]; intros d Hx.
  - by apply elem_of_nil in Hx.
  - rewrite dict_fill_cons.
    destruct (decide (x ∈ ks)) as [Hin|Hout]; [by apply IH|].
    apply elem_of_cons in Hx as [->|Hx]; [|contradiction].
    rewrite dict_fill_get_other by exact Hout. apply dict_get_set.
Qed.

(** Every entry of a dictionary filled from nothing is [(k, f k)] for a
    [k] of the list. *)
Lemma dict_fill_entry f ks k v :
  (k, v) ∈ PyDict.fill f ks [] -> k ∈ ks /\ v = f k.
Proof.
  intros Hin.
  assert (Hk : k ∈ ks).
  { assert (k ∈ PyDict.keys (PyDict.fill f ks [])) as Hk.
    { unfold PyDict.keys. apply list_elem_of_fmap. by exists (k, v). }
    apply dict_fill_keys_elem in Hk as [Hk|Hk]; [exact Hk|].
    by apply elem_of_nil in Hk. }
  split; [exact Hk|].
  apply dict_entry_get in Hin; [|apply dict_fill_keys_NoDup, NoDup_nil_2].
  rewrite dict_fill_get in Hin by exact Hk. congruence.
Qed.

End dict_facts.

(** ** Allocation *)


Lemma fold_Qplus_from (xs : list Q) (a b : Q) :
  (a == b)%Q -> (fold_left Qplus xs a == fold_left Qplus xs b)%Q.
Proof.
  revert a b. induction xs as [|x xs IH]; simpl; intros a b Hab; [exact Hab|].
  apply IH. by rewrite Hab.
Qed.

(** Dividing every summand by [w] and multiplying it by [h] does the same
    to the sum. *)
Lemma py_sum_shares (w h : Q) (xs : list Q) :
  ~ (w == 0)%Q ->
  (py_sum (map (fun x => x / w * h) xs) == py_sum xs / w * h)%Q.
Proof.
  intros Hw. unfold py_sum.
  assert (Hgen : forall a,
    (fold_left Qplus (map (fun x => x / w * h) xs) (a / w * h)
     == fold_left Qplus xs a / w * h)%Q).
  { induction xs as [|x xs IH]; simpl; intros a; [reflexivity|].
    rewrite <- IH. apply fold_Qplus_from. field. exact Hw. }
  rewrite <- Hgen. apply fold_Qplus_from. field. exact Hw.
Qed.

(** With distinct keys, the second loop of [_calculate_topic_allocation]
    writes one new entry per weight, in order. *)
Lemma allocation_fold (g : Q -> Q) (weights allocation : PyDict.t Q) :
  NoDup (PyDict.keys weights) ->
  (forall k, k ∈ PyDict.keys weights -> k ∉ PyDict.keys allocation) ->
  fold_left (fun a '(k, w) => PyDict.set a k (g w)) weights allocation
  = (allocation ++ map (fun '(k, w) => (k, g w)) weights)%list.
Proof.
  revert allocation.
  induction weights as [|[k w] weights IH]; simpl; intros allocation Hnd Hfresh.
  - by rewrite app_nil_r.
  - apply NoDup_cons in Hnd as [Hk Hnd].
    rewrite dict_set_fresh by (apply Hfresh, list_elem_of_here).
    rewrite IH; [by rewrite <- app_assoc | exact Hnd |].
    intros k0 Hk0 Hin. unfold PyDict.keys in Hin.
    rewrite map_app in Hin. simpl in Hin.
    apply elem_of_app in Hin as [Hin|Hin].
    + by apply (Hfresh k0); [apply list_elem_of_further|].
    + apply list_elem_of_singleton in Hin. by subst.
Qed.

Lemma allocation_value (topics : list string) (total_days : Z) (daily_hours : Q)
    (current_knowledge : gmap string Z) (weak_areas : list string) :
  ~ (total_weight topics current_knowledge weak_areas == 0)%Q ->
  _calculate_topic_allocation topics total_days daily_hours current_knowledge
    weak_areas
  = Ok (map (fun '(k, w) =>
               (k, (w / total_weight topics current_knowledge weak_areas
                    * (inject_Z total_days * daily_hours))%Q))
          (topic_weights topics current_knowledge weak_areas)).
Proof.
  intros Hw. unfold _calculate_topic_allocation.
  rewrite (for_each_total _
    (fun a '(k, w) =>
       PyDict.set a k (w / total_weight topics current_knowledge weak_areas
                       * (inject_Z total_days * daily_hours))%Q)).
  - f_equal.
    rewrite (allocation_fold
      (fun w => (w / total_weight topics current_knowledge weak_areas
                 * (inject_Z total_days * daily_hours))%Q)); [reflexivity| |].
    + apply dict_fill_keys_NoDup, NoDup_nil_2.
    + intros k _ Hk. by apply elem_of_nil in Hk.
  - intros a [k w] _. by rewrite py_truediv_ok.
Qed.

(** The entries of that allocation: the keys of the weights, and for each
    topic its share of the hours. *)
Lemma shares_keys (g : Q -> Q) (weights : PyDict.t Q) :
  PyDict.keys (map (fun '(k, w) => (k, g w)) weights) = PyDict.keys weights.
Proof. unfold PyDict.keys. rewrite map_map. apply map_ext. by intros [k w]. Qed.

Lemma shares_get (g : Q -> Q) (f : string -> Q) (topics : list string)
    (t : string) :
  t ∈ topics ->
  PyDict.get (map (fun '(k, w) => (k, g w)) (PyDict.fill f topics [])) t
  = Some (g (f t)).
Proof.
  intros Ht. apply dict_entry_get.
  - rewrite shares_keys. apply dict_fill_keys_NoDup, NoDup_nil_2.
  - apply (list_elem_of_fmap_2 (fun '(k, w) => (k, g w)) _ (t, f t)).
    apply dict_get_entry. by apply dict_fill_get.
Qed.


(** Claim C2: For every topics list with a positive total weight, the
    allocation of [_calculate_topic_allocation] has exactly one entry per
    input topic, its values sum to [total_days * daily_hours] (exactly,
    over the rationals), and the entry of each topic is its weight
    [(100 - knowledge) * weak_multiplier * spaced_multiplier] times the
    common factor [total_hours / total_weight], where the weak multiplier
    is 1.5 for a declared weak area and 1.0 otherwise, and the spaced
    multiplier is 1.3 for a knowledge in [30, 70] and 1.0 otherwise. *)
Theorem allocation_covers_sums_and_is_proportional
    (topics : list string) (total_days : Z) (daily_hours : Q)
    (current_knowledge : gmap string Z) (weak_areas : list string) :
  (0 < total_weight topics current_knowledge weak_areas)%Q ->
  exists allocation : PyDict.t Q,
    _calculate_topic_allocation topics total_days daily_hours
      current_knowledge weak_areas = Ok allocation
    /\ NoDup (PyDict.keys allocation)
    /\ (forall t, t ∈ PyDict.keys allocation <-> t ∈ topics)
    /\ (py_sum (PyDict.values allocation) == inject_Z total_days * daily_hours)%Q
    /\ forall t, t ∈ topics ->
         exists hours : Q,
           PyDict.get allocation t = Some hours
           /\ (hours ==
                 inject_Z (100 - default 0 (current_knowledge !! t))%Z
                 * (if bool_decide (t ∈ weak_areas) then 3 # 2 else 1)
                 * (if bool_decide
                         (30 <= default 0 (current_knowledge !! t) <= 70)%Z
                    then 13 # 10 else 1)
                 * (inject_Z total_days * daily_hours
                    / total_weight topics current_knowledge weak_areas))%Q.
Proof.
  intros Hpos.
  set (W := total_weight topics current_knowledge weak_areas) in *.
  set (H := (inject_Z total_days * daily_hours)%Q).
  assert (HW : ~ (W == 0)%Q) by (intros E; rewrite E in Hpos; lra).
  set (weights := topic_weights topics current_knowledge weak_areas).
  pose proof (shares_keys (fun w => (w / W * H)%Q) weights) as Hkeys.
  eexists. split; [by apply allocation_value|].
  fold W H weights. split; [|split; [|split]].
  - rewrite Hkeys. apply dict_fill_keys_NoDup, NoDup_nil_2.
  - intros t. rewrite Hkeys. unfold weights, topic_weights.
    rewrite dict_fill_keys_elem, elem_of_nil. tauto.
  - replace (PyDict.values (map (fun '(k, w) => (k, (w / W * H)%Q)) weights))
      with (map (fun x => (x / W * H)%Q) (PyDict.values weights)).
    + rewrite py_sum_shares by exact HW.
      change (py_sum (PyDict.values weights)) with W.
      generalize H. clear -HW. generalize dependent W. intros W HW h.
      field. exact HW.
    + unfold PyDict.values. rewrite !map_map. apply map_ext. by intros [k w].
  - intros t Ht. eexists. split.
    + by apply (shares_get (fun w => (w / W * H)%Q)).
    + unfold topic_weight.
      set (knowledge := default 0 (current_knowledge !! t)).
      replace ((30 <=? knowledge) && (knowledge <=? 70))
        with (bool_decide (30 <= knowledge <= 70)).
      * generalize (inject_Z (100 - knowledge)),
          (if bool_decide (t ∈ weak_areas) then 3 # 2 else 1%Q),
          (if bool_decide (30 <= knowledge <= 70) then 13 # 10 else 1%Q), H.
        clear -HW. generalize dependent W. intros W HW a b c h.
        field. exact HW.
      * case_bool_decide as Hk.
        -- symmetry. apply andb_true_iff. split; apply Z.leb_le; lia.
        -- symmetry. apply andb_false_iff.
           destruct (Z.leb_spec 30 knowledge); destruct (Z.leb_spec knowledge 70);
             auto; lia.
Qed.

Lemma allocation_covers_sums_and_is_proportional_witness :
  exists allocation : PyDict.t Q,
    _calculate_topic_allocation Sample.topics 30 (5 # 2)
      Sample.current_knowledge Sample.weak_areas = Ok allocation
    /\ PyDict.keys allocation = Sample.topics
    /\ (py_sum (PyDict.values allocation) == 75)%Q
    /\ exists hours, PyDict.get allocation "Neural Networks" = Some hours
                     /\ (hours == 100 * (3 # 2) * 1 * (75 / 549))%Q.
Proof.
  destruct (allocation_covers_sums_and_is_proportional Sample.topics 30
              (5 # 2) Sample.current_knowledge Sample.weak_areas)
    as (allocation & Hrun & _ & _ & Hsum & Hshare).
  - vm_compute. reflexivity.
  - exists allocation. split; [exact Hrun|]. split.
    + vm_compute in Hrun. injection Hrun as <-. reflexivity.
    + split; [rewrite Hsum; reflexivity|].
      destruct (Hshare "Neural Networks") as (hours & Hget & Hhours).
      * repeat constructor.
      * exists hours. split; [exact Hget|]. rewrite Hhours.
        vm_compute. reflexivity.
Defined.

(** ** Pomodoro breaks *)

(** Whatever the loop adds lies strictly inside the session. *)
Lemma breaks_loop_inside (d : Z) (bs : list Break) (n e : Z) :
  Forall (fun b => 0 < after_minutes b < d) bs ->
  0 <= e ->
  Forall (fun b => 0 < after_minutes b < d) (breaks_loop d bs n e).
Proof.
  funelim (breaks_loop d bs n e); intros Hall Hpos; [|exact Hall].
  unfold pomodoro_cycle, short_break, long_break in *.
  destruct (decide (_ + _ < _)) as [Hlt|Hge].
  - match goal with IH : _ < _ -> _ |- _ => apply (IH Hlt) end.
    + apply Forall_app. split; [exact Hall|].
      apply Forall_singleton. simpl. lia.
    + destruct (_ =? 0); lia.
  - match goal with IH : ~ _ -> _ |- _ => apply (IH Hge) end;
      [exact Hall | lia].
Qed.

(** No break is placed at or after the end of the session. *)
Lemma breaks_before_end (duration_minutes : Z) :
  Forall (fun b => 0 < after_minutes b < duration_minutes)
    (_calculate_breaks duration_minutes).
Proof. apply breaks_loop_inside; [apply Forall_nil_2 | lia]. Qed.

(** Claim C3 as stated fails: the breaks of a 100-minute
    session are not after 25, 50 and 75 minutes. *)
Lemma breaks_of_100_not_at_25_50_75 :
  _calculate_breaks 100
  <> [ {| after_minutes := 25; break_minutes := 5; break_type := "short" |};
       {| after_minutes := 50; break_minutes := 5; break_type := "short" |};
       {| after_minutes := 75; break_minutes := 5; break_type := "short" |} ].
Proof. vm_compute. discriminate. Qed.

(** Claim C3, amended: [_calculate_breaks 100] returns exactly three
    5-minute short breaks, after 25, 55 and 85 minutes of elapsed time
    (the elapsed time counts the earlier breaks), and none at 100: the last
    work block ends the session exactly and no break follows it.
    [_calculate_breaks 25] returns no break. *)
Theorem breaks_of_100_and_of_25 :
  _calculate_breaks 100
  = [ {| after_minutes := 25; break_minutes := 5; break_type := "short" |};
      {| after_minutes := 55; break_minutes := 5; break_type := "short" |};
      {| after_minutes := 85; break_minutes := 5; break_type := "short" |} ]
  /\ Forall (fun b => after_minutes b < 100) (_calculate_breaks 100)
  /\ _calculate_breaks 25 = [].
Proof.
  split; [reflexivity|]. split; [|reflexivity].
  eapply Forall_impl; [apply breaks_before_end|]. simpl. intros b Hb. lia.
Qed.

(** ** Difficulty progression *)

(** From a progress ratio of 0.6 on, the level is one above the base,
    capped at the top: the band from 0.85 on gives what the band below
    gives. *)
Lemma difficulty_upper_bands (base : DifficultyLevel) (day total_days : Z)
    (ratio : Q) :
  py_truediv (inject_Z day) (inject_Z total_days) = Ok ratio ->
  (3 # 5 <= ratio)%Q ->
  _get_session_difficulty base day total_days
  = match base with
    | BEGINNER => Ok "intermediate"
    | INTERMEDIATE => Ok "advanced"
    | ADVANCED | EXPERT => Ok "expert"
    end.
Proof.
  intros Hdiv Hratio. unfold _get_session_difficulty. rewrite Hdiv. simpl.
  assert (H1 : Qlt_bool ratio (3 # 10) = false) by (apply Qlt_bool_false; lra).
  assert (H2 : Qlt_bool ratio (3 # 5) = false) by (apply Qlt_bool_false; lra).
  destruct base; simpl; rewrite H1, H2; destruct (Qlt_bool ratio (17 # 20));
    reflexivity.
Qed.

(** Claim C5: With 30 days and base difficulty intermediate, day 5 (ratio
    below 0.3) is "beginner", day 15 (ratio 0.5) is "intermediate", day 25
    (ratio between 0.6 and 0.85) is "advanced" and day 29 (ratio above
    0.85) is "advanced" again: base index + 1 and no further; for every
    base difficulty the two top bands give the same level. *)
Theorem difficulty_over_30_days :
  (inject_Z 5 / inject_Z 30 < 3 # 10)%Q
  /\ _get_session_difficulty INTERMEDIATE 5 30 = Ok "beginner"
  /\ (inject_Z 15 / inject_Z 30 == 1 # 2)%Q
  /\ _get_session_difficulty INTERMEDIATE 15 30 = Ok "intermediate"
  /\ (3 # 5 <= inject_Z 25 / inject_Z 30 < 17 # 20)%Q
  /\ _get_session_difficulty INTERMEDIATE 25 30 = Ok "advanced"
  /\ (17 # 20 < inject_Z 29 / inject_Z 30)%Q
  /\ _get_session_difficulty INTERMEDIATE 29 30 = Ok "advanced"
  /\ forall base : DifficultyLevel,
       _get_session_difficulty base 25 30 = _get_session_difficulty base 29 30.
Proof.
  repeat split; try reflexivity; intros [=].
Qed.

(** ** Topic selection *)

(** A topic studied before never scores more than 100 for spacing. *)
Lemma spaced_score_studied (study_count days_since : Z) :
  study_count <> 0 ->
  exists spaced, spaced_score study_count days_since = Ok spaced
                 /\ spaced <= 100.
Proof.
  intros Hc. unfold spaced_score.
  destruct (Z.eqb_spec study_count 0) as [|_]; [contradiction|].
  simpl. eexists. split; [reflexivity | lia].
Qed.

Lemma spaced_score_total (study_count days_since : Z) :
  exists spaced, spaced_score study_count days_since = Ok spaced.
Proof. unfold spaced_score. destruct (study_count =? 0); simpl; eauto. Qed.

(** [max] returns the key whose score is above every other score. *)
Lemma max_from_dominant (u : string) (su : Q) (rest : PyDict.t Q) :
  (forall k v, (k, v) ∈ rest ->
     (k = u -> (v == su)%Q) /\ (k <> u -> (v < su)%Q)) ->
  forall (best : string) (best_score : Q),
    (best = u /\ (best_score == su)%Q)
    \/ ((best_score < su)%Q /\ exists v, (u, v) ∈ rest) ->
    max_from best best_score rest = u.
Proof.
  induction rest as [|[k v] rest IH]; intros Hrest best bs Hbest.
  - destruct Hbest as [[-> _]|[_ [v Hv]]]; [reflexivity|].
    by apply elem_of_nil in Hv.
  - assert (Hrest' : forall k0 v0, (k0, v0) ∈ rest ->
        (k0 = u -> (v0 == su)%Q) /\ (k0 <> u -> (v0 < su)%Q)).
    { intros k0 v0 Hin. apply Hrest. by apply list_elem_of_further. }
    destruct (Hrest k v (list_elem_of_here _ _)) as [Hku Hkn].
    simpl. destruct (Qlt_bool bs v) eqn:E.
    + apply Qlt_bool_true in E. apply (IH Hrest').
      destruct (decide (k = u)) as [->|Hne]; [left; auto|].
      right. split; [auto|].
      destruct Hbest as [[_ Hbs]|[_ [v' Hv']]].
      * specialize (Hkn Hne). lra.
      * apply elem_of_cons in Hv' as [[= <- _]|Hv']; [contradiction|eauto].
    + apply Qlt_bool_false in E. apply (IH Hrest').
      destruct Hbest as [Hb|[Hbs [v' Hv']]]; [by left|].
      right. split; [exact Hbs|].
      apply elem_of_cons in Hv' as [[= <- <-]|Hv']; [|eauto].
      specialize (Hku eq_refl). lra.
Qed.

Lemma max_key_dominant (u : string) (su : Q) (scores : PyDict.t Q) :
  (exists v, (u, v) ∈ scores) ->
  (forall k v, (k, v) ∈ scores ->
     (k = u -> (v == su)%Q) /\ (k <> u -> (v < su)%Q)) ->
  max_key scores = Ok u.
Proof.
  intros [v0 Hu] Hall. destruct scores as [|[k v] rest].
  - by apply elem_of_nil in Hu.
  - simpl. f_equal.
    destruct (Hall k v (list_elem_of_here _ _)) as [Hku Hkn].
    apply (max_from_dominant u su).
    + intros k0 v1 Hin. apply Hall. by apply list_elem_of_further.
    + destruct (decide (k = u)) as [->|Hne]; [left; auto|].
      right. split; [auto|].
      apply elem_of_cons in Hu as [[= <- _]|Hu]; [contradiction|eauto].
Qed.

(** When every topic has a score, the score table is filled in the order
    of the topics and its first maximum is returned. *)
Lemma select_topic_scores (topics : list string) (allocation : PyDict.t Q)
    (day : Z) (last_studied study_count : gmap string Z)
    (score : string -> Q) :
  (forall t, t ∈ topics ->
     topic_score allocation day last_studied study_count t = Ok (score t)) ->
  _select_topic_for_day topics allocation day last_studied study_count
  = max_key (PyDict.fill score topics []).
Proof.
  intros Hscore. unfold _select_topic_for_day.
  rewrite (for_each_total _ (fun d t => PyDict.set d t (score t))).
  - reflexivity.
  - intros d t Ht. by rewrite Hscore.
Qed.

(** Claim C4: In a history state where the topic [u] alone has never been
    studied (count 0, last day at the sentinel -999) and every other topic
    has been studied (count above 0, last studied on a day of the plan),
    [_select_topic_for_day] returns [u] on every day, provided the
    allocated hours lie between 0 and [total_days * daily_hours] and
    [total_days * daily_hours] is below 1401.5: then the score of [u], with
    its spaced component 1000, is above the score of every studied topic,
    whose spaced component is at most 100. *)
Theorem never_studied_topic_selected
    (topics : list string) (allocation : PyDict.t Q) (day : Z)
    (last_studied study_count : gmap string Z) (u : string)
    (total_days : Z) (daily_hours : Q) :
  u ∈ topics ->
  study_count !! u = Some 0 ->
  last_studied !! u = Some (-999) ->
  (forall t, t ∈ topics -> t <> u ->
     exists count last,
       study_count !! t = Some count /\ 0 < count
       /\ last_studied !! t = Some last /\ 1 <= last) ->
  (forall t, t ∈ topics ->
     exists hours, PyDict.get allocation t = Some hours
       /\ (0 <= hours <= inject_Z total_days * daily_hours)%Q) ->
  (inject_Z total_days * daily_hours < 2803 # 2)%Q ->
  _select_topic_for_day topics allocation day last_studied study_count = Ok u.
Proof.
  intros Hu Hcount Hlast Hothers Halloc Hsmall.
  set (score := fun t =>
         match topic_score allocation day last_studied study_count t with
         | Ok s => s
         | Raise _ => 0%Q
         end).
  destruct (Halloc u Hu) as (hu & Hhu & Hhu0 & _).
  assert (Hsu : topic_score allocation day last_studied study_count u
                = Ok (((hu - inject_Z 0 * (3 # 2)) * (2 # 5)
                       + inject_Z 1000 * (2 # 5)
                       + inject_Z (day - -999) * (1 # 5))%Q)).
  { unfold topic_score, map_getitem, PyDict.getitem.
    rewrite Hlast, Hhu, Hcount. reflexivity. }
  assert (Hscore : forall t, t ∈ topics ->
            topic_score allocation day last_studied study_count t
            = Ok (score t)).
  { intros t Ht. unfold score.
    destruct (decide (t = u)) as [->|Hne]; [by rewrite Hsu|].
    destruct (Hothers t Ht Hne) as (c & l & Hc & _ & Hl & _).
    destruct (Halloc t Ht) as (h & Hh & _).
    unfold topic_score, map_getitem, PyDict.getitem.
    rewrite Hl, Hh, Hc. cbn [bind].
    destruct (spaced_score_total c (day - l)) as [sp ->]. reflexivity. }
  rewrite (select_topic_scores _ _ _ _ _ score Hscore).
  apply (max_key_dominant u (score u)).
  - exists (score u). apply dict_get_entry. by apply dict_fill_get.
  - intros k v Hin. apply dict_fill_entry in Hin as [Hk ->].
    split; [by intros ->|]. intros Hne.
    destruct (Hothers k Hk Hne) as (c & l & Hc & Hcpos & Hl & Hlpos).
    destruct (Halloc k Hk) as (h & Hh & _ & Hhmax).
    unfold score at 2. rewrite Hsu.
    unfold score, topic_score, map_getitem, PyDict.getitem.
    rewrite Hl, Hh, Hc. cbn [bind].
    destruct (spaced_score_studied c (day - l) ltac:(lia)) as (sp & -> & Hsp).
    cbn [bind].
    assert (Hc1 : (1 <= inject_Z c)%Q)
      by (change 1%Q with (inject_Z 1); rewrite <- Zle_Qle; lia).
    assert (Hsp1 : (inject_Z sp <= 100)%Q)
      by (change 100%Q with (inject_Z 100); rewrite <- Zle_Qle; exact Hsp).
    assert (Hd : (inject_Z (day - l) + 1000 <= inject_Z (day - -999))%Q).
    { change 1000%Q with (inject_Z 1000).
      rewrite <- inject_Z_plus, <- Zle_Qle. lia. }
    change (inject_Z 0) with 0%Q. change (inject_Z 1000) with 1000%Q.
    lra.
Qed.

Lemma never_studied_topic_selected_witness :
  _select_topic_for_day Sample.three_topics Sample.three_allocation 3
    Sample.last_studied Sample.study_count = Ok "Deep Learning".
Proof.
  apply (never_studied_topic_selected Sample.three_topics
           Sample.three_allocation 3 Sample.last_studied Sample.study_count
           "Deep Learning" 3 2).
  - repeat constructor.
  - reflexivity.
  - reflexivity.
  - intros t Ht Hne.
    repeat (apply elem_of_cons in Ht as [-> | Ht]).
    + exists 1, 1. repeat split; reflexivity || lia.
    + exists 1, 2. repeat split; reflexivity || lia.
    + contradiction.
    + by apply elem_of_nil in Ht.
  - intros t Ht.
    repeat (apply elem_of_cons in Ht as [-> | Ht]);
      [ exists 2%Q | exists 3%Q | exists 1%Q | by apply elem_of_nil in Ht ];
      (split; [reflexivity | split; discriminate]).
  - reflexivity.
Defined.

(** The proviso of claim C4 is needed: with 5000 hours on a studied topic, that
    topic is selected and not the one never studied. *)
Example studied_topic_with_many_hours_is_selected :
  _select_topic_for_day Sample.three_topics Sample.heavy_allocation 3
    Sample.last_studied Sample.study_count = Ok "Linear Regression".
Proof. vm_compute. reflexivity. Qed.

(** ** Composing one session *)

Lemma py_getitem_in_range {A : Type} (l : list A) (i : Z) :
  0 <= i < Z.of_nat (length l) -> exists a, py_getitem l i = Ok a.
Proof.
  intros Hi. unfold py_getitem.
  destruct (Z.ltb_spec i 0) as [|_]; [lia|].
  destruct (Z.leb_spec 0 i) as [_|]; [|lia].
  destruct (Z.ltb_spec i (Z.of_nat (length l))) as [_|]; [|lia].
  simpl. destruct (l !! Z.to_nat i) as [a|] eqn:E; [eauto|].
  apply lookup_ge_None in E. lia.
Qed.

(** Every time slot of the engine starts at 6, 7, 14, 18 or 21 hours. *)
Lemma time_slot_start (preference : TimePreference) (day : Z) (hours : Q)
    (slot : string) :
  _get_optimal_time_slot preference day hours = Ok slot ->
  before_colon slot ∈ ["06"; "07"; "14"; "18"; "21"].
Proof.
  unfold _get_optimal_time_slot. destruct preference.
  1-4: intros [= <-];
    match goal with |- context [fmt_02d ?n] => generalize (fmt_02d n) end;
    intros s; simpl; repeat constructor.
  change (Z.of_nat (length ["07:00"; "14:00"; "18:00"])) with 3.
  pose proof (Z.mod_pos_bound day 3 ltac:(lia)) as Hm.
  assert (Hcases : day mod 3 = 0 \/ day mod 3 = 1 \/ day mod 3 = 2) by lia.
  destruct Hcases as [-> | [-> | ->]]; cbn [py_getitem]; simpl;
    intros [= <-];
    match goal with |- context [fmt_02d ?n] => generalize (fmt_02d n) end;
    intros s; simpl; repeat constructor.
Qed.

Lemma time_slot_total (preference : TimePreference) (day : Z) (hours : Q) :
  exists slot, _get_optimal_time_slot preference day hours = Ok slot.
Proof.
  unfold _get_optimal_time_slot. destruct preference; eauto.
  change (Z.of_nat (length ["07:00"; "14:00"; "18:00"])) with 3.
  pose proof (Z.mod_pos_bound day 3 ltac:(lia)) as Hm.
  assert (Hcases : day mod 3 = 0 \/ day mod 3 = 1 \/ day mod 3 = 2) by lia.
  destruct Hcases as [-> | [-> | ->]]; simpl; eauto.
Qed.

(** At those hours the focus is "Medium" or "Low". *)
Lemma focus_at_start (slot : string) (day : Z) :
  before_colon slot ∈ ["06"; "07"; "14"; "18"; "21"] ->
  exists focus, _estimate_focus_level slot day = Ok focus
                /\ (focus = "Medium" \/ focus = "Low").
Proof.
  intros Hstart. unfold _estimate_focus_level.
  repeat (apply elem_of_cons in Hstart as [-> | Hstart]);
    [ .. | by apply elem_of_nil in Hstart ];
    simpl; destruct (20 <? day); simpl; eauto.
Qed.

Lemma session_difficulty_total (base : DifficultyLevel) (day total_days : Z) :
  total_days <> 0 ->
  exists level, _get_session_difficulty base day total_days = Ok level.
Proof.
  intros Hn. unfold _get_session_difficulty.
  rewrite py_truediv_ok.
  - cbn [bind].
    destruct base; simpl;
      repeat match goal with |- context [Qlt_bool ?a ?b] =>
               destruct (Qlt_bool a b) end; eauto.
  - intros E. apply Hn. unfold Qeq in E. simpl in E. lia.
Qed.

Lemma session_goals_total (topic0 : string) (day : Z) (goal0 : StudyGoal) :
  exists goals0,
    _generate_session_goals topic0 (_generate_subtopics topic0 day goal0) goal0
    = Ok goals0.
Proof. destruct goal0; simpl; eauto. Qed.

Lemma session_prompts_total (day : Z) (topic0 : string) :
  (exists prep, _get_pre_session_prep day topic0 = Ok prep)
  /\ (exists review, _get_post_session_review day topic0 = Ok review).
Proof.
  pose proof (Z.mod_pos_bound day 5 ltac:(lia)) as Hm.
  split; apply py_getitem_in_range; simpl; lia.
Qed.

(** *** What a round of the loop adds *)

Ltac invert_binds H :=
  repeat match type of H with
         | bind _ _ = Ok _ =>
             let x := fresh "x" in
             let Hx := fresh "Hx" in
             apply bind_ok_inv in H as (x & Hx & H)
         end.

Lemma session_body_adds (topics : list string) (topic_allocation : PyDict.t Q)
    (total_days0 : Z) (daily_hours0 : Q) (difficulty0 : DifficultyLevel)
    (time_preference : TimePreference) (learning_style : string)
    (breaks_enabled : bool) (goal0 : StudyGoal) (start_date : Z)
    (st st' : Tracking) (day : Z) :
  session_body topics topic_allocation total_days0 daily_hours0 difficulty0
    time_preference learning_style breaks_enabled goal0 start_date st day
  = Ok st' ->
  exists session,
    sessions_so_far st' = (sessions_so_far st ++ [session])%list
    /\ composed_for start_date daily_hours0 day session.
Proof.
  unfold session_body. intros H. invert_binds H.
  injection H as <-. cbn [sessions_so_far].
  eexists. split; [reflexivity|].
  unfold composed_for.
  cbn [session_date duration_minutes time_slot estimated_focus_level].
  match goal with
  | Hd : Datetime.add_days _ _ = Ok _ |- _ =>
      apply add_days_inv in Hd as [-> Hrange]
  end.
  split; [exact Hrange|]. split; [reflexivity|]. split; [reflexivity|].
  match goal with
  | Hs : _get_optimal_time_slot _ _ _ = Ok ?slot,
    Hf : _estimate_focus_level ?slot ?d = Ok ?f |- _ =>
      apply time_slot_start in Hs; split; [exact Hs|];
      destruct (focus_at_start slot d Hs) as (f' & Hf' & Hcases);
      rewrite Hf in Hf'; injection Hf' as ->; exact Hcases
  end.
Qed.

Lemma sessions_loop_adds (topics : list string) (topic_allocation : PyDict.t Q)
    (total_days0 : Z) (daily_hours0 : Q) (difficulty0 : DifficultyLevel)
    (time_preference : TimePreference) (learning_style : string)
    (breaks_enabled : bool) (goal0 : StudyGoal) (start_date : Z)
    (days : list Z) :
  forall st st',
    for_each
      (session_body topics topic_allocation total_days0 daily_hours0
         difficulty0 time_preference learning_style breaks_enabled goal0
         start_date) days st = Ok st' ->
    exists added,
      sessions_so_far st' = (sessions_so_far st ++ added)%list
      /\ Forall2 (composed_for start_date daily_hours0) days added.
Proof.
  induction days as [|day days IH]; simpl; intros st st' Hrun.
  - injection Hrun as <-. exists []. by rewrite app_nil_r.
  - apply bind_ok_inv in Hrun as (st1 & Hbody & Hrest).
    apply session_body_adds in Hbody as (session & Hone & Hspec).
    apply IH in Hrest as (added & Hmore & Hspecs).
    exists (session :: added). split; [|by constructor].
    rewrite Hmore, Hone, <- app_assoc. reflexivity.
Qed.

(** The sessions of a returned plan, day by day. *)
Lemma generate_sessions_composed (start_date : Z) (topics : list string)
    (topic_allocation : PyDict.t Q) (total_days0 : Z) (daily_hours0 : Q)
    (difficulty0 : DifficultyLevel) (time_preference : TimePreference)
    (learning_style : string) (breaks_enabled : bool) (goal0 : StudyGoal)
    (sessions0 : list StudySession) :
  _generate_sessions start_date topics topic_allocation total_days0
    daily_hours0 difficulty0 time_preference learning_style breaks_enabled
    goal0 = Ok sessions0 ->
  Forall2 (composed_for start_date daily_hours0) (seqZ 0 total_days0) sessions0.
Proof.
  unfold _generate_sessions. intros H.
  apply bind_ok_inv in H as (st & Hloop & [= <-]).
  apply sessions_loop_adds in Hloop as (added & -> & Hspecs). exact Hspecs.
Qed.

Lemma generate_plan_sessions (clock : Clock) (subject0 : string)
    (topics : list string) (goal0 : StudyGoal) (difficulty0 : DifficultyLevel)
    (total_days0 : Z) (daily_hours0 : Q) (exam_date0 : option string)
    (time_preference : TimePreference) (learning_style : string)
    (current_knowledge : option (gmap string Z))
    (weak_areas : option (list string)) (breaks_enabled : bool)
    (plan : StudyPlan) :
  generate_plan clock subject0 topics goal0 difficulty0 total_days0
    daily_hours0 exam_date0 time_preference learning_style current_knowledge
    weak_areas breaks_enabled = Ok plan ->
  Forall2 (composed_for (clock_start clock) daily_hours0)
    (seqZ 0 total_days0) (sessions plan).
Proof.
  unfold generate_plan. intros H. invert_binds H.
  injection H as <-. cbn [sessions].
  by eapply generate_sessions_composed.
Qed.

(** *** The loop runs to its end *)

Lemma max_from_elem (best : string) (best_score : Q) (rest : PyDict.t Q) :
  max_from best best_score rest ∈ best :: PyDict.keys rest.
Proof.
  revert best best_score.
  induction rest as [|[k v] rest IH]; simpl; intros best bs.
  - apply list_elem_of_here.
  - destruct (Qlt_bool bs v).
    + apply list_elem_of_further, IH.
    + specialize (IH best bs). apply elem_of_cons in IH as [-> | IH].
      * apply list_elem_of_here.
      * by do 2 apply list_elem_of_further.
Qed.

Lemma select_topic_total (topics : list string) (allocation : PyDict.t Q)
    (day : Z) (last_studied study_count : gmap string Z) :
  topics <> [] ->
  covers topics allocation ->
  tracks topics last_studied study_count ->
  exists t, _select_topic_for_day topics allocation day last_studied
              study_count = Ok t
            /\ t ∈ topics.
Proof.
  intros Hne Hcov Htr.
  set (score := fun t =>
         match topic_score allocation day last_studied study_count t with
         | Ok s => s
         | Raise _ => 0%Q
         end).
  rewrite (select_topic_scores _ _ _ _ _ score).
  - destruct (PyDict.fill score topics []) as [|[k v] rest] eqn:E.
    + destruct topics as [|t topics]; [contradiction|].
      assert (t ∈ PyDict.keys (PyDict.fill score (t :: topics) [])) as Hin
        by (apply dict_fill_keys_elem; left; apply list_elem_of_here).
      rewrite E in Hin. by apply elem_of_nil in Hin.
    + simpl. eexists. split; [reflexivity|].
      pose proof (max_from_elem k v rest) as Hin.
      change (k :: PyDict.keys rest) with (PyDict.keys ((k, v) :: rest)) in Hin.
      rewrite <- E in Hin. apply dict_fill_keys_elem in Hin as [Hin|Hin];
        [exact Hin | by apply elem_of_nil in Hin].
  - intros t Ht. unfold score.
    destruct (Htr t Ht) as [[l Hl] [c Hc]]. destruct (Hcov t Ht) as [h Hh].
    unfold topic_score, map_getitem, PyDict.getitem.
    rewrite Hl, Hh, Hc. cbn [bind].
    destruct (spaced_score_total c (day - l)) as [sp ->]. reflexivity.
Qed.

Lemma session_body_total (topics : list string) (topic_allocation : PyDict.t Q)
    (total_days0 : Z) (daily_hours0 : Q) (difficulty0 : DifficultyLevel)
    (time_preference : TimePreference) (learning_style : string)
    (breaks_enabled : bool) (goal0 : StudyGoal) (start_date : Z)
    (st : Tracking) (day : Z) :
  topics <> [] ->
  total_days0 <> 0 ->
  1 <= start_date + day <= Datetime.MAXORDINAL ->
  covers topics topic_allocation ->
  tracks topics (topic_last_studied st) (topic_study_count st) ->
  exists st',
    session_body topics topic_allocation total_days0 daily_hours0 difficulty0
      time_preference learning_style breaks_enabled goal0 start_date st day
    = Ok st'
    /\ tracks topics (topic_last_studied st') (topic_study_count st').
Proof.
  intros Hne Hdays Hrange Hcov Htr. unfold session_body.
  rewrite (add_days_in_range _ _ Hrange). cbn [bind].
  destruct (select_topic_total topics topic_allocation (day + 1) _ _ Hne Hcov Htr)
    as (t & -> & Ht).
  cbn [bind].
  destruct (time_slot_total time_preference (day + 1) daily_hours0) as [slot Hslot].
  rewrite Hslot. cbn [bind].
  destruct (session_difficulty_total difficulty0 (day + 1) total_days0 Hdays)
    as [level ->].
  cbn [bind]. unfold _select_study_techniques at 1. cbn [bind PyDict.getitem].
  change (PyDict.get self_study_techniques "intermediate")
    with (Some ["Feynman Technique"; "Mind Mapping"; "Practice Problems";
                "Peer Discussion"]).
  cbn [bind].
  destruct (session_goals_total t (day + 1) goal0) as [goals0 ->].
  cbn [bind]. unfold _get_learning_resources at 1.
  change (PyDict.getitem learning_resources "visual")
    with (Ok (A := list string)
            ["YouTube tutorials"; "Infographics"; "Interactive simulations"]).
  cbn [bind].
  destruct (focus_at_start slot (day + 1) (time_slot_start _ _ _ _ Hslot))
    as (focus & -> & _).
  cbn [bind].
  destruct (session_prompts_total (day + 1) t) as [[prep ->] [review ->]].
  cbn [bind].
  destruct (Htr t Ht) as [_ [c Hc]].
  unfold map_getitem. rewrite Hc. cbn [bind].
  eexists. split; [reflexivity|].
  cbn [topic_last_studied topic_study_count].
  intros t' Ht'. destruct (Htr t' Ht') as [Hl' Hc'].
  split.
  - destruct (decide (t = t')) as [->|Hn];
      [rewrite lookup_insert_eq | rewrite lookup_insert_ne by exact Hn]; eauto.
  - destruct (decide (t = t')) as [->|Hn];
      [rewrite lookup_insert_eq | rewrite lookup_insert_ne by exact Hn]; eauto.
Qed.

Lemma sessions_loop_total (topics : list string) (topic_allocation : PyDict.t Q)
    (total_days0 : Z) (daily_hours0 : Q) (difficulty0 : DifficultyLevel)
    (time_preference : TimePreference) (learning_style : string)
    (breaks_enabled : bool) (goal0 : StudyGoal) (start_date : Z)
    (days : list Z) :
  (days <> [] -> topics <> [] /\ total_days0 <> 0) ->
  Forall (fun day => 1 <= start_date + day <= Datetime.MAXORDINAL) days ->
  covers topics topic_allocation ->
  forall st,
    tracks topics (topic_last_studied st) (topic_study_count st) ->
    exists st',
      for_each
        (session_body topics topic_allocation total_days0 daily_hours0
           difficulty0 time_preference learning_style breaks_enabled goal0
           start_date) days st = Ok st'.
Proof.
  intros Hpre Hrange Hcov.
  induction days as [|day days IH]; simpl; intros st Htr.
  - eauto.
  - destruct (Hpre ltac:(discriminate)) as [Hne Hdays].
    apply Forall_cons in Hrange as [Hday Hrange].
    destruct (session_body_total topics topic_allocation total_days0
                daily_hours0 difficulty0 time_preference learning_style
                breaks_enabled goal0 start_date st day Hne Hdays Hday Hcov Htr)
      as (st1 & -> & Htr1).
    cbn [bind]. apply IH; [|exact Hrange|exact Htr1]. intros _. by split.
Qed.

Lemma dict_from_keys_lookup (topics : list string) (v : Z) (t : string) :
  t ∈ topics -> is_Some (dict_from_keys topics v !! t).
Proof.
  unfold dict_from_keys.
  assert (Hgen : forall d : gmap string Z,
            t ∈ topics \/ is_Some (d !! t) ->
            is_Some (fold_left (fun d0 k => <[k := v]> d0) topics d !! t)).
  { induction topics as [|k topics IH]; simpl; intros d Hd.
    - destruct Hd as [Hd|Hd]; [by apply elem_of_nil in Hd | exact Hd].
    - apply IH. destruct (decide (k = t)) as [->|Hn].
      + right. rewrite lookup_insert_eq. eauto.
      + rewrite lookup_insert_ne by exact Hn.
        destruct Hd as [Hd|Hd]; [|by right].
        apply elem_of_cons in Hd as [->|Hd]; [contradiction | by left]. }
  intros Ht. apply Hgen. by left.
Qed.

Lemma generate_sessions_total (start_date : Z) (topics : list string)
    (topic_allocation : PyDict.t Q) (total_days0 : Z) (daily_hours0 : Q)
    (difficulty0 : DifficultyLevel) (time_preference : TimePreference)
    (learning_style : string) (breaks_enabled : bool) (goal0 : StudyGoal) :
  (0 < total_days0 -> topics <> []) ->
  (0 < total_days0 ->
   1 <= start_date /\ start_date + total_days0 - 1 <= Datetime.MAXORDINAL) ->
  covers topics topic_allocation ->
  exists sessions0,
    _generate_sessions start_date topics topic_allocation total_days0
      daily_hours0 difficulty0 time_preference learning_style breaks_enabled
      goal0 = Ok sessions0.
Proof.
  intros Hne Hrange Hcov. unfold _generate_sessions.
  edestruct (sessions_loop_total topics topic_allocation total_days0
               daily_hours0 difficulty0 time_preference learning_style
               breaks_enabled goal0 start_date (seqZ 0 total_days0))
    as [st' ->]; [| | exact Hcov | | cbn [bind]; eauto].
  - intros Hdays.
    assert (0 < total_days0).
    { destruct (Z.ltb_spec 0 total_days0) as [|Hle]; [assumption|].
      exfalso. apply Hdays. unfold seqZ.
      replace (Z.to_nat total_days0) with 0%nat by lia. reflexivity. }
    split; [auto | lia].
  - apply Forall_forall. intros day Hday. apply elem_of_seqZ in Hday. lia.
  - cbn [topic_last_studied topic_study_count].
    intros t Ht. split; by apply dict_from_keys_lookup.
Qed.

(** With no topic, the first round already fails: [max] of an empty score
    table. *)
Lemma generate_sessions_no_topic (start_date : Z)
    (topic_allocation : PyDict.t Q) (total_days0 : Z) (daily_hours0 : Q)
    (difficulty0 : DifficultyLevel) (time_preference : TimePreference)
    (learning_style : string) (breaks_enabled : bool) (goal0 : StudyGoal) :
  0 < total_days0 ->
  1 <= start_date <= Datetime.MAXORDINAL ->
  _generate_sessions start_date [] topic_allocation total_days0 daily_hours0
    difficulty0 time_preference learning_style breaks_enabled goal0
  = Raise ValueError.
Proof.
  intros Hpos Hstart. unfold _generate_sessions, seqZ.
  destruct (Z.to_nat total_days0) as [|n] eqn:E; [lia|].
  cbn [seq fmap list_fmap for_each]. unfold session_body at 1.
  rewrite add_days_in_range by (simpl; lia). reflexivity.
Qed.

Lemma create_milestones_total (topics : list string) (total_days0 : Z)
    (goal0 : StudyGoal) :
  exists milestones0, _create_milestones topics total_days0 goal0 = Ok milestones0.
Proof. eexists. reflexivity. Qed.

(** The allocation fails only on weights that sum to zero, and otherwise
    has an entry for every topic. *)
Lemma allocation_total (topics : list string) (total_days0 : Z)
    (daily_hours0 : Q) (current_knowledge : gmap string Z)
    (weak_areas : list string) :
  (topics <> [] -> ~ (total_weight topics current_knowledge weak_areas == 0)%Q) ->
  exists allocation,
    _calculate_topic_allocation topics total_days0 daily_hours0
      current_knowledge weak_areas = Ok allocation
    /\ covers topics allocation.
Proof.
  intros Hw. destruct topics as [|t0 topics].
  - exists []. split; [reflexivity|]. intros t Ht. by apply elem_of_nil in Ht.
  - specialize (Hw ltac:(discriminate)).
    eexists. split; [by apply allocation_value|].
    intros t Ht. eexists.
    by apply (shares_get (fun w => (w / _ * _)%Q)).
Qed.

(** *** When [generate_plan] returns *)

Lemma reviews_loop_total (now : Z -> Z) (total_days0 : Z)
    (reviews : list string) (week : Z) :
  (forall w, week <= w <= total_days0 ->
     1 <= now w + w <= Datetime.MAXORDINAL) ->
  exists reviews', reviews_loop now total_days0 reviews week = Ok reviews'.
Proof.
  funelim (reviews_loop now total_days0 reviews week); intros Hrange.
  - eauto.
  - match goal with IH : _ -> exists _, _ |- _ => apply IH end.
    intros w Hw. apply Hrange. lia.
  - match goal with H : Datetime.add_days _ _ = Raise _ |- _ =>
      rewrite add_days_in_range in H by (apply Hrange; lia); discriminate
    end.
Qed.

Lemma generate_plan_total (clock : Clock) (subject0 : string)
    (topics : list string) (goal0 : StudyGoal) (difficulty0 : DifficultyLevel)
    (total_days0 : Z) (daily_hours0 : Q) (exam_date0 : option string)
    (time_preference : TimePreference) (learning_style : string)
    (current_knowledge : option (gmap string Z))
    (weak_areas : option (list string)) (breaks_enabled : bool) :
  (0 < total_days0 -> topics <> []) ->
  (topics <> [] ->
   ~ (total_weight topics (knowledge_or_zero topics current_knowledge)
        (default [] weak_areas) == 0)%Q) ->
  clock_in_range clock total_days0 ->
  exists plan,
    generate_plan clock subject0 topics goal0 difficulty0 total_days0
      daily_hours0 exam_date0 time_preference learning_style current_knowledge
      weak_areas breaks_enabled = Ok plan.
Proof.
  intros Hne Hw [Hstart Hreviews]. unfold generate_plan.
  destruct (allocation_total topics total_days0 daily_hours0 _ _ Hw)
    as (allocation & -> & Hcov).
  cbn [bind].
  destruct (generate_sessions_total (clock_start clock) topics allocation
              total_days0 daily_hours0 difficulty0 time_preference
              learning_style breaks_enabled goal0 Hne Hstart Hcov)
    as [sessions0 ->].
  cbn [bind].
  destruct (create_milestones_total topics total_days0 goal0) as [ms ->].
  cbn [bind]. unfold _generate_weekly_reviews.
  destruct (reviews_loop_total (clock_review clock) total_days0 [] 7 Hreviews)
    as [reviews ->].
  cbn [bind]. eauto.
Qed.

Lemma generate_plan_no_topic (clock : Clock) (subject0 : string)
    (goal0 : StudyGoal) (difficulty0 : DifficultyLevel)
    (total_days0 : Z) (daily_hours0 : Q) (exam_date0 : option string)
    (time_preference : TimePreference) (learning_style : string)
    (current_knowledge : option (gmap string Z))
    (weak_areas : option (list string)) (breaks_enabled : bool) :
  0 < total_days0 ->
  1 <= clock_start clock <= Datetime.MAXORDINAL ->
  generate_plan clock subject0 [] goal0 difficulty0 total_days0
    daily_hours0 exam_date0 time_preference learning_style current_knowledge
    weak_areas breaks_enabled = Raise ValueError.
Proof.
  intros Hpos Hstart. unfold generate_plan.
  change (_calculate_topic_allocation [] total_days0 daily_hours0
            (knowledge_or_zero [] current_knowledge) (default [] weak_areas))
    with (Ok (A := PyDict.t Q) []).
  cbn [bind]. by rewrite generate_sessions_no_topic.
Qed.

Lemma composed_dates (start_date : Z) (daily_hours0 : Q) (days : list Z)
    (sessions0 : list StudySession) :
  Forall2 (composed_for start_date daily_hours0) days sessions0 ->
  map session_date sessions0
  = map Datetime.strftime_ymd (map (Z.add start_date) days)
  /\ Forall (fun d => 1 <= d <= Datetime.MAXORDINAL)
       (map (Z.add start_date) days).
Proof.
  induction 1 as [|day session days sessions0 (Hr & Hd & _) _ [IH1 IH2]];
    simpl; [by split|].
  split; [by rewrite Hd, IH1 | by constructor].
Qed.

Lemma seqZ_shift (start len : Z) :
  map (Z.add start) (seqZ 0 len) = seqZ start len.
Proof.
  unfold seqZ. rewrite <- list_fmap_compose. apply list_fmap_ext.
  intros i x _. simpl. lia.
Qed.

Lemma seqZ_increasing (start len : Z) : StronglySorted Z.lt (seqZ start len).
Proof.
  unfold seqZ. generalize (Z.to_nat len) as n. intros n. generalize 0%nat as i.
  induction n as [|n IH]; intros i; simpl; constructor.
  - apply IH.
  - apply Forall_forall. intros x Hx. apply list_elem_of_fmap in Hx as (j & -> & Hj).
    apply elem_of_seq in Hj. lia.
Qed.

(** ** Plans *)

(** Days in increasing order have their texts in increasing order. *)
Lemma date_texts_sorted (days : list Z) :
  StronglySorted Z.lt days ->
  Forall (fun d => 1 <= d <= Datetime.MAXORDINAL) days ->
  StronglySorted (fun a b => String.ltb a b = true)
    (map Datetime.strftime_ymd days).
Proof.
  induction 1 as [|d days Hsorted IH Hd]; intros Hrange; simpl;
    constructor; apply Forall_cons in Hrange as [Hdr Hrange].
  - by apply IH.
  - apply Forall_forall. intros text Htext.
    apply list_elem_of_fmap in Htext as (d' & -> & Hd').
    rewrite Forall_forall in Hd, Hrange.
    specialize (Hd d' Hd'). specialize (Hrange d' Hd').
    apply strftime_ymd_lt; unfold Datetime.MAXORDINAL in *; lia.
Qed.

Lemma composed_all (P : StudySession -> Prop) (start_date : Z)
    (daily_hours0 : Q) (days : list Z) (sessions0 : list StudySession) :
  (forall day session,
     composed_for start_date daily_hours0 day session -> P session) ->
  Forall2 (composed_for start_date daily_hours0) days sessions0 ->
  Forall P sessions0.
Proof.
  intros HP. induction 1 as [|day session days sessions0 Hc _ IH];
    constructor; eauto.
Qed.

(** Claim C1: For every valid input (total_days > 0, daily_hours > 0,
    non-empty topics), the plan that [generate_plan] returns has exactly
    [total_days] sessions; their dates are the texts of the [total_days]
    consecutive days from the generation date on, they increase strictly
    (in the order of [<] on [str], which is the order of the days), and no
    two sessions have the same date. A plan is returned whenever the
    weights do not sum to zero and the days stay in the calendar. *)
Theorem plan_sessions_on_consecutive_dates
    (clock : Clock) (subject0 : string) (topics : list string)
    (goal0 : StudyGoal) (difficulty0 : DifficultyLevel) (total_days0 : Z)
    (daily_hours0 : Q) (exam_date0 : option string)
    (time_preference : TimePreference) (learning_style : string)
    (current_knowledge : option (gmap string Z))
    (weak_areas : option (list string)) (breaks_enabled : bool) :
  0 < total_days0 ->
  (0 < daily_hours0)%Q ->
  topics <> [] ->
  (~ (total_weight topics (knowledge_or_zero topics current_knowledge)
        (default [] weak_areas) == 0)%Q ->
   clock_in_range clock total_days0 ->
   exists plan,
     generate_plan clock subject0 topics goal0 difficulty0 total_days0
       daily_hours0 exam_date0 time_preference learning_style
       current_knowledge weak_areas breaks_enabled = Ok plan)
  /\ forall plan,
       generate_plan clock subject0 topics goal0 difficulty0 total_days0
         daily_hours0 exam_date0 time_preference learning_style
         current_knowledge weak_areas breaks_enabled = Ok plan ->
       length (sessions plan) = Z.to_nat total_days0
       /\ map session_date (sessions plan)
          = map Datetime.strftime_ymd (seqZ (clock_start clock) total_days0)
       /\ StronglySorted (fun a b => String.ltb a b = true)
            (map session_date (sessions plan))
       /\ NoDup (map session_date (sessions plan)).
Proof.
  intros Hdays Hhours Htopics. split.
  - intros Hw Hclock. apply generate_plan_total; auto.
  - intros plan Hplan. apply generate_plan_sessions in Hplan.
    destruct (composed_dates _ _ _ _ Hplan) as [Hdates Hrange].
    rewrite seqZ_shift in Hdates, Hrange.
    split; [|split; [exact Hdates|split]].
    + apply Forall2_length in Hplan. rewrite <- Hplan. apply length_seqZ.
    + rewrite Hdates. apply date_texts_sorted; [apply seqZ_increasing|].
      exact Hrange.
    + rewrite Hdates. apply NoDup_fmap_2_strong; [|apply NoDup_seqZ].
      rewrite Forall_forall in Hrange.
      intros d d' Hd Hd'. apply strftime_ymd_inj; auto.
Qed.

Lemma plan_sessions_on_consecutive_dates_witness :
  (exists plan, Sample.plan_for 30 (5 # 2) = Ok plan)
  /\ forall plan, Sample.plan_for 30 (5 # 2) = Ok plan ->
       length (sessions plan) = 30%nat
       /\ map session_date (sessions plan)
          = map Datetime.strftime_ymd (seqZ 739252 30)
       /\ StronglySorted (fun a b => String.ltb a b = true)
            (map session_date (sessions plan))
       /\ NoDup (map session_date (sessions plan)).
Proof.
  destruct (plan_sessions_on_consecutive_dates Sample.clock "Machine Learning"
              Sample.topics EXAM_PREP INTERMEDIATE 30 (5 # 2)
              (Some "2025-01-20") EVENING "visual"
              (Some Sample.current_knowledge) (Some Sample.weak_areas) true)
    as [Hreturns Hplan].
  - lia.
  - reflexivity.
  - discriminate.
  - split; [|exact Hplan].
    apply Hreturns.
    + intros E. vm_compute in E. discriminate.
    + split; [intros _; vm_compute; split; discriminate|].
      intros week Hweek. unfold Datetime.MAXORDINAL. simpl. lia.
Defined.

(** Claim C6 as stated fails: with [total_days = 0] a plan is
    returned, and with a negative [daily_hours] a plan with all its
    sessions is returned; no error is raised. *)
Lemma invalid_arguments_are_accepted :
  is_ok (Sample.plan_for 0 (5 # 2)) = true
  /\ exists plan,
       Sample.plan_for 3 (-5 # 2) = Ok plan
       /\ length (sessions plan) = 3%nat.
Proof.
  split; [vm_compute; reflexivity|].
  eexists. split; [vm_compute; reflexivity | reflexivity].
Qed.

(** Claim C6, amended: [generate_plan] checks none of its arguments. With
    invalid arguments (total_days <= 0, daily_hours <= 0 or no topic): no
    topic and [total_days > 0] raise [ValueError], from [max] over the empty
    score table in the first round of the session loop, before any session
    is composed; in the other cases, when the weights do not sum to zero
    and the days stay in the calendar, a plan is returned, with no session
    for [total_days <= 0] and with [total_days] sessions of
    [int(daily_hours * 60)] minutes otherwise, the binary64 product cut to
    its integer part. *)
Theorem generate_plan_checks_no_argument
    (clock : Clock) (subject0 : string) (topics : list string)
    (goal0 : StudyGoal) (difficulty0 : DifficultyLevel) (total_days0 : Z)
    (daily_hours0 : Q) (exam_date0 : option string)
    (time_preference : TimePreference) (learning_style : string)
    (current_knowledge : option (gmap string Z))
    (weak_areas : option (list string)) (breaks_enabled : bool) :
  total_days0 <= 0 \/ (daily_hours0 <= 0)%Q \/ topics = [] ->
  (topics = [] -> 0 < total_days0 ->
   1 <= clock_start clock <= Datetime.MAXORDINAL ->
   generate_plan clock subject0 topics goal0 difficulty0 total_days0
     daily_hours0 exam_date0 time_preference learning_style
     current_knowledge weak_areas breaks_enabled = Raise ValueError)
  /\ ((0 < total_days0 -> topics <> []) ->
      (topics <> [] ->
       ~ (total_weight topics (knowledge_or_zero topics current_knowledge)
            (default [] weak_areas) == 0)%Q) ->
      clock_in_range clock total_days0 ->
      exists plan,
        generate_plan clock subject0 topics goal0 difficulty0 total_days0
          daily_hours0 exam_date0 time_preference learning_style
          current_knowledge weak_areas breaks_enabled = Ok plan
        /\ length (sessions plan) = Z.to_nat total_days0
        /\ Forall (fun s =>
                     duration_minutes s = py_int (Float64.mul daily_hours0 60))
             (sessions plan)).
Proof.
  intros _. split.
  - intros -> Hdays Hstart. by apply generate_plan_no_topic.
  - intros Htopics Hw Hclock.
    destruct (generate_plan_total clock subject0 topics goal0 difficulty0
                total_days0 daily_hours0 exam_date0 time_preference
                learning_style current_knowledge weak_areas breaks_enabled
                Htopics Hw Hclock) as [plan Hplan].
    exists plan. split; [exact Hplan|].
    apply generate_plan_sessions in Hplan. split.
    + apply Forall2_length in Hplan. rewrite <- Hplan. apply length_seqZ.
    + eapply composed_all; [|exact Hplan]. by intros day s (_ & _ & Hd & _).
Qed.

Lemma generate_plan_checks_no_argument_witness :
  exists plan,
    Sample.plan_for 3 (-5 # 2) = Ok plan
    /\ length (sessions plan) = 3%nat
    /\ Forall (fun s => duration_minutes s = -150) (sessions plan).
Proof.
  destruct (generate_plan_checks_no_argument Sample.clock "Machine Learning"
              Sample.topics EXAM_PREP INTERMEDIATE 3 (-5 # 2)
              (Some "2025-01-20") EVENING "visual"
              (Some Sample.current_knowledge) (Some Sample.weak_areas) true)
    as [_ Hreturns].
  - right. left. discriminate.
  - apply Hreturns.
    + discriminate.
    + intros _ E. vm_compute in E. discriminate.
    + split; [intros _; vm_compute; split; discriminate|].
      intros week Hweek. unfold Datetime.MAXORDINAL. simpl. lia.
Defined.

(** Claim C7: the code divides by zero: with one topic at knowledge 100,
    the allocation raises [ZeroDivisionError] at [weight / total_weight],
    and [generate_plan] with it. *)
Theorem allocation_of_mastered_topic_divides_by_zero :
  StudyPlanGenerator._calculate_topic_allocation ["Linear Regression"] 30
    (5 # 2) Sample.mastered [] = Raise ZeroDivisionError
  /\ StudyPlanGenerator.generate_plan Sample.clock "Machine Learning"
       ["Linear Regression"] EXAM_PREP INTERMEDIATE 30 (5 # 2) None FLEXIBLE
       "visual" (Some Sample.mastered) None true
     = Raise ZeroDivisionError.
Proof. split; vm_compute; reflexivity. Qed.

(** Whenever every topic is at knowledge 100 the weights sum to zero. *)
Lemma mastered_topics_weigh_nothing (topics : list string)
    (current_knowledge : gmap string Z) (weak_areas : list string) :
  (forall t, t ∈ topics -> current_knowledge !! t = Some 100) ->
  (total_weight topics current_knowledge weak_areas == 0)%Q.
Proof.
  intros Hall. unfold total_weight, py_sum.
  assert (Hzero : Forall (fun w => (w == 0)%Q)
            (PyDict.values (topic_weights topics current_knowledge weak_areas))).
  { apply Forall_forall. intros w Hw. unfold PyDict.values in Hw.
    apply list_elem_of_fmap in Hw as ([k w'] & -> & Hin).
    apply dict_fill_entry in Hin as [Hk ->]. simpl.
    unfold topic_weight. rewrite (Hall k Hk). simpl.
    destruct (bool_decide (k ∈ weak_areas)); reflexivity. }
  revert Hzero.
  generalize (PyDict.values (topic_weights topics current_knowledge weak_areas)).
  intros ws Hzero.
  assert (Hgen : forall a, (a == 0)%Q -> (fold_left Qplus ws a == 0)%Q).
  { induction Hzero as [|w ws Hw _ IH]; simpl; intros a Ha; [exact Ha|].
    apply IH. rewrite Ha, Hw. reflexivity. }
  by apply Hgen.
Qed.

(** Claim C9 as stated fails: for [daily_hours = 17/64] the
    product [daily_hours * 60] is 15.9375, which rounds to 16, and the
    session lasts 15 minutes. *)
Lemma duration_is_not_rounded :
  spec_round ((17 # 64) * 60) = 16
  /\ exists plan,
       Sample.plan_for 1 (17 # 64) = Ok plan
       /\ Forall (fun s => duration_minutes s = 15) (sessions plan)
       /\ ~ Forall (fun s => duration_minutes s = spec_round ((17 # 64) * 60))
              (sessions plan).
Proof.
  split; [reflexivity|].
  eexists. split; [vm_compute; reflexivity|]. split.
  - repeat constructor.
  - intros H. apply Forall_cons in H as [H _]. vm_compute in H. discriminate.
Qed.

(** The product that [int] cuts is the binary64 product: 0.35 hours give
    21 minutes, since [0.35 * 60] rounds up to [21.0], where the exact
    product of the float 0.35 and 60 lies below 21; 4.1 hours give 245
    minutes and 9.1 hours give 546; and so with a negative sign. *)
Lemma duration_follows_the_float_product :
  py_int (Float64.mul (7 # 20) 60) = 21
  /\ py_int (Float64.round (7 # 20) * 60) = 20
  /\ py_int (Float64.mul (41 # 10) 60) = 245
  /\ py_int ((41 # 10) * 60) = 246
  /\ py_int (Float64.mul (91 # 10) 60) = 546
  /\ py_int (Float64.round (91 # 10) * 60) = 545
  /\ py_int (Float64.mul (-7 # 20) 60) = -21
  /\ py_int (Float64.mul (-41 # 10) 60) = -245.
Proof. repeat split; vm_compute; reflexivity. Qed.

(** For the steps of the dashboard's slider, 0.5 to 8.0 hours by halves,
    the product is exact. *)
Lemma half_hour_products_are_exact :
  Forall (fun k => (Float64.mul (k # 2) 60 == (k # 2) * 60)%Q) (seqZ 1 16).
Proof.
  apply Forall_forall. intros k Hk. apply elem_of_seqZ in Hk.
  assert (Hcases : k ∈ seqZ 1 16) by (apply elem_of_seqZ; lia).
  clear Hk. vm_compute in Hcases.
  repeat (apply elem_of_cons in Hcases as [->|Hcases]; [reflexivity|]).
  by apply elem_of_nil in Hcases.
Qed.

(** [int] gives equal rationals the same integer part. *)
Lemma py_int_Qeq (x y : Q) : (x == y)%Q -> py_int x = py_int y.
Proof.
  unfold Qeq, py_int. destruct x as [a b], y as [c d]. simpl. intros H.
  rewrite <- (Z.quot_mul_cancel_r a (Z.pos b) (Z.pos d)) by lia.
  rewrite <- (Z.quot_mul_cancel_r c (Z.pos d) (Z.pos b)) by lia.
  rewrite H. f_equal. lia.
Qed.

(** Claim C9, amended: On every day of every generated plan,
    [duration_minutes] is [int(daily_hours * 60)]: the product of the
    floats, which is the exact product rounded to binary64, cut to its
    integer part (toward zero); one value for all days. When the float
    product is the exact product, as for multiples of half an hour, it is
    the integer part of the exact product. *)
Theorem session_duration_is_truncated
    (clock : Clock) (subject0 : string) (topics : list string)
    (goal0 : StudyGoal) (difficulty0 : DifficultyLevel) (total_days0 : Z)
    (daily_hours0 : Q) (exam_date0 : option string)
    (time_preference : TimePreference) (learning_style : string)
    (current_knowledge : option (gmap string Z))
    (weak_areas : option (list string)) (breaks_enabled : bool)
    (plan : StudyPlan) :
  generate_plan clock subject0 topics goal0 difficulty0 total_days0
    daily_hours0 exam_date0 time_preference learning_style current_knowledge
    weak_areas breaks_enabled = Ok plan ->
  Forall (fun s => duration_minutes s = py_int (Float64.mul daily_hours0 60))
    (sessions plan)
  /\ ((Float64.mul daily_hours0 60 == daily_hours0 * 60)%Q ->
      Forall (fun s => duration_minutes s = py_int (daily_hours0 * 60))
        (sessions plan)).
Proof.
  intros Hplan. apply generate_plan_sessions in Hplan.
  assert (Hfloat : Forall (fun s => duration_minutes s
                                    = py_int (Float64.mul daily_hours0 60))
                     (sessions plan)).
  { eapply composed_all; [|exact Hplan]. by intros day s (_ & _ & Hd & _). }
  split; [exact Hfloat|]. intros Hexact.
  eapply Forall_impl; [exact Hfloat|]. intros s ->.
  by apply py_int_Qeq.
Qed.

Lemma session_duration_is_truncated_witness :
  exists plan,
    Sample.plan_for 30 (5 # 2) = Ok plan
    /\ Forall (fun s => duration_minutes s = 150) (sessions plan).
Proof.
  eexists. split; [vm_compute; reflexivity|].
  apply (session_duration_is_truncated Sample.clock "Machine Learning"
           Sample.topics EXAM_PREP INTERMEDIATE 30 (5 # 2)
           (Some "2025-01-20") EVENING "visual"
           (Some Sample.current_knowledge) (Some Sample.weak_areas) true).
  - vm_compute. reflexivity.
  - reflexivity.
Defined.

(** Claim C10: In every plan that [generate_plan] returns, every session
    starts at 6, 7, 14, 18 or 21 hours and its [estimated_focus_level] is
    "Medium" or "Low"; "High" and "Medium-High" do not occur. *)
Theorem focus_level_is_medium_or_low
    (clock : Clock) (subject0 : string) (topics : list string)
    (goal0 : StudyGoal) (difficulty0 : DifficultyLevel) (total_days0 : Z)
    (daily_hours0 : Q) (exam_date0 : option string)
    (time_preference : TimePreference) (learning_style : string)
    (current_knowledge : option (gmap string Z))
    (weak_areas : option (list string)) (breaks_enabled : bool)
    (plan : StudyPlan) :
  generate_plan clock subject0 topics goal0 difficulty0 total_days0
    daily_hours0 exam_date0 time_preference learning_style current_knowledge
    weak_areas breaks_enabled = Ok plan ->
  Forall (fun s =>
            before_colon (time_slot s) ∈ ["06"; "07"; "14"; "18"; "21"]
            /\ (estimated_focus_level s = "Medium"
                \/ estimated_focus_level s = "Low")
            /\ estimated_focus_level s <> "High"
            /\ estimated_focus_level s <> "Medium-High")
    (sessions plan).
Proof.
  intros Hplan. apply generate_plan_sessions in Hplan.
  eapply composed_all; [|exact Hplan].
  intros day s (_ & _ & _ & Hstart & Hfocus).
  split; [exact Hstart|]. split; [exact Hfocus|].
  destruct Hfocus as [-> | ->]; split; discriminate.
Qed.

Lemma focus_level_is_medium_or_low_witness :
  exists plan,
    Sample.plan_for 30 (5 # 2) = Ok plan
    /\ Forall (fun s =>
                 before_colon (time_slot s) ∈ ["06"; "07"; "14"; "18"; "21"]
                 /\ (estimated_focus_level s = "Medium"
                     \/ estimated_focus_level s = "Low")
                 /\ estimated_focus_level s <> "High"
                 /\ estimated_focus_level s <> "Medium-High")
         (sessions plan).
Proof.
  eexists. split; [vm_compute; reflexivity|].
  apply (focus_level_is_medium_or_low Sample.clock "Machine Learning"
           Sample.topics EXAM_PREP INTERMEDIATE 30 (5 # 2)
           (Some "2025-01-20") EVENING "visual"
           (Some Sample.current_knowledge) (Some Sample.weak_areas) true).
  vm_compute. reflexivity.
Defined.

(** ** Progress updates *)

Lemma update_sessions_absent (sessions0 : list StudySession) (date0 : string)
    (completed0 : bool) (notes0 now : string) :
  date0 ∉ map session_date sessions0 ->
  update_sessions sessions0 date0 completed0 notes0 now = sessions0.
Proof.
  induction sessions0 as [|s rest IH]; simpl; intros Habsent; [reflexivity|].
  apply not_elem_of_cons in Habsent as [Hne Habsent].
  destruct (String.eqb_spec (session_date s) date0) as [E|_]; [congruence|].
  by rewrite IH.
Qed.

Lemma update_sessions_present (pre post : list StudySession) (s : StudySession)
    (date0 : string) (completed0 : bool) (notes0 now : string) :
  date0 ∉ map session_date pre ->
  session_date s = date0 ->
  update_sessions (pre ++ s :: post) date0 completed0 notes0 now
  = (pre ++ set_progress s completed0 notes0 now :: post)%list.
Proof.
  intros Habsent Hs. induction pre as [|s0 pre IH]; simpl.
  - by rewrite Hs, String.eqb_refl.
  - simpl in Habsent. apply not_elem_of_cons in Habsent as [Hne Habsent].
    destruct (String.eqb_spec (session_date s0) date0) as [E|_]; [congruence|].
    by rewrite IH.
Qed.

Lemma update_plans_first (before after : list StudyPlan) (plan : StudyPlan)
    (id : string) (date0 : string) (completed0 : bool) (notes0 now : string) :
  Forall (fun p => plan_id p <> id) before ->
  plan_id plan = id ->
  update_plans (before ++ plan :: after) id date0 completed0 notes0 now
  = (before
     ++ (with_sessions plan
           (update_sessions (sessions plan) date0 completed0 notes0 now))
     :: after)%list.
Proof.
  intros Hbefore Hid. induction Hbefore as [|p before Hp _ IH]; simpl.
  - by rewrite Hid, String.eqb_refl.
  - destruct (String.eqb_spec (plan_id p) id) as [E|_]; [contradiction|].
    by rewrite IH.
Qed.

Lemma with_sessions_same (plan : StudyPlan) :
  with_sessions plan (sessions plan) = plan.
Proof. by destruct plan. Qed.

(** Claim C8 as stated fails: for a date that the plan does
    not hold, the update returns [True], the value it returns after a
    change, and no signal that nothing was found. *)
Lemma absent_date_is_reported_as_success :
  ("2025-01-09" ∉ map session_date (sessions Sample.stored_plan))
  /\ update_session_progress Sample.file "2025-01-02T21:15:00.000000"
       "plan_20250101_090000" "2025-01-09" true "done"
     = (true, Sample.file)
  /\ fst (update_session_progress Sample.file "2025-01-02T21:15:00.000000"
            "plan_20250101_090000" "2025-01-02" true "done")
     = true.
Proof.
  split; [|split; reflexivity].
  simpl. intros H. repeat (apply elem_of_cons in H as [H|H]; [discriminate|]).
  by apply elem_of_nil in H.
Qed.

(** Claim C8, amended: Let [plan] be the first stored plan with the given
    id. For a date that no session of [plan] has, [update_session_progress]
    leaves the plan and the whole store as they are and returns [True]: it
    gives no not-found signal. For a date that a session has, the first
    such session gets [completed] and [notes] as given and [completed_at]
    set to the timestamp read; its other fields, the other sessions, the
    other fields of the plan and the other plans are untouched, and [True]
    is returned. *)
Theorem update_session_progress_effect
    (before after : list StudyPlan) (plan : StudyPlan) (id : string)
    (date0 : string) (completed0 : bool) (notes0 now : string) :
  Forall (fun p => plan_id p <> id) before ->
  plan_id plan = id ->
  (date0 ∉ map session_date (sessions plan) ->
   update_session_progress
     (Some {| study_plans := Some (before ++ plan :: after)%list |})
     now id date0 completed0 notes0
   = (true, Some {| study_plans := Some (before ++ plan :: after)%list |}))
  /\ forall (pre post : list StudySession) (s : StudySession),
       sessions plan = (pre ++ s :: post)%list ->
       date0 ∉ map session_date pre ->
       session_date s = date0 ->
       exists (s' : StudySession) (plan' : StudyPlan),
         update_session_progress
           (Some {| study_plans := Some (before ++ plan :: after)%list |})
           now id date0 completed0 notes0
         = (true, Some {| study_plans := Some (before ++ plan' :: after)%list |})
         /\ same_but_sessions plan plan'
         /\ sessions plan' = (pre ++ s' :: post)%list
         /\ completed s' = completed0
         /\ notes s' = notes0
         /\ completed_at s' = Some now
         /\ same_but_progress s s'.
Proof.
  intros Hbefore Hid. split.
  - intros Habsent. unfold update_session_progress. cbn [study_plans].
    rewrite (update_plans_first _ _ _ _ _ _ _ _ Hbefore Hid).
    rewrite update_sessions_absent by exact Habsent.
    by rewrite with_sessions_same.
  - intros pre post s Hsessions Habsent Hs.
    exists (set_progress s completed0 notes0 now),
      (with_sessions plan (pre ++ set_progress s completed0 notes0 now :: post)).
    split; [|repeat split].
    unfold update_session_progress. cbn [study_plans].
    rewrite (update_plans_first _ _ _ _ _ _ _ _ Hbefore Hid).
    rewrite Hsessions.
    by rewrite (update_sessions_present _ _ _ _ _ _ _ Habsent Hs).
Qed.

Lemma update_session_progress_effect_witness :
  exists (s' : StudySession) (plan' : StudyPlan),
    update_session_progress Sample.file "2025-01-02T21:15:00.000000"
      "plan_20250101_090000" "2025-01-02" true "done"
    = (true, Some {| study_plans := Some [plan'] |})
    /\ same_but_sessions Sample.stored_plan plan'
    /\ sessions plan' = [Sample.session "2025-01-01"; s']
    /\ completed s' = true
    /\ notes s' = "done"
    /\ completed_at s' = Some "2025-01-02T21:15:00.000000"
    /\ same_but_progress (Sample.session "2025-01-02") s'.
Proof.
  destruct (update_session_progress_effect [] [] Sample.stored_plan
              "plan_20250101_090000" "2025-01-02" true "done"
              "2025-01-02T21:15:00.000000") as [_ Hpresent].
  - constructor.
  - reflexivity.
  - apply (Hpresent [Sample.session "2025-01-01"] [] (Sample.session "2025-01-02")).
    + reflexivity.
    + simpl. intros H. apply elem_of_cons in H as [H|H]; [discriminate|].
      by apply elem_of_nil in H.
    + reflexivity.
Defined.

(** * Further properties of the engine *)

(** ** Pomodoro breaks for every duration *)

Lemma block_start_next (k : Z) :
  block_start (k + 1)
  = block_start k + 25 + (if (k + 1) mod 4 =? 0 then 15 else 5).
Proof.
  unfold block_start.
  destruct (Z.eqb_spec ((k + 1) mod 4) 0) as [E|E];
    Z.div_mod_to_equations; lia.
Qed.

Lemma block_start_mono (k k' : Z) : k <= k' -> block_start k <= block_start k'.
Proof.
  intros H. unfold block_start.
  pose proof (Z.div_le_mono k k' 4 ltac:(lia) H). lia.
Qed.

Lemma breaks_loop_done (d : Z) (bs : list Break) (n e : Z) :
  d <= e -> breaks_loop d bs n e = bs.
Proof.
  intros H. funelim (breaks_loop d bs n e); [lia | reflexivity].
Qed.

Lemma breaks_loop_lookup (d : Z) (bs : list Break) (n e : Z) :
  0 <= n -> e = block_start n -> length bs = Z.to_nat n ->
  forall k : nat,
    breaks_loop d bs n e !! k
    = if decide (Z.of_nat k < n) then bs !! k
      else if decide (block_start (Z.of_nat k) + 25 < d)
           then Some (break_after (Z.of_nat k)) else None.
Proof.
  funelim (breaks_loop d bs n e); intros Hn He Hlen k;
    match type of Hlen with length ?bs0 = Z.to_nat ?n0 =>
      rename bs0 into bs; rename n0 into m
    end;
    match type of He with ?e0 = _ => rename e0 into e end;
    match goal with |- context [block_start _ + 25 < ?d0] =>
      rename d0 into d
    end.
  - unfold pomodoro_cycle, short_break, long_break in *.
    destruct (decide (_ + _ < _)) as [Hlt|Hge].
    + assert (Hw : Z.min 25 (d - e) = 25) by lia.
      match goal with IH : _ < _ -> _ |- _ => rewrite (IH Hlt) end.
      * destruct (decide (Z.of_nat k < m)) as [Hk|Hk].
        -- rewrite decide_True by lia. apply lookup_app_l. lia.
        -- destruct (decide (Z.of_nat k < m + 1)) as [Hk1|Hk1].
           ++ assert (Z.of_nat k = m) as Hkm by lia.
              rewrite Hkm, decide_True by (rewrite <- He; lia).
              rewrite lookup_app_r by lia.
              replace (k - length bs)%nat with 0%nat by lia.
              simpl. unfold break_after. rewrite Hw, He.
              destruct ((m + 1) mod 4 =? 0); reflexivity.
           ++ reflexivity.
      * lia.
      * rewrite Hw, He, block_start_next.
        destruct ((m + 1) mod 4 =? 0); reflexivity.
      * rewrite length_app. simpl. lia.
    + rewrite breaks_loop_done by lia.
      destruct (decide (Z.of_nat k < m)) as [Hk|Hk]; [reflexivity|].
      pose proof (block_start_mono m (Z.of_nat k) ltac:(lia)).
      rewrite decide_False by lia.
      apply lookup_ge_None. lia.
  - destruct (decide (Z.of_nat k < m)) as [Hk|Hk]; [reflexivity|].
    pose proof (block_start_mono m (Z.of_nat k) ltac:(lia)).
    rewrite decide_False by lia.
    apply lookup_ge_None. lia.
Qed.

(** Property X1: For every duration, the breaks of [_calculate_breaks]
    are these and no others: break number [k], counted from 0, exists when
    the work block before it ends strictly inside the session, that is when
    [block_start k + 25 < duration_minutes]; it is placed at
    [block_start k + 25] elapsed minutes, 25 minutes of work after the end
    of the break before it, and it is a 15-minute "long" break after every
    fourth block and a 5-minute "short" break otherwise. *)
Theorem breaks_follow_every_block_but_the_last (duration_minutes : Z) (k : nat) :
  _calculate_breaks duration_minutes !! k
  = if decide (block_start (Z.of_nat k) + 25 < duration_minutes)
    then Some (break_after (Z.of_nat k)) else None.
Proof.
  unfold _calculate_breaks.
  rewrite breaks_loop_lookup by (reflexivity || lia).
  rewrite decide_False by lia. reflexivity.
Qed.

(** Property X2: [_calculate_breaks] returns no break exactly for the
    sessions of at most 25 minutes, durations of zero or less included. *)
Theorem no_break_iff_one_block (duration_minutes : Z) :
  _calculate_breaks duration_minutes = [] <-> duration_minutes <= 25.
Proof.
  unfold _calculate_breaks. split.
  - intros E.
    pose proof (breaks_loop_lookup duration_minutes [] 0 0 ltac:(lia)
                  eq_refl eq_refl 0%nat) as H.
    rewrite E, decide_False in H by lia.
    change (block_start (Z.of_nat 0)) with 0 in H.
    destruct (decide (0 + 25 < duration_minutes)) as [Hlt|Hge];
      [discriminate | lia].
  - intros Hle. apply list_eq. intros k.
    rewrite breaks_loop_lookup by (reflexivity || lia).
    rewrite decide_False by lia.
    pose proof (block_start_mono 0 (Z.of_nat k) ltac:(lia)) as H.
    change (block_start 0) with 0 in H.
    rewrite decide_False by lia. reflexivity.
Qed.

(** ** Difficulty bands *)

Lemma ratio_below (day total_days a : Z) (b : positive) :
  0 < total_days ->
  Qlt_bool (inject_Z day / inject_Z total_days) (a # b)
  = (Z.pos b * day <? a * total_days).
Proof.
  intros Hpos.
  destruct (Z.ltb_spec (Z.pos b * day) (a * total_days)) as [H|H].
  - apply Qlt_bool_true. apply Qlt_shift_div_r.
    + change 0%Q with (inject_Z 0). rewrite <- Zlt_Qlt. exact Hpos.
    + unfold Qlt, Qmult, inject_Z. cbn [Qnum Qden]. lia.
  - apply Qlt_bool_false. apply Qle_shift_div_l.
    + change 0%Q with (inject_Z 0). rewrite <- Zlt_Qlt. exact Hpos.
    + unfold Qle, Qmult, inject_Z. cbn [Qnum Qden]. lia.
Qed.

Lemma session_difficulty_bands (base : DifficultyLevel) (day total_days : Z) :
  0 < total_days ->
  _get_session_difficulty base day total_days
  = py_getitem difficulties (band_index base day total_days).
Proof.
  intros Hpos. unfold _get_session_difficulty, band_index.
  rewrite py_truediv_ok
    by (intros E; unfold Qeq in E; simpl in E; lia).
  cbn [bind]. rewrite !ratio_below by exact Hpos.
  change (Z.pos 10 * day) with (10 * day).
  change (Z.pos 5 * day) with (5 * day).
  destruct (10 * day <? 3 * total_days); [by destruct base|].
  destruct (5 * day <? 3 * total_days); [by destruct base|].
  destruct (Z.pos 20 * day <? 17 * total_days); by destruct base.
Qed.

(** Property X3: Within a plan of [total_days > 0] days,
    [_get_session_difficulty] never gives a later day a lower level than an
    earlier day: the place of the level in [difficulties] grows with the
    day. *)
Theorem session_difficulty_never_decreases
    (base : DifficultyLevel) (day day' total_days : Z) :
  0 < total_days ->
  day <= day' ->
  exists (level level' : string) (i i' : Z),
    _get_session_difficulty base day total_days = Ok level
    /\ _get_session_difficulty base day' total_days = Ok level'
    /\ py_index difficulties level = Ok i
    /\ py_index difficulties level' = Ok i'
    /\ i <= i'.
Proof.
  intros Hpos Hle. rewrite !session_difficulty_bands by exact Hpos.
  unfold band_index.
  destruct (Z.ltb_spec (10 * day) (3 * total_days)),
    (Z.ltb_spec (5 * day) (3 * total_days)),
    (Z.ltb_spec (10 * day') (3 * total_days)),
    (Z.ltb_spec (5 * day') (3 * total_days)); try lia;
    destruct base; simpl;
    do 4 eexists; (repeat split; [reflexivity ..|lia]).
Qed.

Lemma session_difficulty_never_decreases_witness :
  exists (level level' : string) (i i' : Z),
    _get_session_difficulty INTERMEDIATE 8 30 = Ok level
    /\ _get_session_difficulty INTERMEDIATE 9 30 = Ok level'
    /\ py_index difficulties level = Ok i
    /\ py_index difficulties level' = Ok i'
    /\ i <= i'.
Proof.
  apply (session_difficulty_never_decreases INTERMEDIATE 8 9 30); lia.
Defined.

(** Property X4: [_get_session_difficulty] raises [ZeroDivisionError]
    when [total_days] is 0, on every day; for every other [total_days],
    negative ones included, it returns one of the four levels, at most one
    place away from the base difficulty: the index never leaves the list. *)
Theorem session_difficulty_is_near_the_base
    (base : DifficultyLevel) (day total_days : Z) :
  (total_days = 0 ->
   _get_session_difficulty base day total_days = Raise ZeroDivisionError)
  /\ (total_days <> 0 ->
      exists (level : string) (i : Z),
        _get_session_difficulty base day total_days = Ok level
        /\ py_index difficulties level = Ok i
        /\ level_index base - 1 <= i <= level_index base + 1
        /\ 0 <= i <= 3).
Proof.
  split.
  - intros ->. unfold _get_session_difficulty.
    by rewrite py_truediv_zero.
  - intros Hn. unfold _get_session_difficulty.
    rewrite py_truediv_ok
      by (intros E; unfold Qeq in E; simpl in E; lia).
    cbn [bind].
    destruct base; simpl;
      repeat match goal with |- context [Qlt_bool ?a ?b] =>
               destruct (Qlt_bool a b) end;
      do 2 eexists; (repeat split; [reflexivity ..| | | |]); simpl; lia.
Qed.

Lemma session_difficulty_is_near_the_base_witness :
  _get_session_difficulty EXPERT 1 0 = Raise ZeroDivisionError
  /\ exists (level : string) (i : Z),
       _get_session_difficulty EXPERT 30 30 = Ok level
       /\ py_index difficulties level = Ok i
       /\ 2 <= i <= 4
       /\ 0 <= i <= 3.
Proof.
  destruct (session_difficulty_is_near_the_base EXPERT 1 0) as [Hzero _].
  destruct (session_difficulty_is_near_the_base EXPERT 30 30) as [_ Hnear].
  split; [apply Hzero; reflexivity | apply Hnear; lia].
Defined.

(** ** The selected topic *)

(** The first maximum: what is before it is below it, what is after it is
    not above it. *)
Lemma max_from_first (best : string) (best_score : Q) (rest : PyDict.t Q) :
  exists (score : Q) (pre post : PyDict.t Q),
    (best, best_score) :: rest
    = (pre ++ (max_from best best_score rest, score) :: post)%list
    /\ Forall (fun kv => (snd kv < score)%Q) pre
    /\ Forall (fun kv => (snd kv <= score)%Q) post.
Proof.
  revert best best_score.
  induction rest as [|[k v] rest IH]; intros best bs; simpl.
  - exists bs, [], []. repeat split; constructor.
  - destruct (Qlt_bool bs v) eqn:E.
    + apply Qlt_bool_true in E.
      destruct (IH k v) as (s & pre & post & Heq & Hpre & Hpost).
      revert Heq. generalize (max_from k v rest) as r. intros r Heq.
      exists s, ((best, bs) :: pre), post. rewrite Heq.
      split; [reflexivity|]. split; [|exact Hpost].
      constructor; [|exact Hpre]. simpl.
      assert (Hv : (v <= s)%Q).
      { destruct pre as [|[k0 v0] pre].
        - injection Heq as _ <- _. lra.
        - injection Heq as _ <- _. apply Forall_cons in Hpre as [Hv _].
          simpl in Hv. lra. }
      lra.
    + apply Qlt_bool_false in E.
      destruct (IH best bs) as (s & pre & post & Heq & Hpre & Hpost).
      revert Heq. generalize (max_from best bs rest) as r. intros r Heq.
      destruct pre as [|[k0 v0] pre].
      * injection Heq as Hb <- ->.
        exists bs, [], ((k, v) :: post). rewrite <- Hb.
        split; [reflexivity|]. split; [constructor|].
        constructor; [exact E | exact Hpost].
      * injection Heq as <- <- ->.
        exists s, ((best, bs) :: (k, v) :: pre), post.
        split; [reflexivity|]. split; [|exact Hpost].
        apply Forall_cons in Hpre as [Hbs Hpre]. simpl in Hbs.
        constructor; [exact Hbs|]. constructor; [simpl; lra | exact Hpre].
Qed.

(** A selection that returns has scored every topic. *)
Lemma select_topic_scored (topics : list string) (allocation : PyDict.t Q)
    (day : Z) (last_studied study_count : gmap string Z) :
  is_ok (_select_topic_for_day topics allocation day last_studied study_count)
  = true ->
  forall t, t ∈ topics ->
    exists s, topic_score allocation day last_studied study_count t = Ok s.
Proof.
  unfold _select_topic_for_day.
  generalize (@nil (string * Q)) as scores.
  induction topics as [|t0 topics IH]; intros scores Hok t Ht.
  - by apply elem_of_nil in Ht.
  - cbn [for_each] in Hok.
    destruct (topic_score allocation day last_studied study_count t0)
      as [s0|e] eqn:E0; [|discriminate].
    cbn [bind] in Hok.
    apply elem_of_cons in Ht as [->|Ht]; [eauto|].
    by apply (IH _ Hok).
Qed.

(** The table of scores from which a topic was selected. *)
Lemma select_topic_table (topics : list string) (allocation : PyDict.t Q)
    (day : Z) (last_studied study_count : gmap string Z) (t : string) :
  _select_topic_for_day topics allocation day last_studied study_count = Ok t ->
  exists score : string -> Q,
    (forall t0, t0 ∈ topics ->
       topic_score allocation day last_studied study_count t0
       = Ok (score t0))
    /\ t ∈ topics
    /\ forall t', t' ∈ topics -> (score t' <= score t)%Q.
Proof.
  intros Hsel.
  assert (Hok : is_ok (_select_topic_for_day topics allocation day
                         last_studied study_count) = true)
    by (rewrite Hsel; reflexivity).
  pose proof (select_topic_scored _ _ _ _ _ Hok) as Hscored.
  set (score := fun t =>
         match topic_score allocation day last_studied study_count t with
         | Ok s => s
         | Raise _ => 0%Q
         end).
  assert (Hscore : forall t, t ∈ topics ->
            topic_score allocation day last_studied study_count t
            = Ok (score t)).
  { intros t0 Ht0. unfold score. by destruct (Hscored t0 Ht0) as [s ->]. }
  exists score. split; [exact Hscore|].
  rewrite (select_topic_scores _ _ _ _ _ score Hscore) in Hsel.
  destruct (PyDict.fill score topics []) as [|[k v] rest] eqn:E;
    [discriminate|].
  injection Hsel as Hsel.
  destruct (max_from_first k v rest) as (s & pre & post & Heq & Hpre & Hpost).
  rewrite Hsel, <- E in Heq.
  assert (Hentry : forall k0 v0, (k0, v0) ∈ PyDict.fill score topics [] ->
            k0 ∈ topics /\ v0 = score k0)
    by (intros k0 v0; apply dict_fill_entry).
  assert (Hts : t ∈ topics /\ s = score t).
  { apply Hentry. rewrite Heq. apply elem_of_app. right.
    apply list_elem_of_here. }
  destruct Hts as [Ht ->]. split; [exact Ht|].
  intros t' Ht'.
  assert (Hin : (t', score t') ∈ PyDict.fill score topics [])
    by (apply dict_get_entry; by apply dict_fill_get).
  rewrite Heq in Hin. apply elem_of_app in Hin as [Hin|Hin].
  - rewrite Forall_forall in Hpre. specialize (Hpre _ Hin). simpl in Hpre. lra.
  - apply elem_of_cons in Hin as [Hin|Hin].
    + injection Hin as _ ->. lra.
    + rewrite Forall_forall in Hpost. by specialize (Hpost _ Hin).
Qed.

(** Property X5: Whenever [_select_topic_for_day] returns a topic, it is
    one of the topics given, every topic has a score, and none scores more
    than the topic returned. *)
Theorem selected_topic_scores_highest (topics : list string)
    (allocation : PyDict.t Q) (day : Z)
    (last_studied study_count : gmap string Z) (t : string) :
  _select_topic_for_day topics allocation day last_studied study_count = Ok t ->
  t ∈ topics
  /\ exists s,
       topic_score allocation day last_studied study_count t = Ok s
       /\ forall t', t' ∈ topics ->
            exists s',
              topic_score allocation day last_studied study_count t' = Ok s'
              /\ (s' <= s)%Q.
Proof.
  intros Hsel.
  apply select_topic_table in Hsel as (score & Hscore & Ht & Hmax).
  split; [exact Ht|]. exists (score t). split; [by apply Hscore|].
  intros t' Ht'. exists (score t'). split; [by apply Hscore | by apply Hmax].
Qed.

Lemma selected_topic_scores_highest_witness :
  "Deep Learning" ∈ Sample.three_topics
  /\ exists s,
       topic_score Sample.three_allocation 3 Sample.last_studied
         Sample.study_count "Deep Learning" = Ok s
       /\ forall t', t' ∈ Sample.three_topics ->
            exists s',
              topic_score Sample.three_allocation 3 Sample.last_studied
                Sample.study_count t' = Ok s'
              /\ (s' <= s)%Q.
Proof.
  apply (selected_topic_scores_highest Sample.three_topics
           Sample.three_allocation 3 Sample.last_studied Sample.study_count).
  vm_compute. reflexivity.
Defined.


Lemma topic_score_outcome (allocation : PyDict.t Q) (day : Z)
    (last_studied study_count : gmap string Z) (t : string) :
  match topic_score allocation day last_studied study_count t with
  | Ok _ => ~ lacks_entry allocation last_studied study_count t
  | Raise e => e = KeyError
               /\ lacks_entry allocation last_studied study_count t
  end.
Proof.
  unfold topic_score, lacks_entry, map_getitem, PyDict.getitem.
  destruct (last_studied !! t) as [l|]; cbn [bind]; [|by auto].
  destruct (PyDict.get allocation t) as [h|]; cbn [bind]; [|by auto].
  destruct (study_count !! t) as [c|]; cbn [bind]; [|by auto].
  destruct (spaced_score_total c (day - l)) as [sp ->].
  cbn [bind]. intros [H|[H|H]]; discriminate.
Qed.

(** Property X7: [_select_topic_for_day] fails in two ways only. With
    no topic it raises [ValueError], from [max] of an empty table; when a
    topic has no entry in the allocation, in [topic_last_studied] or in
    [topic_study_count], it raises [KeyError]; with at least one topic and
    every entry present it returns a topic. *)
Theorem select_topic_raises_for_no_topic_or_missing_entry
    (topics : list string) (allocation : PyDict.t Q) (day : Z)
    (last_studied study_count : gmap string Z) :
  (topics = [] ->
   _select_topic_for_day topics allocation day last_studied study_count
   = Raise ValueError)
  /\ ((exists t, t ∈ topics
                 /\ lacks_entry allocation last_studied study_count t) ->
      _select_topic_for_day topics allocation day last_studied study_count
      = Raise KeyError)
  /\ (topics <> [] ->
      (forall t, t ∈ topics ->
         ~ lacks_entry allocation last_studied study_count t) ->
      exists t,
        _select_topic_for_day topics allocation day last_studied study_count
        = Ok t).
Proof.
  split; [by intros ->|]. split.
  - unfold _select_topic_for_day.
    generalize (@nil (string * Q)) as scores.
    induction topics as [|t0 topics IH]; intros scores (t & Ht & Hlacks).
    + by apply elem_of_nil in Ht.
    + cbn [for_each].
      pose proof (topic_score_outcome allocation day last_studied study_count
                    t0) as H0.
      destruct (topic_score allocation day last_studied study_count t0)
        as [s0|e]; [|by destruct H0 as [-> _]].
      cbn [bind]. apply elem_of_cons in Ht as [->|Ht]; [contradiction|].
      apply IH. eauto.
  - intros Hne Hall.
    destruct (select_topic_total topics allocation day last_studied
                study_count Hne) as (t & Ht & _); [| |eauto].
    + intros t Ht. specialize (Hall t Ht). unfold lacks_entry in Hall.
      destruct (PyDict.get allocation t); [eauto | tauto].
    + intros t Ht. specialize (Hall t Ht). unfold lacks_entry in Hall.
      destruct (last_studied !! t), (study_count !! t); eauto; tauto.
Qed.

Lemma select_topic_raises_for_no_topic_or_missing_entry_witness :
  _select_topic_for_day [] Sample.three_allocation 3 Sample.last_studied
    Sample.study_count = Raise ValueError
  /\ _select_topic_for_day ("Statistics" :: Sample.three_topics)
       Sample.three_allocation 3 Sample.last_studied Sample.study_count
     = Raise KeyError
  /\ exists t,
       _select_topic_for_day Sample.three_topics Sample.three_allocation 3
         Sample.last_studied Sample.study_count = Ok t.
Proof.
  destruct (select_topic_raises_for_no_topic_or_missing_entry []
              Sample.three_allocation 3 Sample.last_studied Sample.study_count)
    as [Hnone _].
  destruct (select_topic_raises_for_no_topic_or_missing_entry
              ("Statistics" :: Sample.three_topics)
              Sample.three_allocation 3 Sample.last_studied Sample.study_count)
    as (_ & Hmissing & _).
  destruct (select_topic_raises_for_no_topic_or_missing_entry
              Sample.three_topics
              Sample.three_allocation 3 Sample.last_studied Sample.study_count)
    as (_ & _ & Hfound).
  split; [by apply Hnone|]. split.
  - apply Hmissing. exists "Statistics". split; [apply list_elem_of_here|].
    left. reflexivity.
  - apply Hfound; [discriminate|].
    intros t Ht [H|[H|H]];
      repeat (apply elem_of_cons in Ht as [->|Ht]; [discriminate|]);
      by apply elem_of_nil in Ht.
Defined.

(** ** Milestones and weekly reviews *)

Lemma py_int_ratio (n a : Z) (b : positive) :
  py_int (inject_Z n * (a # b)) = Z.quot (n * a) (Z.pos b).
Proof. reflexivity. Qed.

Lemma create_milestones_value (topics : list string) (total_days : Z)
    (goal : StudyGoal) :
  _create_milestones topics total_days goal
  = Ok [ milestone_at (Z.quot total_days 4) "Foundation Complete" "25";
         milestone_at (Z.quot total_days 2) "Halfway Champion" "50";
         milestone_at (Z.quot (3 * total_days) 4) "Advanced Mastery" "75";
         milestone_at total_days "Goal Achieved" "100" ].
Proof.
  unfold _create_milestones. rewrite !py_int_ratio.
  rewrite Z.mul_1_r, (Z.mul_comm total_days 3). reflexivity.
Qed.

(** Property X8: [_create_milestones] returns four milestones for every
    [total_days] and never fails: on the days [total_days * 0.25],
    [total_days * 0.5] and [total_days * 0.75], truncated towards zero, and
    on [total_days], with the four names in their order and 25, 50, 75 and
    100 percent in their descriptions. For [total_days >= 0] the days are in
    increasing order between 0 and [total_days]; below four days the first
    milestone is on day 0, before the first session. *)
Theorem milestones_at_the_quarters (topics : list string) (total_days : Z)
    (goal : StudyGoal) :
  _create_milestones topics total_days goal
  = Ok [ milestone_at (Z.quot total_days 4) "Foundation Complete" "25";
         milestone_at (Z.quot total_days 2) "Halfway Champion" "50";
         milestone_at (Z.quot (3 * total_days) 4) "Advanced Mastery" "75";
         milestone_at total_days "Goal Achieved" "100" ]
  /\ (0 <= total_days ->
      0 <= Z.quot total_days 4 <= Z.quot total_days 2
      /\ Z.quot total_days 2 <= Z.quot (3 * total_days) 4 <= total_days)
  /\ (0 <= total_days < 4 -> Z.quot total_days 4 = 0).
Proof.
  split; [apply create_milestones_value|split].
  - intros H. rewrite !Z.quot_div_nonneg by lia.
    Z.div_mod_to_equations. lia.
  - intros H. apply Z.quot_small. lia.
Qed.

Lemma milestones_at_the_quarters_witness :
  _create_milestones Sample.topics 30 EXAM_PREP
  = Ok [ milestone_at 7 "Foundation Complete" "25";
         milestone_at 15 "Halfway Champion" "50";
         milestone_at 22 "Advanced Mastery" "75";
         milestone_at 30 "Goal Achieved" "100" ]
  /\ (0 <= 7 <= 15 /\ 15 <= 22 <= 30)
  /\ Z.quot 3 4 = 0.
Proof.
  destruct (milestones_at_the_quarters Sample.topics 30 EXAM_PREP)
    as (Hplan & Hordered & _).
  destruct (milestones_at_the_quarters Sample.topics 3 EXAM_PREP)
    as (_ & _ & Hfirst).
  split; [exact Hplan|]. split; [apply Hordered; lia | apply Hfirst; lia].
Defined.

Lemma seqZ_cons' (m len : Z) :
  0 < len -> seqZ m len = m :: seqZ (m + 1) (len - 1).
Proof.
  intros H. rewrite (seqZ_cons m len H).
  by rewrite <- Z.add_1_r, <- Z.sub_1_r.
Qed.

Lemma reviews_loop_texts (now : Z -> Z) (total_days0 : Z)
    (reviews : list string) (week : Z) :
  week mod 7 = 0 ->
  (forall w, week <= w <= total_days0 ->
     1 <= now w + w <= Datetime.MAXORDINAL) ->
  reviews_loop now total_days0 reviews week
  = Ok (reviews
        ++ map (review_text now)
             (seqZ (week / 7) (total_days0 / 7 - week / 7 + 1)))%list.
Proof.
  funelim (reviews_loop now total_days0 reviews week); intros Hweek Hrange.
  - unfold seqZ. replace (Z.to_nat _) with 0%nat
      by (Z.div_mod_to_equations; lia).
    simpl. by rewrite app_nil_r.
  - match goal with IH : _ -> _ -> reviews_loop _ _ _ _ = _ |- _ =>
      rewrite IH end.
    + match goal with H : Datetime.add_days _ _ = Ok _ |- _ =>
        apply add_days_inv in H as [-> _] end.
      rewrite <- app_assoc. f_equal. f_equal.
      rewrite (seqZ_cons' (week / 7)) by (Z.div_mod_to_equations; lia).
      cbn [app map]. f_equal.
      * unfold review_text.
        replace (7 * (week / 7)) with week by (Z.div_mod_to_equations; lia).
        reflexivity.
      * f_equal. f_equal; Z.div_mod_to_equations; lia.
    + Z.div_mod_to_equations; lia.
    + intros w Hw. apply Hrange. lia.
  - match goal with H : Datetime.add_days _ _ = Raise _ |- _ =>
      rewrite add_days_in_range in H by (apply Hrange; lia); discriminate
    end.
Qed.

(** Property X9: When the review days stay in the calendar,
    [_generate_weekly_reviews] returns one entry per full week,
    [total_days // 7] in all and none below seven days: entry [k] is
    "Week k Review - " followed by the date [7 * k] days after the day read
    for it. *)
Theorem weekly_reviews_every_seventh_day (now : Z -> Z) (total_days : Z) :
  (forall week, 7 <= week <= total_days ->
     1 <= now week + week <= Datetime.MAXORDINAL) ->
  _generate_weekly_reviews now total_days
  = Ok (map (review_text now) (seqZ 1 (total_days / 7))).
Proof.
  intros Hrange. unfold _generate_weekly_reviews.
  rewrite reviews_loop_texts by (reflexivity || exact Hrange).
  cbn [app]. do 3 f_equal. change (7 / 7) with 1. lia.
Qed.

Lemma weekly_reviews_every_seventh_day_witness :
  _generate_weekly_reviews (clock_review Sample.clock) 30
  = Ok [ "Week 1 Review - 2025-01-08"; "Week 2 Review - 2025-01-15";
         "Week 3 Review - 2025-01-22"; "Week 4 Review - 2025-01-29" ].
Proof.
  rewrite (weekly_reviews_every_seventh_day (clock_review Sample.clock) 30).
  - vm_compute. reflexivity.
  - intros week Hweek. unfold Datetime.MAXORDINAL. simpl. lia.
Defined.

(** ** The sessions of a plan *)

Lemma max_key_elem (scores : PyDict.t Q) (t : string) :
  max_key scores = Ok t -> t ∈ PyDict.keys scores.
Proof.
  destruct scores as [|[k v] rest]; [discriminate|].
  intros [= <-]. apply max_from_elem.
Qed.

Lemma scores_loop_keys (body : string -> res Q) (topics : list string) :
  forall scores scores' : PyDict.t Q,
    for_each (fun scores topic => s <- body topic ;; Ok (PyDict.set scores topic s))
      topics scores = Ok scores' ->
    forall k, k ∈ PyDict.keys scores' -> k ∈ PyDict.keys scores \/ k ∈ topics.
Proof.
  induction topics as [|t topics IH]; intros scores scores' Hrun k Hk.
  - injection Hrun as <-. by left.
  - cbn [for_each] in Hrun.
    apply bind_ok_inv in Hrun as (scores1 & Hbody & Hrest).
    apply bind_ok_inv in Hbody as (s & _ & [= <-]).
    destruct (IH _ _ Hrest k Hk) as [Hin|Hin].
    + apply dict_set_keys_elem in Hin as [-> | Hin].
      * right. apply list_elem_of_here.
      * by left.
    + right. by apply list_elem_of_further.
Qed.

Lemma select_topic_elem (topics : list string) (allocation : PyDict.t Q)
    (day : Z) (last_studied study_count : gmap string Z) (t : string) :
  _select_topic_for_day topics allocation day last_studied study_count = Ok t ->
  t ∈ topics.
Proof.
  unfold _select_topic_for_day. intros H.
  apply bind_ok_inv in H as (scores & Hloop & Hmax).
  apply max_key_elem in Hmax.
  destruct (scores_loop_keys _ _ _ _ Hloop t Hmax) as [Hin|Hin];
    [by apply elem_of_nil in Hin | exact Hin].
Qed.

(** What a round of the loop does to the state. *)
Lemma session_body_fills (topics : list string) (topic_allocation : PyDict.t Q)
    (total_days0 : Z) (daily_hours0 : Q) (difficulty0 : DifficultyLevel)
    (time_preference : TimePreference) (learning_style : string)
    (breaks_enabled : bool) (goal0 : StudyGoal) (start_date : Z)
    (st st' : Tracking) (day : Z) :
  session_body topics topic_allocation total_days0 daily_hours0 difficulty0
    time_preference learning_style breaks_enabled goal0 start_date st day
  = Ok st' ->
  exists (session : StudySession) (count : Z),
    sessions_so_far st' = (sessions_so_far st ++ [session])%list
    /\ filled_for topics total_days0 daily_hours0 difficulty0 time_preference
         learning_style breaks_enabled goal0 day session
    /\ _select_topic_for_day topics topic_allocation (day + 1)
         (topic_last_studied st) (topic_study_count st) = Ok (topic session)
    /\ topic_study_count st !! topic session = Some count
    /\ topic_last_studied st'
       = <[topic session := day + 1]> (topic_last_studied st)
    /\ topic_study_count st'
       = <[topic session := count + 1]> (topic_study_count st).
Proof.
  unfold session_body. intros H. invert_binds H.
  injection H as <-.
  cbn [sessions_so_far topic_last_studied topic_study_count].
  match goal with
  | Hc : map_getitem _ _ = Ok ?c |- _ =>
      eexists; exists c; (split; [reflexivity|]);
      unfold map_getitem in Hc
  end.
  unfold filled_for.
  cbn [topic time_slot breaks difficulty study_techniques subtopics goals
       resources estimated_focus_level pre_session_prep post_session_review
       completed notes completed_at].
  match goal with
  | Hs : _select_topic_for_day _ _ _ _ _ = Ok ?t,
    Hc : match topic_study_count st !! ?t with _ => _ end = Ok _ |- _ =>
      pose proof (select_topic_elem _ _ _ _ _ _ Hs);
      destruct (topic_study_count st !! t) as [c'|];
      [injection Hc as ->|discriminate]
  end.
  repeat split; assumption.
Qed.

Lemma sessions_loop_fills (topics : list string) (topic_allocation : PyDict.t Q)
    (total_days0 : Z) (daily_hours0 : Q) (difficulty0 : DifficultyLevel)
    (time_preference : TimePreference) (learning_style : string)
    (breaks_enabled : bool) (goal0 : StudyGoal) (start_date : Z)
    (days : list Z) :
  forall st st',
    for_each
      (session_body topics topic_allocation total_days0 daily_hours0
         difficulty0 time_preference learning_style breaks_enabled goal0
         start_date) days st = Ok st' ->
    exists added,
      sessions_so_far st' = (sessions_so_far st ++ added)%list
      /\ Forall2 (filled_for topics total_days0 daily_hours0 difficulty0
                    time_preference learning_style breaks_enabled goal0)
           days added.
Proof.
  induction days as [|day days IH]; simpl; intros st st' Hrun.
  - injection Hrun as <-. exists []. by rewrite app_nil_r.
  - apply bind_ok_inv in Hrun as (st1 & Hbody & Hrest).
    apply session_body_fills in Hbody as (session & c & Hone & Hspec & _).
    apply IH in Hrest as (added & Hmore & Hspecs).
    exists (session :: added). split; [|by constructor].
    rewrite Hmore, Hone, <- app_assoc. reflexivity.
Qed.

Lemma generate_plan_filled (clock : Clock) (subject0 : string)
    (topics : list string) (goal0 : StudyGoal) (difficulty0 : DifficultyLevel)
    (total_days0 : Z) (daily_hours0 : Q) (exam_date0 : option string)
    (time_preference : TimePreference) (learning_style : string)
    (current_knowledge : option (gmap string Z))
    (weak_areas : option (list string)) (breaks_enabled : bool)
    (plan : StudyPlan) :
  generate_plan clock subject0 topics goal0 difficulty0 total_days0
    daily_hours0 exam_date0 time_preference learning_style current_knowledge
    weak_areas breaks_enabled = Ok plan ->
  Forall2 (filled_for topics total_days0 daily_hours0 difficulty0
             time_preference learning_style breaks_enabled goal0)
    (seqZ 0 total_days0) (sessions plan).
Proof.
  unfold generate_plan. intros H. invert_binds H.
  injection H as <-. cbn [sessions].
  match goal with Hs : _generate_sessions _ _ _ _ _ _ _ _ _ _ = Ok _ |- _ =>
    unfold _generate_sessions in Hs;
    apply bind_ok_inv in Hs as (st & Hloop & [= <-]);
    apply sessions_loop_fills in Hloop as (added & -> & Hspecs)
  end.
  exact Hspecs.
Qed.

Lemma Forall2_seqZ_lookup {A : Type} (P : Z -> A -> Prop) (len : Z)
    (l : list A) (i : nat) (a : A) :
  Forall2 P (seqZ 0 len) l -> l !! i = Some a ->
  P (Z.of_nat i) a /\ Z.of_nat i < len.
Proof.
  intros Hall Ha.
  destruct (Forall2_lookup_r _ _ _ _ _ Hall Ha) as (d & Hd & HP).
  apply lookup_seqZ in Hd as [-> Hlt]. split; [|exact Hlt].
  by rewrite Z.add_0_l in HP.
Qed.

(** Property X10: In every plan that [generate_plan] returns, each
    session is on one of the topics given, has the breaks of
    [_calculate_breaks] for [int(daily_hours * 60)] minutes when breaks are
    enabled and none otherwise, and starts open: not completed, with empty
    notes and no completion time. *)
Theorem plan_sessions_study_listed_topics_and_start_open
    (clock : Clock) (subject0 : string)
    (topics : list string) (goal0 : StudyGoal) (difficulty0 : DifficultyLevel)
    (total_days0 : Z) (daily_hours0 : Q) (exam_date0 : option string)
    (time_preference : TimePreference) (learning_style : string)
    (current_knowledge : option (gmap string Z))
    (weak_areas : option (list string)) (breaks_enabled : bool)
    (plan : StudyPlan) :
  generate_plan clock subject0 topics goal0 difficulty0 total_days0
    daily_hours0 exam_date0 time_preference learning_style current_knowledge
    weak_areas breaks_enabled = Ok plan ->
  Forall (fun session =>
            topic session ∈ topics
            /\ breaks session
               = (if breaks_enabled
                  then _calculate_breaks (py_int (Float64.mul daily_hours0 60))
                  else [])
            /\ completed session = false
            /\ notes session = ""
            /\ completed_at session = None)
    (sessions plan).
Proof.
  intros Hplan. apply generate_plan_filled in Hplan.
  induction Hplan as [|day session days sessions0 Hfilled _ IH];
    constructor; [|exact IH].
  destruct Hfilled
    as (Ht & _ & Hb & _ & _ & _ & _ & _ & _ & _ & _ & Hc & Hn & Ha).
  repeat split; assumption.
Qed.

Lemma plan_sessions_study_listed_topics_and_start_open_witness :
  exists plan,
    Sample.plan_for 3 (5 # 2) = Ok plan
    /\ Forall (fun session =>
                 topic session ∈ Sample.topics
                 /\ breaks session = _calculate_breaks 150
                 /\ completed session = false
                 /\ notes session = ""
                 /\ completed_at session = None)
         (sessions plan).
Proof.
  assert (Hsessions : forall plan,
            Sample.plan_for 3 (5 # 2) = Ok plan ->
            Forall (fun session =>
                      topic session ∈ Sample.topics
                      /\ breaks session = _calculate_breaks 150
                      /\ completed session = false
                      /\ notes session = ""
                      /\ completed_at session = None)
              (sessions plan)).
  { intros plan.
    apply (plan_sessions_study_listed_topics_and_start_open Sample.clock
             "Machine Learning" Sample.topics EXAM_PREP INTERMEDIATE 3 (5 # 2)
             (Some "2025-01-20") EVENING "visual"
             (Some Sample.current_knowledge) (Some Sample.weak_areas) true
             plan). }
  destruct (Sample.plan_for 3 (5 # 2)) as [plan|e] eqn:E;
    [|vm_compute in E; discriminate].
  exists plan. split; [reflexivity | exact (Hsessions plan eq_refl)].
Defined.

(** Property X11: Two sessions of a returned plan on the same topic have
    the same subtopics, goals and resources, the same duration and the same
    breaks: none of these depends on the day. *)
Theorem sessions_on_a_topic_repeat_their_content
    (clock : Clock) (subject0 : string)
    (topics : list string) (goal0 : StudyGoal) (difficulty0 : DifficultyLevel)
    (total_days0 : Z) (daily_hours0 : Q) (exam_date0 : option string)
    (time_preference : TimePreference) (learning_style : string)
    (current_knowledge : option (gmap string Z))
    (weak_areas : option (list string)) (breaks_enabled : bool)
    (plan : StudyPlan) (s s' : StudySession) :
  generate_plan clock subject0 topics goal0 difficulty0 total_days0
    daily_hours0 exam_date0 time_preference learning_style current_knowledge
    weak_areas breaks_enabled = Ok plan ->
  s ∈ sessions plan ->
  s' ∈ sessions plan ->
  topic s = topic s' ->
  subtopics s = subtopics s'
  /\ goals s = goals s'
  /\ resources s = resources s'
  /\ duration_minutes s = duration_minutes s'
  /\ breaks s = breaks s'.
Proof.
  intros Hplan Hs Hs' Htopic.
  pose proof (generate_plan_sessions _ _ _ _ _ _ _ _ _ _ _ _ _ _ Hplan)
    as Hcomposed.
  apply generate_plan_filled in Hplan.
  apply list_elem_of_lookup in Hs as [i Hi].
  apply list_elem_of_lookup in Hs' as [i' Hi'].
  destruct (Forall2_seqZ_lookup _ _ _ _ _ Hplan Hi)
    as [(_ & _ & Hb & _ & _ & Hsub & Hgoals & Hres & _) _].
  destruct (Forall2_seqZ_lookup _ _ _ _ _ Hplan Hi')
    as [(_ & _ & Hb' & _ & _ & Hsub' & Hgoals' & Hres' & _) _].
  destruct (Forall2_seqZ_lookup _ _ _ _ _ Hcomposed Hi)
    as [(_ & _ & Hd & _) _].
  destruct (Forall2_seqZ_lookup _ _ _ _ _ Hcomposed Hi')
    as [(_ & _ & Hd' & _) _].
  assert (Hsame : subtopics s = subtopics s').
  { rewrite Hsub, Hsub', Htopic. by destruct goal0. }
  split; [exact Hsame|].
  rewrite Htopic, Hsame, Hgoals' in Hgoals. rewrite Htopic, Hres' in Hres.
  injection Hgoals as <-. injection Hres as <-.
  by rewrite Hb, Hb', Hd, Hd'.
Qed.

Lemma sessions_on_a_topic_repeat_their_content_witness :
  exists (plan : StudyPlan) (s s' : StudySession),
    Sample.plan_for 7 (5 # 2) = Ok plan
    /\ sessions plan !! 0%nat = Some s
    /\ sessions plan !! 6%nat = Some s'
    /\ topic s = "Neural Networks"
    /\ topic s' = "Neural Networks"
    /\ subtopics s = subtopics s'
    /\ goals s = goals s'
    /\ resources s = resources s'
    /\ duration_minutes s = duration_minutes s'
    /\ breaks s = breaks s'.
Proof.
  assert (Hrepeat : forall (plan : StudyPlan) (s s' : StudySession),
            Sample.plan_for 7 (5 # 2) = Ok plan ->
            s ∈ sessions plan ->
            s' ∈ sessions plan ->
            topic s = topic s' ->
            subtopics s = subtopics s'
            /\ goals s = goals s'
            /\ resources s = resources s'
            /\ duration_minutes s = duration_minutes s'
            /\ breaks s = breaks s').
  { intros plan s s'.
    apply (sessions_on_a_topic_repeat_their_content Sample.clock
             "Machine Learning" Sample.topics EXAM_PREP INTERMEDIATE 7 (5 # 2)
             (Some "2025-01-20") EVENING "visual"
             (Some Sample.current_knowledge) (Some Sample.weak_areas) true
             plan s s'). }
  assert (exists (plan : StudyPlan) (s s' : StudySession),
            Sample.plan_for 7 (5 # 2) = Ok plan
            /\ sessions plan !! 0%nat = Some s
            /\ sessions plan !! 6%nat = Some s'
            /\ topic s = "Neural Networks"
            /\ topic s' = "Neural Networks")
    as (plan & s & s' & Hplan & Hs & Hs' & Ht & Ht').
  { eexists _, _, _. split; [vm_compute; reflexivity|].
    repeat split; reflexivity. }
  exists plan, s, s'. do 5 (split; [assumption|]).
  apply (Hrepeat plan s s' Hplan).
  - by apply list_elem_of_lookup_2 in Hs.
  - by apply list_elem_of_lookup_2 in Hs'.
  - by rewrite Ht, Ht'.
Defined.

(** ** Difficulty along a plan *)

Lemma band_index_range (base : DifficultyLevel) (day total_days : Z) :
  0 <= band_index base day total_days <= 3.
Proof. unfold band_index. destruct base; simpl; repeat case_match; lia. Qed.

Lemma band_index_mono (base : DifficultyLevel) (day day' total_days : Z) :
  day <= day' ->
  band_index base day total_days <= band_index base day' total_days.
Proof.
  intros Hle. unfold band_index.
  destruct (Z.ltb_spec (10 * day) (3 * total_days)),
    (Z.ltb_spec (5 * day) (3 * total_days)),
    (Z.ltb_spec (10 * day') (3 * total_days)),
    (Z.ltb_spec (5 * day') (3 * total_days)); try lia;
    destruct base; simpl; lia.
Qed.

Lemma difficulties_index (i : Z) (level : string) :
  0 <= i <= 3 ->
  py_getitem difficulties i = Ok level ->
  py_index difficulties level = Ok i.
Proof.
  intros Hi.
  assert (Hcases : i = 0 \/ i = 1 \/ i = 2 \/ i = 3) by lia.
  destruct Hcases as [-> | [-> | [-> | ->]]]; intros [= <-]; reflexivity.
Qed.

(** Property X12: Along a returned plan the difficulty never goes down
    from a session to a later one, and the last session is one level above
    the base difficulty, or at "expert" when the base is "expert". *)
Theorem plan_difficulty_never_decreases
    (clock : Clock) (subject0 : string)
    (topics : list string) (goal0 : StudyGoal) (difficulty0 : DifficultyLevel)
    (total_days0 : Z) (daily_hours0 : Q) (exam_date0 : option string)
    (time_preference : TimePreference) (learning_style : string)
    (current_knowledge : option (gmap string Z))
    (weak_areas : option (list string)) (breaks_enabled : bool)
    (plan : StudyPlan) :
  generate_plan clock subject0 topics goal0 difficulty0 total_days0
    daily_hours0 exam_date0 time_preference learning_style current_knowledge
    weak_areas breaks_enabled = Ok plan ->
  (forall (i j : nat) (s s' : StudySession),
     (i <= j)%nat ->
     sessions plan !! i = Some s ->
     sessions plan !! j = Some s' ->
     exists a b : Z,
       py_index difficulties (difficulty s) = Ok a
       /\ py_index difficulties (difficulty s') = Ok b
       /\ a <= b)
  /\ (forall s : StudySession,
        last (sessions plan) = Some s ->
        py_index difficulties (difficulty s)
        = Ok (Z.min 3 (level_index difficulty0 + 1))).
Proof.
  intros Hplan. apply generate_plan_filled in Hplan.
  assert (Hlevel : forall (i : nat) (s : StudySession),
            sessions plan !! i = Some s ->
            Z.of_nat i < total_days0
            /\ py_index difficulties (difficulty s)
               = Ok (band_index difficulty0 (Z.of_nat i + 1) total_days0)).
  { intros i s Hi.
    destruct (Forall2_seqZ_lookup _ _ _ _ _ Hplan Hi)
      as [(_ & _ & _ & Hd & _) Hlt].
    split; [exact Hlt|].
    rewrite session_difficulty_bands in Hd by lia.
    apply difficulties_index; [apply band_index_range | exact Hd]. }
  split.
  - intros i j s s' Hij Hi Hj.
    destruct (Hlevel i s Hi) as [_ Ha]. destruct (Hlevel j s' Hj) as [_ Hb].
    do 2 eexists. split; [exact Ha|]. split; [exact Hb|].
    apply band_index_mono. lia.
  - intros s Hs. rewrite last_lookup in Hs.
    destruct (Hlevel _ s Hs) as [Hlt ->]. f_equal.
    apply Forall2_length in Hplan. rewrite length_seqZ in Hplan.
    replace (Z.of_nat (Init.Nat.pred (length (sessions plan))) + 1)
      with total_days0 by lia.
    unfold band_index.
    destruct (Z.ltb_spec (10 * total_days0) (3 * total_days0)); [lia|].
    destruct (Z.ltb_spec (5 * total_days0) (3 * total_days0)); [lia|].
    reflexivity.
Qed.

Lemma plan_difficulty_never_decreases_witness :
  exists plan : StudyPlan,
    Sample.plan_for 12 (5 # 2) = Ok plan
    /\ (forall (i j : nat) (s s' : StudySession),
          (i <= j)%nat ->
          sessions plan !! i = Some s ->
          sessions plan !! j = Some s' ->
          exists a b : Z,
            py_index difficulties (difficulty s) = Ok a
            /\ py_index difficulties (difficulty s') = Ok b
            /\ a <= b)
    /\ (forall s : StudySession,
          last (sessions plan) = Some s ->
          py_index difficulties (difficulty s) = Ok 2).
Proof.
  assert (Hlevels : forall plan : StudyPlan,
            Sample.plan_for 12 (5 # 2) = Ok plan ->
            (forall (i j : nat) (s s' : StudySession),
               (i <= j)%nat ->
               sessions plan !! i = Some s ->
               sessions plan !! j = Some s' ->
               exists a b : Z,
                 py_index difficulties (difficulty s) = Ok a
                 /\ py_index difficulties (difficulty s') = Ok b
                 /\ a <= b)
            /\ (forall s : StudySession,
                  last (sessions plan) = Some s ->
                  py_index difficulties (difficulty s) = Ok 2)).
  { intros plan.
    apply (plan_difficulty_never_decreases Sample.clock
             "Machine Learning" Sample.topics EXAM_PREP INTERMEDIATE 12 (5 # 2)
             (Some "2025-01-20") EVENING "visual"
             (Some Sample.current_knowledge) (Some Sample.weak_areas) true
             plan). }
  destruct (Sample.plan_for 12 (5 # 2)) as [plan|e] eqn:E;
    [|vm_compute in E; discriminate].
  exists plan. split; [reflexivity | exact (Hlevels plan eq_refl)].
Defined.

(** ** Today's session *)

Lemma find_on_consecutive_dates (now : Z) (sessions0 : list StudySession) :
  1 <= now <= Datetime.MAXORDINAL ->
  forall start : Z,
    1 <= start ->
    start + Z.of_nat (length sessions0) - 1 <= Datetime.MAXORDINAL ->
    map session_date sessions0
    = map Datetime.strftime_ymd (seqZ start (Z.of_nat (length sessions0))) ->
    List.find
      (fun session =>
         String.eqb (session_date session) (Datetime.strftime_ymd now))
      sessions0
    = if decide (start <= now < start + Z.of_nat (length sessions0))
      then sessions0 !! Z.to_nat (now - start) else None.
Proof.
  intros Hnow.
  induction sessions0 as [|s rest IH]; intros start Hstart Hend Hdates.
  - simpl. by rewrite decide_False by (simpl; lia).
  - cbn [length] in *. rewrite Nat2Z.inj_succ in *.
    rewrite seqZ_cons in Hdates by lia.
    cbn [map] in Hdates. injection Hdates as Hs Hrest.
    rewrite Z.pred_succ in Hrest.
    cbn [List.find]. rewrite Hs.
    destruct (String.eqb_spec (Datetime.strftime_ymd start)
                (Datetime.strftime_ymd now)) as [E|E].
    + apply strftime_ymd_inj in E; [|lia..]. subst start.
      rewrite decide_True by lia. by rewrite Z.sub_diag.
    + assert (start <> now) by congruence.
      rewrite (IH (Z.succ start)) by (lia || exact Hrest).
      destruct (decide (start <= now < start + Z.succ (Z.of_nat (length rest))))
        as [Hin|Hout].
      * rewrite decide_True by lia.
        replace (Z.to_nat (now - start)) with (S (Z.to_nat (now - Z.succ start)))
          by lia.
        reflexivity.
      * by rewrite decide_False by lia.
Qed.

(** Property X13: For a plan that [generate_plan] returned,
    [get_todays_session] on a day from the generation day up to
    [total_days - 1] days later returns the session of that day, the one at
    that distance from the head of the list; on every other day it returns
    [None]. *)
Theorem todays_session_of_a_generated_plan
    (clock : Clock) (subject0 : string)
    (topics : list string) (goal0 : StudyGoal) (difficulty0 : DifficultyLevel)
    (total_days0 : Z) (daily_hours0 : Q) (exam_date0 : option string)
    (time_preference : TimePreference) (learning_style : string)
    (current_knowledge : option (gmap string Z))
    (weak_areas : option (list string)) (breaks_enabled : bool)
    (plan : StudyPlan) (now : Z) :
  generate_plan clock subject0 topics goal0 difficulty0 total_days0
    daily_hours0 exam_date0 time_preference learning_style current_knowledge
    weak_areas breaks_enabled = Ok plan ->
  1 <= now <= Datetime.MAXORDINAL ->
  get_todays_session now plan
  = if decide (clock_start clock <= now < clock_start clock + total_days0)
    then sessions plan !! Z.to_nat (now - clock_start clock)
    else None.
Proof.
  intros Hplan Hnow. apply generate_plan_sessions in Hplan.
  unfold get_todays_session.
  destruct (sessions plan) as [|s0 rest] eqn:Es.
  - apply Forall2_length in Hplan. rewrite length_seqZ in Hplan.
    simpl in Hplan. simpl. by rewrite decide_False by lia.
  - rewrite <- Es in *.
    pose proof (Forall2_length _ _ _ Hplan) as Hlen.
    rewrite length_seqZ in Hlen.
    assert (Hpos : 0 < total_days0) by (rewrite Es in Hlen; simpl in Hlen; lia).
    destruct (composed_dates _ _ _ _ Hplan) as [Hdates Hrange].
    rewrite seqZ_shift in Hdates, Hrange.
    rewrite Forall_forall in Hrange.
    assert (Hfirst : 1 <= clock_start clock <= Datetime.MAXORDINAL).
    { apply Hrange, elem_of_seqZ. lia. }
    assert (Hlast : 1 <= clock_start clock + total_days0 - 1
                    <= Datetime.MAXORDINAL).
    { apply Hrange, elem_of_seqZ. lia. }
    replace total_days0 with (Z.of_nat (length (sessions plan))) in * by lia.
    apply find_on_consecutive_dates; [exact Hnow | lia | lia | exact Hdates].
Qed.

Lemma todays_session_of_a_generated_plan_witness :
  exists plan : StudyPlan,
    Sample.plan_for 3 (5 # 2) = Ok plan
    /\ get_todays_session 739253 plan = sessions plan !! 1%nat
    /\ get_todays_session 739255 plan = None.
Proof.
  assert (Hsecond : forall plan : StudyPlan,
            Sample.plan_for 3 (5 # 2) = Ok plan ->
            1 <= 739253 <= Datetime.MAXORDINAL ->
            get_todays_session 739253 plan = sessions plan !! 1%nat).
  { intros plan.
    apply (todays_session_of_a_generated_plan Sample.clock
             "Machine Learning" Sample.topics EXAM_PREP INTERMEDIATE 3 (5 # 2)
             (Some "2025-01-20") EVENING "visual"
             (Some Sample.current_knowledge) (Some Sample.weak_areas) true
             plan 739253). }
  assert (Hafter : forall plan : StudyPlan,
            Sample.plan_for 3 (5 # 2) = Ok plan ->
            1 <= 739255 <= Datetime.MAXORDINAL ->
            get_todays_session 739255 plan = None).
  { intros plan.
    apply (todays_session_of_a_generated_plan Sample.clock
             "Machine Learning" Sample.topics EXAM_PREP INTERMEDIATE 3 (5 # 2)
             (Some "2025-01-20") EVENING "visual"
             (Some Sample.current_knowledge) (Some Sample.weak_areas) true
             plan 739255). }
  assert (Hin : 1 <= 739253 <= Datetime.MAXORDINAL)
    by (unfold Datetime.MAXORDINAL; lia).
  assert (Hin' : 1 <= 739255 <= Datetime.MAXORDINAL)
    by (unfold Datetime.MAXORDINAL; lia).
  destruct (Sample.plan_for 3 (5 # 2)) as [plan|e] eqn:E;
    [|vm_compute in E; discriminate].
  exists plan. split; [reflexivity|]. split.
  - exact (Hsecond plan eq_refl Hin).
  - exact (Hafter plan eq_refl Hin').
Defined.

(** ** The first round of the topics *)












(** ** Saving and loading *)

Lemma existing_idx_Some (plans : list StudyPlan) (id : string) (i : nat) :
  existing_idx plans id = Some i ->
  exists p, plans !! i = Some p /\ plan_id p = id
            /\ Forall (fun q => plan_id q <> id) (take i plans).
Proof.
  revert i. induction plans as [|p rest IH]; intros i; simpl; [discriminate|].
  destruct (String.eqb_spec (plan_id p) id) as [E|E].
  - intros [= <-]. exists p. repeat split; [exact E | constructor].
  - destruct (existing_idx rest id) as [j|]; [|discriminate].
    intros [= <-]. destruct (IH j eq_refl) as (q & Hq & Hid & Hbefore).
    exists q. repeat split; [exact Hq | exact Hid |].
    simpl. by constructor.
Qed.

Lemma existing_idx_None (plans : list StudyPlan) (id : string) :
  existing_idx plans id = None <-> Forall (fun q => plan_id q <> id) plans.
Proof.
  induction plans as [|p rest IH]; simpl.
  - split; [constructor | reflexivity].
  - destruct (String.eqb_spec (plan_id p) id) as [E|E].
    + split; [discriminate|]. intros H. apply Forall_cons in H as [H _].
      contradiction.
    + rewrite Forall_cons, <- IH.
      destruct (existing_idx rest id); simpl; split;
        try discriminate; try tauto. intros [_ [=]].
Qed.

Lemma find_plan_first (before after : list StudyPlan) (plan : StudyPlan)
    (id : string) :
  Forall (fun q => plan_id q <> id) before ->
  plan_id plan = id ->
  find_plan (before ++ plan :: after) id = Some plan.
Proof.
  intros Hbefore Hid. induction Hbefore as [|q before Hq _ IH]; simpl.
  - by rewrite Hid, String.eqb_refl.
  - by destruct (String.eqb_spec (plan_id q) id).
Qed.

Lemma find_plan_other (before after : list StudyPlan) (p q : StudyPlan)
    (id : string) :
  plan_id p <> id -> plan_id q <> id ->
  find_plan (before ++ p :: after) id = find_plan (before ++ q :: after) id.
Proof.
  intros Hp Hq. induction before as [|r before IH]; simpl.
  - destruct (String.eqb_spec (plan_id p) id), (String.eqb_spec (plan_id q) id);
      congruence.
  - by rewrite IH.
Qed.

Lemma find_plan_absent (plans : list StudyPlan) (id : string) :
  Forall (fun q => plan_id q <> id) plans -> find_plan plans id = None.
Proof.
  induction 1 as [|q plans Hq _ IH]; simpl; [reflexivity|].
  by destruct (String.eqb_spec (plan_id q) id).
Qed.

Lemma find_plan_app (plans more : list StudyPlan) (id : string) :
  find_plan (plans ++ more) id
  = match find_plan plans id with
    | Some p => Some p
    | None => find_plan more id
    end.
Proof.
  induction plans as [|q plans IH]; simpl; [reflexivity|].
  by destruct (String.eqb (plan_id q) id).
Qed.

(** How [save_plan] changes the list of plans. *)
Lemma save_plan_plans (file : Stored) (plan : StudyPlan) :
  file <> Unreadable ->
  exists file',
    save_plan file plan = (true, file')
    /\ ((exists before old after,
           stored_plans file = (before ++ old :: after)%list
           /\ Forall (fun q => plan_id q <> plan_id plan) before
           /\ plan_id old = plan_id plan
           /\ stored_plans file' = (before ++ plan :: after)%list)
        \/ (Forall (fun q => plan_id q <> plan_id plan) (stored_plans file)
            /\ stored_plans file' = (stored_plans file ++ [plan])%list)).
Proof.
  intros Hfile.
  assert (Hsave : save_plan file plan
            = (true, Holds {| study_plans := Some
                 match existing_idx (stored_plans file) (plan_id plan) with
                 | Some i => <[i := plan]> (stored_plans file)
                 | None => (stored_plans file ++ [plan])%list
                 end |}))
    by (destruct file; [reflexivity | contradiction | reflexivity]).
  eexists. split; [exact Hsave|]. cbn [stored_plans study_plans default].
  destruct (existing_idx (stored_plans file) (plan_id plan)) as [i|] eqn:E.
  - left. apply existing_idx_Some in E as (old & Hi & Hid & Hbefore).
    exists (take i (stored_plans file)), old, (drop (S i) (stored_plans file)).
    pose proof (take_drop_middle _ _ _ Hi) as Hsplit.
    split; [by rewrite Hsplit|]. split; [exact Hbefore|].
    split; [exact Hid|].
    rewrite <- Hsplit at 1.
    rewrite insert_app_r_alt by (rewrite length_take; lia).
    apply lookup_lt_Some in Hi.
    replace (i - length (take i (stored_plans file)))%nat with 0%nat
      by (rewrite length_take; lia).
    reflexivity.
  - right. apply existing_idx_None in E. by split.
Qed.

(** Property X15: After [save_plan] on a file that is missing or
    readable, which returns [True], [load_plan] with the id of the saved
    plan returns that plan, whatever the file held before: a stored plan
    with the same id is replaced, not shadowed. *)
Theorem load_plan_returns_the_saved_plan (file : Stored) (plan : StudyPlan) :
  file <> Unreadable ->
  exists file',
    save_plan file plan = (true, file')
    /\ load_plan (read file') (plan_id plan) = Some plan.
Proof.
  intros Hfile.
  destruct (save_plan_plans file plan Hfile) as (file' & Hsave & Hplans).
  exists file'. split; [exact Hsave|].
  assert (Hload : load_plan (read file') (plan_id plan)
                  = find_plan (stored_plans file') (plan_id plan)).
  { destruct file; [| contradiction |]; by injection Hsave as <-. }
  rewrite Hload.
  destruct Hplans as [(before & old & after & _ & Hbefore & _ & ->)
                     | [Habsent ->]].
  - by apply find_plan_first.
  - rewrite <- (app_nil_r (_ ++ [plan])), <- app_assoc.
    by apply find_plan_first.
Qed.

Lemma load_plan_returns_the_saved_plan_witness :
  exists file',
    save_plan (Holds {| study_plans := Some [Sample.stored_plan] |})
      (with_sessions Sample.stored_plan []) = (true, file')
    /\ load_plan (read file') "plan_20250101_090000"
       = Some (with_sessions Sample.stored_plan []).
Proof.
  apply (load_plan_returns_the_saved_plan
           (Holds {| study_plans := Some [Sample.stored_plan] |})
           (with_sessions Sample.stored_plan [])).
  discriminate.
Defined.

(** Property X16: [save_plan] changes what [load_plan] returns for no
    other id than that of the plan saved. *)
Theorem save_plan_keeps_the_other_plans (file : Stored) (plan : StudyPlan)
    (id : string) :
  id <> plan_id plan ->
  load_plan (read (snd (save_plan file plan))) id = load_plan (read file) id.
Proof.
  intros Hid.
  assert (Hcases : file = Unreadable \/ file <> Unreadable)
    by (destruct file; auto; right; discriminate).
  destruct Hcases as [->|Hfile]; [reflexivity|].
  destruct (save_plan_plans file plan Hfile) as (file' & Hsave & Hplans).
  rewrite Hsave. cbn [snd].
  assert (Hload' : load_plan (read file') id = find_plan (stored_plans file') id).
  { destruct file; [| contradiction |]; by injection Hsave as <-. }
  assert (Hload : load_plan (read file) id = find_plan (stored_plans file) id).
  { by destruct file. }
  rewrite Hload', Hload.
  destruct Hplans as [(before & old & after & -> & _ & Hold & ->)
                     | [_ ->]].
  - apply find_plan_other; congruence.
  - rewrite find_plan_app. destruct (find_plan (stored_plans file) id);
      [reflexivity|].
    simpl. destruct (String.eqb_spec (plan_id plan) id); congruence.
Qed.

Lemma save_plan_keeps_the_other_plans_witness :
  load_plan
    (read (snd (save_plan (Holds {| study_plans := Some [Sample.stored_plan] |})
                  {| plan_id := "plan_20250102_101500";
                     created_at := "2025-01-02T10:15:00.000000";
                     subject := "Statistics";
                     goal := "quick_review";
                     exam_date := None;
                     total_days := 0;
                     daily_hours := 1;
                     difficulty_level := "beginner";
                     sessions := [];
                     milestones := [];
                     weekly_reviews := [];
                     adaptive_recommendations := [];
                     motivational_tips := [] |})))
    "plan_20250101_090000"
  = Some Sample.stored_plan.
Proof.
  rewrite save_plan_keeps_the_other_plans; [reflexivity | discriminate].
Defined.

(** Property X17: [save_plan] keeps the stored ids and their order when
    the id is stored already (the first plan with the id is replaced in
    place) and adds the id at the end otherwise; ids that were distinct
    stay distinct. *)
Theorem save_plan_replaces_in_place_or_appends (file : Stored)
    (plan : StudyPlan) :
  file <> Unreadable ->
  map plan_id (stored_plans (snd (save_plan file plan)))
  = (if bool_decide (plan_id plan ∈ map plan_id (stored_plans file))
     then map plan_id (stored_plans file)
     else map plan_id (stored_plans file) ++ [plan_id plan])%list
  /\ (NoDup (map plan_id (stored_plans file)) ->
      NoDup (map plan_id (stored_plans (snd (save_plan file plan))))).
Proof.
  intros Hfile.
  destruct (save_plan_plans file plan Hfile) as (file' & -> & Hplans).
  cbn [snd].
  assert (Hids : map plan_id (stored_plans file')
    = (if bool_decide (plan_id plan ∈ map plan_id (stored_plans file))
       then map plan_id (stored_plans file)
       else map plan_id (stored_plans file) ++ [plan_id plan])%list).
  { destruct Hplans as [(before & old & after & Hold & _ & Hid & ->)
                       | [Habsent ->]].
    - rewrite bool_decide_eq_true_2.
      + rewrite Hold, !map_app. simpl. by rewrite Hid.
      + rewrite Hold, map_app. apply elem_of_app. right. simpl.
        rewrite Hid. apply list_elem_of_here.
    - rewrite bool_decide_eq_false_2; [by rewrite map_app|].
      intros Hin. apply list_elem_of_fmap in Hin as (q & Hq & Hin).
      rewrite Forall_forall in Habsent. by apply (Habsent q Hin). }
  split; [exact Hids|]. rewrite Hids. intros Hnd.
  case_bool_decide as Hin; [exact Hnd|].
  apply NoDup_app. split; [exact Hnd|]. split; [|apply NoDup_singleton].
  intros x Hx Hx'. apply list_elem_of_singleton in Hx'. by subst.
Qed.

Lemma save_plan_replaces_in_place_or_appends_witness :
  map plan_id
    (stored_plans
       (snd (save_plan (Holds {| study_plans := Some [Sample.stored_plan] |})
               (with_sessions Sample.stored_plan []))))
  = ["plan_20250101_090000"]
  /\ (NoDup ["plan_20250101_090000"] ->
      NoDup (map plan_id
               (stored_plans
                  (snd (save_plan
                          (Holds {| study_plans := Some [Sample.stored_plan] |})
                          (with_sessions Sample.stored_plan [])))))).
Proof.
  apply (save_plan_replaces_in_place_or_appends
           (Holds {| study_plans := Some [Sample.stored_plan] |})
           (with_sessions Sample.stored_plan [])).
  discriminate.
Defined.

(** Property X18: Saving the same plan a second time changes nothing:
    the flag and the file are those of the first save, also for a file that
    cannot be read. *)
Theorem save_plan_twice_is_once (file : Stored) (plan : StudyPlan) :
  save_plan (snd (save_plan file plan)) plan = save_plan file plan.
Proof.
  assert (Hcases : file = Unreadable \/ file <> Unreadable)
    by (destruct file; auto; right; discriminate).
  destruct Hcases as [->|Hfile]; [reflexivity|].
  destruct (save_plan_plans file plan Hfile) as (file' & Hsave & Hplans).
  rewrite Hsave. cbn [snd].
  assert (Hfile' : file' = Holds {| study_plans := Some (stored_plans file') |}).
  { destruct file; [| contradiction |]; by injection Hsave as <-. }
  rewrite Hfile' at 2. rewrite Hfile' at 1.
  unfold save_plan at 1. cbn [study_plans default from_option]. unfold id.
  do 3 f_equal.
  assert (Hfirst : exists before after,
            stored_plans file' = (before ++ plan :: after)%list
            /\ Forall (fun q => plan_id q <> plan_id plan) before).
  { destruct Hplans as [(before & old & after & _ & Hbefore & _ & ->)
                       | [Habsent ->]]; eauto. }
  destruct Hfirst as (before & after & -> & Hbefore).
  assert (Hidx : existing_idx (before ++ plan :: after) (plan_id plan)
                 = Some (length before)).
  { clear -Hbefore. induction Hbefore as [|q before Hq _ IH]; simpl.
    - by rewrite String.eqb_refl.
    - destruct (String.eqb_spec (plan_id q) (plan_id plan)); [contradiction|].
      by rewrite IH. }
  rewrite Hidx. rewrite insert_app_r_alt by lia.
  by rewrite Nat.sub_diag.
Qed.

(** Property X19: A progress update after a save is seen by the next
    load: [load_plan] returns the saved plan with its sessions as
    [update_session_progress] leaves them, the first session with the date
    carrying the flag, the notes and the timestamp. *)
Theorem progress_update_is_seen_by_load_plan (file : Stored)
    (plan : StudyPlan) (now date0 : string) (completed0 : bool)
    (notes0 : string) :
  file <> Unreadable ->
  exists (file' : Stored) (data' : Document),
    save_plan file plan = (true, file')
    /\ update_session_progress (read file') now (plan_id plan) date0
         completed0 notes0
       = (true, Some data')
    /\ load_plan (Some data') (plan_id plan)
       = Some (with_sessions plan
                 (update_sessions (sessions plan) date0 completed0 notes0 now)).
Proof.
  intros Hfile.
  destruct (save_plan_plans file plan Hfile) as (file' & Hsave & Hplans).
  assert (Hfile' : file' = Holds {| study_plans := Some (stored_plans file') |}).
  { destruct file; [| contradiction |]; by injection Hsave as <-. }
  assert (Hfirst : exists before after,
            stored_plans file' = (before ++ plan :: after)%list
            /\ Forall (fun q => plan_id q <> plan_id plan) before).
  { destruct Hplans as [(before & old & after & _ & Hbefore & _ & ->)
                       | [Habsent ->]]; eauto. }
  destruct Hfirst as (before & after & Hsplit & Hbefore).
  exists file'. eexists. split; [exact Hsave|].
  rewrite Hfile', Hsplit. cbn [read update_session_progress study_plans].
  split; [reflexivity|].
  cbn [load_plan study_plans default from_option]. unfold id.
  rewrite (update_plans_first _ _ _ _ _ _ _ _ Hbefore eq_refl).
  by apply find_plan_first.
Qed.

Lemma progress_update_is_seen_by_load_plan_witness :
  exists (file' : Stored) (data' : Document),
    save_plan Missing Sample.stored_plan = (true, file')
    /\ update_session_progress (read file') "2025-01-02T21:15:00.000000"
         "plan_20250101_090000" "2025-01-02" true "done"
       = (true, Some data')
    /\ load_plan (Some data') "plan_20250101_090000"
       = Some (with_sessions Sample.stored_plan
                 [ Sample.session "2025-01-01";
                   set_progress (Sample.session "2025-01-02") true "done"
                     "2025-01-02T21:15:00.000000" ]).
Proof.
  apply (progress_update_is_seen_by_load_plan Missing Sample.stored_plan
           "2025-01-02T21:15:00.000000" "2025-01-02" true "done").
  discriminate.
Defined.

(** Property X20: For an id that [load_plan] does not find,
    [update_session_progress] writes the file back as it was and still
    returns [True]. *)
Theorem update_for_an_unknown_plan_changes_nothing (data : Document)
    (now id date0 : string) (completed0 : bool) (notes0 : string) :
  load_plan (Some data) id = None ->
  update_session_progress (Some data) now id date0 completed0 notes0
  = (true, Some data).
Proof.
  destruct data as [[plans|]]; [|reflexivity].
  cbn [load_plan update_session_progress study_plans default from_option].
  unfold Datatypes.id. intros Hnone. do 4 f_equal.
  induction plans as [|p plans IH]; [reflexivity|].
  simpl in *. destruct (String.eqb (plan_id p) id); [discriminate|].
  by rewrite IH.
Qed.

Lemma update_for_an_unknown_plan_changes_nothing_witness :
  update_session_progress Sample.file "2025-01-02T21:15:00.000000"
    "plan_20250303_120000" "2025-01-02" true "done"
  = (true, Sample.file).
Proof.
  apply (update_for_an_unknown_plan_changes_nothing
           {| study_plans := Some [Sample.stored_plan] |}).
  reflexivity.
Defined.

Lemma update_sessions_twice (sessions0 : list StudySession) (date0 : string)
    (c1 c2 : bool) (n1 n2 now1 now2 : string) :
  update_sessions (update_sessions sessions0 date0 c1 n1 now1) date0 c2 n2 now2
  = update_sessions sessions0 date0 c2 n2 now2.
Proof.
  induction sessions0 as [|s rest IH]; [reflexivity|]. simpl.
  destruct (String.eqb (session_date s) date0) eqn:E; simpl; rewrite E.
  - reflexivity.
  - by rewrite IH.
Qed.

(** Property X21: Of two progress updates for the same plan and date
    the second one wins: the outcome is that of the second update alone. *)
Theorem later_progress_update_wins (file : option Document)
    (now1 now2 id date0 : string) (c1 c2 : bool) (n1 n2 : string) :
  update_session_progress
    (snd (update_session_progress file now1 id date0 c1 n1))
    now2 id date0 c2 n2
  = update_session_progress file now2 id date0 c2 n2.
Proof.
  destruct file as [[[plans|]]|]; [|reflexivity..].
  cbn [update_session_progress snd study_plans]. do 4 f_equal.
  induction plans as [|p plans IH]; [reflexivity|]. simpl.
  destruct (String.eqb (plan_id p) id) eqn:E; simpl; rewrite E.
  - by rewrite update_sessions_twice.
  - by rewrite IH.
Qed.

(** * Properties of the dashboard *)

Lemma completed_loop_from (sessions0 : list StudySession) (count : Z) :
  fold_left (fun count s => if completed s then count + 1 else count)
    sessions0 count
  = count + Z.of_nat (length (filter (fun s => completed s = true) sessions0)).
Proof.
  revert count. induction sessions0 as [|s rest IH]; intros count; simpl.
  - lia.
  - rewrite IH, filter_cons.
    destruct (decide (completed s = true)) as [E|E].
    + rewrite E. simpl. lia.
    + apply not_true_is_false in E. rewrite E. lia.
Qed.

Lemma completed_sessions_count (plan : StudyPlan) :
  App.completed_sessions plan
  = Z.of_nat (length (filter (fun s => completed s = true) (sessions plan))).
Proof. unfold App.completed_sessions. by rewrite completed_loop_from. Qed.

(** Property X22: The progress metric of the dashboard never fails and
    lies between 0 and 100: the division is guarded, and a plan without
    sessions shows 0. *)
Theorem progress_is_a_percentage (plan : StudyPlan) :
  exists p : Q,
    App.progress plan = Ok p
    /\ (0 <= p <= 100)%Q
    /\ (sessions plan = [] -> p = 0%Q).
Proof.
  unfold App.progress. rewrite completed_sessions_count.
  pose proof (length_filter (fun s => completed s = true) (sessions plan))
    as Hle.
  destruct (Z.ltb_spec 0 (Z.of_nat (length (sessions plan)))) as [Hpos|Hzero].
  - rewrite py_truediv_ok
      by (intros E; unfold Qeq in E; simpl in E; lia).
    cbn [bind]. eexists. split; [reflexivity|]. split.
    + set (c := Z.of_nat (length (filter _ (sessions plan)))) in *.
      set (n := Z.of_nat (length (sessions plan))) in *.
      assert (Hc : (0 <= inject_Z c)%Q)
        by (change 0%Q with (inject_Z 0); rewrite <- Zle_Qle; lia).
      assert (Hn : (0 < inject_Z n)%Q)
        by (change 0%Q with (inject_Z 0); rewrite <- Zlt_Qlt; lia).
      assert (Hcn : (inject_Z c <= inject_Z n)%Q)
        by (rewrite <- Zle_Qle; lia).
      clearbody c n. split.
      * apply Qmult_le_0_compat; [|discriminate].
        apply Qle_shift_div_l; [exact Hn|]. lra.
      * assert (H1 : (inject_Z c / inject_Z n <= 1)%Q)
          by (apply Qle_shift_div_r; [exact Hn | lra]).
        lra.
    + intros E. rewrite E in Hpos. simpl in Hpos. lia.
  - exists 0%Q. repeat split; discriminate.
Qed.

Lemma filter_completed_app (pre post : list StudySession) :
  length (filter (fun s => completed s = true) (pre ++ post)%list)
  = (length (filter (fun s => completed s = true) pre)
     + length (filter (fun s => completed s = true) post))%nat.
Proof. by rewrite filter_app, length_app. Qed.

(** Property X23: Marking a session as completed, by its date, raises
    the count of completed sessions by one if the first session with that
    date was open, and leaves the count as it was if not. *)
Theorem marking_a_session_complete_counts_once (plan : StudyPlan)
    (pre post : list StudySession) (s : StudySession)
    (date0 notes0 now : string) :
  sessions plan = (pre ++ s :: post)%list ->
  date0 ∉ map session_date pre ->
  session_date s = date0 ->
  App.completed_sessions
    (with_sessions plan (update_sessions (sessions plan) date0 true notes0 now))
  = App.completed_sessions plan + (if completed s then 0 else 1).
Proof.
  intros Hsessions Habsent Hdate.
  rewrite !completed_sessions_count. cbn [sessions with_sessions].
  rewrite Hsessions, (update_sessions_present _ _ _ _ _ _ _ Habsent Hdate).
  rewrite !filter_completed_app, !filter_cons. cbn [completed set_progress].
  rewrite decide_True by reflexivity.
  destruct (decide (completed s = true)) as [E|E].
  - rewrite E. simpl. lia.
  - apply not_true_is_false in E. rewrite E. simpl. lia.
Qed.

Lemma marking_a_session_complete_counts_once_witness :
  App.completed_sessions
    (with_sessions Sample.stored_plan
       (update_sessions (sessions Sample.stored_plan) "2025-01-02" true "done"
          "2025-01-02T21:15:00.000000"))
  = App.completed_sessions Sample.stored_plan + 1.
Proof.
  apply (marking_a_session_complete_counts_once Sample.stored_plan
           [Sample.session "2025-01-01"] [] (Sample.session "2025-01-02")
           "2025-01-02" "done" "2025-01-02T21:15:00.000000").
  - reflexivity.
  - simpl. intros H. apply elem_of_cons in H as [H|H]; [discriminate|].
    by apply elem_of_nil in H.
  - reflexivity.
Defined.

Lemma generate_plan_milestones (clock : Clock) (subject0 : string)
    (topics : list string) (goal0 : StudyGoal) (difficulty0 : DifficultyLevel)
    (total_days0 : Z) (daily_hours0 : Q) (exam_date0 : option string)
    (time_preference : TimePreference) (learning_style : string)
    (current_knowledge : option (gmap string Z))
    (weak_areas : option (list string)) (breaks_enabled : bool)
    (plan : StudyPlan) :
  generate_plan clock subject0 topics goal0 difficulty0 total_days0
    daily_hours0 exam_date0 time_preference learning_style current_knowledge
    weak_areas breaks_enabled = Ok plan ->
  _create_milestones topics total_days0 goal0 = Ok (milestones plan).
Proof.
  unfold generate_plan. intros H. invert_binds H.
  injection H as <-. cbn [milestones]. assumption.
Qed.

(** Property X24: A plan fresh from [generate_plan] has no completed
    session, and the milestones tab shows one of its milestones as achieved
    exactly when the plan has fewer than four days: the first milestone is
    then on day 0, and [completed >= day] holds from the start. *)
Theorem fresh_plan_shows_a_milestone_achieved_iff_short
    (clock : Clock) (subject0 : string)
    (topics : list string) (goal0 : StudyGoal) (difficulty0 : DifficultyLevel)
    (total_days0 : Z) (daily_hours0 : Q) (exam_date0 : option string)
    (time_preference : TimePreference) (learning_style : string)
    (current_knowledge : option (gmap string Z))
    (weak_areas : option (list string)) (breaks_enabled : bool)
    (plan : StudyPlan) :
  generate_plan clock subject0 topics goal0 difficulty0 total_days0
    daily_hours0 exam_date0 time_preference learning_style current_knowledge
    weak_areas breaks_enabled = Ok plan ->
  App.completed_sessions plan = 0
  /\ (Exists (fun m => App.is_achieved plan m = true) (milestones plan)
      <-> total_days0 < 4).
Proof.
  intros Hplan.
  pose proof (generate_plan_milestones _ _ _ _ _ _ _ _ _ _ _ _ _ _ Hplan)
    as Hms.
  rewrite create_milestones_value in Hms. injection Hms as Hms.
  apply generate_plan_filled in Hplan.
  assert (Hnone : App.completed_sessions plan = 0).
  { rewrite completed_sessions_count.
    induction Hplan as [|day s days sessions0 Hfilled _ IH]; [reflexivity|].
    destruct Hfilled as (_ & _ & _ & _ & _ & _ & _ & _ & _ & _ & _ & Hc & _).
    rewrite filter_cons, decide_False by (rewrite Hc; discriminate).
    exact IH. }
  split; [exact Hnone|].
  rewrite <- Hms. unfold App.is_achieved. rewrite Hnone.
  rewrite !Exists_cons, Exists_nil. cbn [milestone_day milestone_at].
  rewrite !Z.leb_le.
  destruct (Z.le_gt_cases 0 total_days0) as [Hpos|Hneg].
  - rewrite !Z.quot_div_nonneg by lia. split.
    + intros H. Z.div_mod_to_equations. lia.
    + intros H. left. Z.div_mod_to_equations. lia.
  - split; [lia|]. intros _. do 3 right. left. lia.
Qed.

Lemma fresh_plan_shows_a_milestone_achieved_iff_short_witness :
  exists plan : StudyPlan,
    Sample.plan_for 3 (5 # 2) = Ok plan
    /\ App.completed_sessions plan = 0
    /\ (Exists (fun m => App.is_achieved plan m = true) (milestones plan)
        <-> 3 < 4).
Proof.
  assert (Hfresh : forall plan : StudyPlan,
            Sample.plan_for 3 (5 # 2) = Ok plan ->
            App.completed_sessions plan = 0
            /\ (Exists (fun m => App.is_achieved plan m = true)
                  (milestones plan)
                <-> 3 < 4)).
  { intros plan.
    apply (fresh_plan_shows_a_milestone_achieved_iff_short Sample.clock
             "Machine Learning" Sample.topics EXAM_PREP INTERMEDIATE 3 (5 # 2)
             (Some "2025-01-20") EVENING "visual"
             (Some Sample.current_knowledge) (Some Sample.weak_areas) true
             plan). }
  destruct (Sample.plan_for 3 (5 # 2)) as [plan|e] eqn:E;
    [|vm_compute in E; discriminate].
  exists plan. split; [reflexivity | exact (Hfresh plan eq_refl)].
Defined.

Lemma streak_loop_from (done rest : list StudySession) (streak : Z) :
  Forall (fun s => completed s = true) done ->
  App.streak_loop (done ++ rest) streak
  = App.streak_loop rest (streak + Z.of_nat (length done)).
Proof.
  intros Hdone. revert streak.
  induction Hdone as [|s done Hs _ IH]; intros streak; simpl.
  - f_equal. lia.
  - rewrite Hs, IH. f_equal. lia.
Qed.

(** Property X25: The study streak of the dashboard counts the completed
    sessions at the end of the plan, back from the last session to the
    first open one: it is the length of the completed tail, hence 0 as long
    as the last session of the plan is open. *)
Theorem streak_counts_back_from_the_last_session (plan : StudyPlan)
    (done : list StudySession) :
  Forall (fun s => completed s = true) done ->
  (sessions plan = done -> App.streak plan = Z.of_nat (length done))
  /\ (forall (pre : list StudySession) (s : StudySession),
        sessions plan = (pre ++ s :: done)%list ->
        completed s = false ->
        App.streak plan = Z.of_nat (length done)).
Proof.
  intros Hdone.
  assert (Hrev : Forall (fun s => completed s = true) (rev done))
    by (by apply Forall_rev).
  unfold App.streak. split.
  - intros ->. rewrite <- (app_nil_r (rev done)).
    rewrite streak_loop_from by exact Hrev. simpl.
    by rewrite length_rev.
  - intros pre s -> Hs. rewrite rev_app_distr. simpl. rewrite <- app_assoc.
    rewrite streak_loop_from by exact Hrev. simpl. rewrite Hs.
    by rewrite length_rev.
Qed.

Lemma streak_counts_back_from_the_last_session_witness :
  App.streak
    (with_sessions Sample.stored_plan
       [ set_progress (Sample.session "2025-01-01") true "done"
           "2025-01-01T21:15:00.000000";
         Sample.session "2025-01-02" ])
  = 0.
Proof.
  destruct (streak_counts_back_from_the_last_session
              (with_sessions Sample.stored_plan
                 [ set_progress (Sample.session "2025-01-01") true "done"
                     "2025-01-01T21:15:00.000000";
                   Sample.session "2025-01-02" ]) [])
    as [_ Hlast]; [constructor|].
  apply (Hlast [ set_progress (Sample.session "2025-01-01") true "done"
                   "2025-01-01T21:15:00.000000" ]
           (Sample.session "2025-01-02")); reflexivity.
Defined.

Lemma distribution_loop_get (t : string) (sessions0 : list StudySession) :
  forall d : PyDict.t Z,
    PyDict.get
      (fold_left
         (fun topics session =>
            PyDict.set topics (topic session)
              (default 0 (PyDict.get topics (topic session)) + 1))
         sessions0 d) t
    = if decide (sessions_on t sessions0 = 0) then PyDict.get d t
      else Some (default 0 (PyDict.get d t) + sessions_on t sessions0).
Proof.
  unfold sessions_on.
  induction sessions0 as [|s rest IH]; intros d.
  - reflexivity.
  - cbn [fold_left]. rewrite IH, filter_cons.
    destruct (decide (topic s = t)) as [E|E].
    + rewrite E, dict_get_set. cbn [length default from_option].
      unfold Datatypes.id.
      generalize (length (filter (fun s0 => topic s0 = t) rest)) as n.
      intros n. rewrite (decide_False (P := Z.of_nat (S n) = 0)) by lia.
      destruct (decide (Z.of_nat n = 0)); f_equal; lia.
    + by rewrite dict_get_set_other by exact E.
Qed.

Lemma distribution_loop_keys (sessions0 : list StudySession) :
  forall d : PyDict.t Z,
    NoDup (PyDict.keys d) ->
    NoDup (PyDict.keys
             (fold_left
                (fun topics session =>
                   PyDict.set topics (topic session)
                     (default 0 (PyDict.get topics (topic session)) + 1))
                sessions0 d)).
Proof.
  induction sessions0 as [|s rest IH]; intros d Hd; [exact Hd|].
  cbn [fold_left]. apply IH. by apply dict_set_keys_NoDup.
Qed.

(** Property X26: The topic distribution chart has one label for each
    topic that has a session, none twice, and the value of a label is the
    number of sessions on its topic. *)
Theorem topic_distribution_counts_the_sessions (plan : StudyPlan) (t : string) :
  PyDict.get (App.topic_distribution plan) t
  = (if decide (sessions_on t (sessions plan) = 0) then None
     else Some (sessions_on t (sessions plan)))
  /\ NoDup (PyDict.keys (App.topic_distribution plan)).
Proof.
  unfold App.topic_distribution. split.
  - rewrite distribution_loop_get. simpl.
    destruct (decide (sessions_on t (sessions plan) = 0)); [reflexivity|].
    f_equal.
  - apply distribution_loop_keys. constructor.
Qed.
